(** * Pinpad journal analyzer: parser, expander, segmenters and rule engine

    A shallow embedding of the core of [pinpad_analyzer]:
    - [ingestion/parser.py]            ([LogParser.parse_line])
    - [ingestion/repeat_expander.py]   ([RepeatExpander.process])
    - [segmentation/state_machine.py]  ([SCATStateMachine])
    - [segmentation/health_segmenter.py]
    - [segmentation/transaction_segmenter.py]
    - [segmentation/error_cascade.py]  ([ErrorCascadeDetector])
    - [ingestion/file_reader.py]       ([FileReader.parse_lines],
                                        [FileReader.read_entries])
    - [storage/repositories.py]        ([SCATTimelineRepo.insert_batch])
    - [ml/rules.py]                    ([RuleEngine.analyze_file] and its
                                        eight detectors)

    Conventions of the embedding.
    - Python [str] is [string]; characters are 8-bit, and the classes
      [\d], [\w], [\s] are the ASCII ones.
    - A naive [datetime] is the number of microseconds since
      0001-01-01 00:00:00 (a [Z]); a [timedelta] is a [Z] of microseconds.
    - Python [float] values are exact rationals ([Q]) wherever the code
      compares a float against a constant that is exactly representable.
      The one test between two computed floats, that of the morning
      spike, is made in binary64 ([Float64]).
    - A generator is the list of the values it yields, together with the
      final state of the object that owns it.
    - A call that may raise returns a value of [outcome]. *)

From Stdlib Require Import ZArith QArith List String Ascii Bool Lia Arith.
From Stdlib Require Import Sorting.Sorted DecimalString Lqa Qminmax.
From Stdlib Require PrimFloat Uint63.
Import ListNotations.
Open Scope string_scope.
Open Scope list_scope.

(* ================================================================== *)
(** ** Python strings *)

Module Str.

Definition code (a : ascii) : nat := nat_of_ascii a.

Definition between (lo hi : nat) (a : ascii) : bool :=
  (lo <=? code a)%nat && (code a <=? hi)%nat.

(** [str.isdigit] on an ASCII character. *)
Definition is_digit (a : ascii) : bool := between 48 57 a.

(** [\w]: letters, digits and the underscore. *)
Definition is_word (a : ascii) : bool :=
  between 48 57 a || between 65 90 a || between 97 122 a || (code a =? 95)%nat.

(** [str.isspace]: TAB, LF, VT, FF, CR, FS, GS, RS, US and the blank. *)
Definition is_space (a : ascii) : bool :=
  between 9 13 a || between 28 31 a || (code a =? 32)%nat.

Fixpoint lstrip (s : string) : string :=
  match s with
  | String a s' => if is_space a then lstrip s' else s
  | EmptyString => EmptyString
  end.

(** [s.rstrip()]: the characters of [s] up to its last non-blank one. *)
Fixpoint rstrip (s : string) : string :=
  match s with
  | EmptyString => EmptyString
  | String a s' =>
      match rstrip s' with
      | EmptyString => if is_space a then EmptyString else String a EmptyString
      | r => String a r
      end
  end.

Definition strip (s : string) : string := lstrip (rstrip s).

(** [needle in s]. *)
Fixpoint contains (needle s : string) : bool :=
  prefix needle s ||
  match s with
  | EmptyString => false
  | String _ s' => contains needle s'
  end.

(** [s.startswith(p)]. *)
Definition startswith (p s : string) : bool := prefix p s.

(** Value of a string of decimal digits, most significant first. *)
Fixpoint digits_value (acc : Z) (s : string) : Z :=
  match s with
  | EmptyString => acc
  | String a s' => digits_value (10 * acc + Z.of_nat (code a - 48)) s'
  end.

Fixpoint all_digits (s : string) : bool :=
  match s with
  | EmptyString => true
  | String a s' => is_digit a && all_digits s'
  end.

(** [int(s)] for a non-empty run of digits; anything else raises
    [ValueError] ([None]). *)
Definition py_int (s : string) : option Z :=
  match s with
  | EmptyString => None
  | _ => if all_digits s then Some (digits_value 0 s) else None
  end.

(** [int(s)] where [s] is what a group over [\d] captured: a non-empty
    run of digits, on which [int] does not fail. *)
Definition int_of_digits (s : string) : Z := digits_value 0 s.

(** Split at the first dot. *)
Fixpoint split_dot (s : string) : string * option string :=
  match s with
  | EmptyString => (EmptyString, None)
  | String a s' =>
      if (code a =? 46)%nat then (EmptyString, Some s')
      else let '(i, f) := split_dot s' in (String a i, f)
  end.

(** [float(s)] for a text over the alphabet [[0-9.]]: digits with at
    most one dot and at least one digit; anything else raises
    [ValueError] ([None]). *)
Definition py_float (s : string) : option Q :=
  match split_dot s with
  | (i, None) =>
      match py_int i with
      | Some z => Some (inject_Z z)
      | None => None
      end
  | (i, Some f) =>
      if all_digits i && all_digits f && negb (Nat.eqb (length i + length f) 0)
      then Some (Qmake (digits_value 0 (i ++ f)%string)
                       (Z.to_pos (10 ^ Z.of_nat (length f))))
      else None
  end.

(** [str(n)] for an integer. *)
Definition of_Z (z : Z) : string :=
  DecimalString.NilZero.string_of_int (Z.to_int z).

(** [sep.join(parts)]. *)
Fixpoint join (sep : string) (parts : list string) : string :=
  match parts with
  | [] => EmptyString
  | [p] => p
  | p :: rest => (p ++ sep ++ join sep rest)%string
  end.

End Str.

(* ================================================================== *)
(** ** Regular expressions of Python's [re], as a backtracking matcher

    Only the constructs the program's patterns use.  Alternatives are
    tried left to right, a greedy quantifier tries the longer match
    first and a lazy one the shorter, and [search] returns the leftmost
    match: the priorities of [re]. *)

Module Re.

(** Character sets. *)
Inductive cset : Type :=
| CLit (c : ascii)             (* a literal character *)
| CDigit                       (* \d *)
| CWord                        (* \w *)
| CSpace                       (* \s *)
| CRange (lo hi : ascii)       (* lo-hi inside brackets *)
| CAll                         (* . under re.DOTALL *)
| CDot                         (* . otherwise: anything but a newline *)
| COr (a b : cset)             (* union inside brackets *)
| CNot (a : cset).             (* [^...] and \S *)

Fixpoint cset_mem (cs : cset) (a : ascii) : bool :=
  match cs with
  | CLit c => Ascii.eqb c a
  | CDigit => Str.is_digit a
  | CWord => Str.is_word a
  | CSpace => Str.is_space a
  | CRange lo hi => Str.between (Str.code lo) (Str.code hi) a
  | CAll => true
  | CDot => negb (Str.code a =? 10)%nat
  | COr x y => cset_mem x a || cset_mem y a
  | CNot x => negb (cset_mem x a)
  end.

Inductive regex : Type :=
| Eps
| Chr (cs : cset)
| Cat (r1 r2 : regex)
| Alt (r1 r2 : regex)              (* r1|r2 *)
| Star (greedy : bool) (r : regex) (* r* and r*? *)
| Grp (n : nat) (r : regex)        (* the n-th capturing group *)
| Bol                              (* ^ *)
| Eol.                             (* $ *)

(** Captured groups, most recent binding first. *)
Definition caps : Type := list (nat * string).

(** [m.group(n)]: [None] when the group took no part in the match. *)
Fixpoint group (n : nat) (c : caps) : option string :=
  match c with
  | [] => None
  | (k, v) :: c' => if Nat.eqb k n then Some v else group n c'
  end.

Definition orelse {A : Type} (x y : option A) : option A :=
  match x with
  | Some _ => x
  | None => y
  end.

(** The first [length s - length s'] characters of [s]: the text
    consumed between two positions of one match. *)
Definition consumed (s s' : string) : string :=
  substring 0 (length s - length s') s.

Section Matcher.

Context {A : Type}.

(** Length of the whole subject, to recognise its start. *)
Variable total : nat.

(** [run r s c k]: match [r] at the front of [s] with groups [c], and
    hand the rest of the subject to [k]; [None] makes the matcher
    backtrack.  An iteration of a starred expression has to consume a
    character, which every starred expression of the program does. *)
Fixpoint run (r : regex) (s : string) (c : caps)
         (k : string -> caps -> option A) {struct r} : option A :=
  match r with
  | Eps => k s c
  | Chr cs =>
      match s with
      | String a s' => if cset_mem cs a then k s' c else None
      | EmptyString => None
      end
  | Cat r1 r2 => run r1 s c (fun s' c' => run r2 s' c' k)
  | Alt r1 r2 => orelse (run r1 s c k) (run r2 s c k)
  | Star greedy r1 =>
      (fix loop (fuel : nat) (s : string) (c : caps) {struct fuel} : option A :=
         match fuel with
         | O => k s c
         | S fuel' =>
             let again :=
               run r1 s c (fun s' c' =>
                 if (length s' <? length s)%nat then loop fuel' s' c' else None) in
             if greedy then orelse again (k s c) else orelse (k s c) again
         end) (length s) s c
  | Grp n r1 => run r1 s c (fun s' c' => k s' ((n, consumed s s') :: c'))
  | Bol => if Nat.eqb (length s) total then k s c else None
  | Eol =>
      match s with
      | EmptyString => k s c
      | String a EmptyString => if (Str.code a =? 10)%nat then k s c else None
      | _ => None
      end
  end.

End Matcher.

(** [pattern.match(s)]: a match starting at the first character. *)
Definition rmatch (r : regex) (s : string) : option caps :=
  run (length s) r s [] (fun _ c => Some c).

(** [pattern.search(s)]: the leftmost match. *)
Definition search (r : regex) (s : string) : option caps :=
  (fix scan (t : string) : option caps :=
     orelse (run (length s) r t [] (fun _ c => Some c))
            match t with
            | EmptyString => None
            | String _ t' => scan t'
            end) s.

(** *** Notation of patterns *)

Fixpoint lit (s : string) : regex :=
  match s with
  | EmptyString => Eps
  | String a EmptyString => Chr (CLit a)
  | String a s' => Cat (Chr (CLit a)) (lit s')
  end.

Fixpoint seq (rs : list regex) : regex :=
  match rs with
  | [] => Eps
  | [r] => r
  | r :: rs' => Cat r (seq rs')
  end.

Definition star (r : regex) : regex := Star true r.          (* r*  *)
Definition lazy_star (r : regex) : regex := Star false r.    (* r*? *)
Definition plus (r : regex) : regex := Cat r (Star true r).  (* r+  *)
Definition opt (r : regex) : regex := Alt r Eps.             (* r?  *)
Fixpoint times (n : nat) (r : regex) : regex :=              (* r{n} *)
  match n with
  | O => Eps
  | S O => r
  | S n' => Cat r (times n' r)
  end.
Fixpoint alts (rs : list regex) : regex :=
  match rs with
  | [] => Eps
  | [r] => r
  | r :: rs' => Alt r (alts rs')
  end.

Definition d : regex := Chr CDigit.                  (* \d *)
Definition w : regex := Chr CWord.                   (* \w *)
Definition sp : regex := Chr CSpace.                 (* \s *)
Definition nsp : regex := Chr (CNot CSpace).         (* \S *)
Definition dot : regex := Chr CDot.                  (* .  *)
Definition none_of (s : string) : regex :=           (* [^...] *)
  Chr (CNot (fold_right (fun a acc => COr (CLit a) acc) (CNot CAll)
                        (list_ascii_of_string s))).

End Re.

(* ================================================================== *)
(** ** Exceptions *)

Inductive exn : Type := ValueError.

(** The result of a call that may raise. *)
Inductive outcome (A : Type) : Type :=
| Returned (a : A)
| Raised (e : exn).
Arguments Returned {A} a.
Arguments Raised {A} e.

Definition bind {A B : Type} (x : outcome A) (f : A -> outcome B) : outcome B :=
  match x with
  | Returned a => f a
  | Raised e => Raised e
  end.

(** A conversion that fails with [ValueError]. *)
Definition or_value_error {A : Type} (x : option A) : outcome A :=
  match x with
  | Some a => Returned a
  | None => Raised ValueError
  end.

(** What a generator did: the values it yielded, and the exception that
    ended it, if one did. *)
Definition generated (A : Type) : Type := (list A * option exn)%type.

(* ================================================================== *)
(** ** [datetime] *)

(** Microseconds since 0001-01-01 00:00:00. *)
Definition datetime : Type := Z.

Module Datetime.


Definition is_leap (y : Z) : bool :=
  ((y mod 4 =? 0) && (negb (y mod 100 =? 0) || (y mod 400 =? 0)))%Z.

Definition days_in_month (y m : Z) : Z :=
  if (m =? 2)%Z then (if is_leap y then 29 else 28)
  else if ((m =? 4) || (m =? 6) || (m =? 9) || (m =? 11))%Z then 30 else 31.

Definition days_before_year (y : Z) : Z :=
  let p := (y - 1)%Z in (p * 365 + p / 4 - p / 100 + p / 400)%Z.

Fixpoint days_before_month_aux (y : Z) (n : nat) : Z :=
  match n with
  | O => 0
  | S n' => (days_before_month_aux y n' + days_in_month y (Z.of_nat n))%Z
  end.

(** Days of the year [y] before the first day of month [m]. *)
Definition days_before_month (y m : Z) : Z :=
  days_before_month_aux y (Z.to_nat (m - 1)).

(** Proleptic Gregorian ordinal; 0001-01-01 is day 1. *)
Definition ymd2ord (y m dd : Z) : Z :=
  (days_before_year y + days_before_month y m + dd)%Z.

(** [datetime(y, m, d, H, M, S, us)]: [ValueError] on a field out of
    range. *)
Definition make (y m dd H M S us : Z) : option datetime :=
  if ((1 <=? y) && (y <=? 9999) && (1 <=? m) && (m <=? 12)
      && (1 <=? dd) && (dd <=? days_in_month y m)
      && (0 <=? H) && (H <=? 23) && (0 <=? M) && (M <=? 59)
      && (0 <=? S) && (S <=? 59) && (0 <=? us) && (us <=? 999999))%Z
  then Some ((((ymd2ord y m dd - 1) * 86400 + H * 3600 + M * 60 + S)
              * 1000000 + us)%Z)
  else None.

(** [(a - b).total_seconds()]. *)
Definition total_seconds (delta : Z) : Q := Qmake delta 1000000.

Import Re.

Definition digit_in (lo hi : string) : regex :=
  match lo, hi with
  | String a _, String b _ => Chr (CRange a b)
  | _, _ => Eps
  end.

(** The expression [_strptime] compiles the format
    ["%m/%d/%y %H:%M:%S.%f"] to; the groups are numbered
    m, d, y, H, M, S, f = 1..7. *)
Definition TIMESTAMP_FORMAT : regex :=
  seq [ Grp 1 (alts [ Cat (lit "1") (digit_in "0" "2");
                      Cat (lit "0") (digit_in "1" "9");
                      digit_in "1" "9" ]);
        lit "/";
        Grp 2 (alts [ Cat (lit "3") (digit_in "0" "1");
                      Cat (digit_in "1" "2") d;
                      Cat (lit "0") (digit_in "1" "9");
                      digit_in "1" "9";
                      Cat (lit " ") (digit_in "1" "9") ]);
        lit "/";
        Grp 3 (Cat d d);
        plus sp;
        Grp 4 (alts [ Cat (lit "2") (digit_in "0" "3");
                      Cat (digit_in "0" "1") d;
                      d ]);
        lit ":";
        Grp 5 (alts [ Cat (digit_in "0" "5") d; d ]);
        lit ":";
        Grp 6 (alts [ Cat (lit "6") (digit_in "0" "1");
                      Cat (digit_in "0" "5") d;
                      d ]);
        lit ".";
        Grp 7 (seq [ digit_in "0" "9"; opt (digit_in "0" "9"); opt (digit_in "0" "9");
                     opt (digit_in "0" "9"); opt (digit_in "0" "9");
                     opt (digit_in "0" "9") ]) ].

Definition field (n : nat) (c : caps) : Z :=
  match group n c with
  | Some v => Str.digits_value 0 (Str.strip v)
  | None => 0
  end.

(** [%f]: the digits, padded with zeros on the right to six. *)
Definition fraction (c : caps) : Z :=
  match group 7 c with
  | Some v => (Str.digits_value 0 v * 10 ^ Z.of_nat (6 - length v))%Z
  | None => 0
  end.

(** [datetime.strptime(s, "%m/%d/%y %H:%M:%S.%f")]: the whole of [s] has
    to match the format, a two-digit year below 69 is in 2000-2068 and
    the others in 1969-1999, and the fields have to make a date-time.
    [None] is [ValueError]. *)
Definition strptime (s : string) : option datetime :=
  match run (length s) TIMESTAMP_FORMAT s []
            (fun rest c => match rest with
                           | EmptyString => Some c
                           | _ => None
                           end) with
  | None => None
  | Some c =>
      let yy := field 3 c in
      let y := (if yy <? 69 then 2000 + yy else 1900 + yy)%Z in
      make y (field 1 c) (field 2 c) (field 4 c) (field 5 c) (field 6 c)
           (fraction c)
  end.

End Datetime.

(* ================================================================== *)
(** ** [ingestion/models.py] *)

Record LogEntry : Type := mkLogEntry {
  line_number : Z;
  timestamp : datetime;
  category : string;
  message : string;
  is_expanded : bool;
  expansion_count : Z;
  source_file : string
}.

Record RepeatDirective : Type := mkRepeatDirective {
  line_count : Z;
  repeat_count : Z;
  rd_line_number : Z
}.

(** [LogEntry | RepeatDirective]: what [parse_lines] yields. *)
Inductive item : Type :=
| Entry (e : LogEntry)
| Directive (rd : RepeatDirective).

(** [ParseResult = Union[LogEntry, RepeatDirective, None]]. *)
Definition ParseResult : Type := option item.

(* ================================================================== *)
(** ** [ingestion/parser.py] *)

Module Parser.

Import Re.

(** "^(\d{2}/\d{2}/\d{2} \d{2}:\d{2}:\d{2}\.\d{3})"
    " (TCP/IP|DLL-IN|DLL-EX|SERIAL|SVREPS|METRIC|MTXPOS)"
    and, after one blank, the rest of the line as the third group
    (dot-star, then the end of the subject), under [re.DOTALL]. *)
Definition LINE_PATTERN : regex :=
  seq [ Bol;
        Grp 1 (seq [ times 2 d; lit "/"; times 2 d; lit "/"; times 2 d; lit " ";
                     times 2 d; lit ":"; times 2 d; lit ":"; times 2 d; lit ".";
                     times 3 d ]);
        lit " ";
        Grp 2 (alts [ lit "TCP/IP"; lit "DLL-IN"; lit "DLL-EX"; lit "SERIAL";
                      lit "SVREPS"; lit "METRIC"; lit "MTXPOS" ]);
        lit " ";
        Grp 3 (star (Chr CAll));
        Eol ].

(** "^\s+\(Above (\d+ )?Lines? Repeated (\d+) Times?\)$" *)
Definition REPEAT_PATTERN : regex :=
  seq [ Bol; plus sp; lit "(Above "; opt (Grp 1 (Cat (plus d) (lit " ")));
        lit "Line"; opt (lit "s"); lit " Repeated "; Grp 2 (plus d);
        lit " Time"; opt (lit "s"); lit ")"; Eol ].

Definition group_or_empty (n : nat) (c : caps) : string :=
  match group n c with
  | Some v => v
  | None => EmptyString
  end.

(** [LogParser.parse_line] of a parser built with [source_file]. *)
Definition parse_line (source_file : string) (raw : string) (line_number : Z)
  : outcome ParseResult :=
  match rmatch REPEAT_PATTERN raw with
  | Some m =>
      let line_count := match group 1 m with
                        | Some g => Str.int_of_digits (Str.strip g)
                        | None => 1%Z
                        end in
      let repeat_count := Str.int_of_digits (group_or_empty 2 m) in
      Returned (Some (Directive (mkRepeatDirective line_count repeat_count
                                                   line_number)))
  | None =>
      match rmatch LINE_PATTERN raw with
      | Some m =>
          bind (or_value_error (Datetime.strptime (group_or_empty 1 m))) (fun ts =>
          Returned (Some (Entry (mkLogEntry line_number ts
                                            (group_or_empty 2 m)
                                            (Str.rstrip (group_or_empty 3 m))
                                            false 1 source_file))))
      | None => Returned None
      end
  end.

End Parser.

(* ================================================================== *)
(** ** Python lists *)

Module Py.

(** [l[start:]]: a negative [start] counts from the end, and a start
    beyond either end is clipped to it. *)
Definition slice_from {A : Type} (start : Z) (l : list A) : list A :=
  let n := Z.of_nat (List.length l) in
  if (start <? 0)%Z then skipn (Z.to_nat (Z.max (n + start) 0)) l
  else skipn (Z.to_nat (Z.min start n)) l.

(** [l[-1]] of a non-empty list. *)
Definition last_opt {A : Type} (l : list A) : option A :=
  match rev l with
  | [] => None
  | x :: _ => Some x
  end.

(** [collections.deque(maxlen=n).append]: once full, the oldest element
    falls out. *)
Definition deque_append {A : Type} (maxlen : nat) (q : list A) (x : A) : list A :=
  let q' := q ++ [x] in skipn (List.length q' - maxlen) q'.

End Py.

(* ================================================================== *)
(** ** [ingestion/repeat_expander.py] *)

Module RepeatExpander.

(** The copy of [line] a directive yields. *)
Definition expanded (rd : RepeatDirective) (line : LogEntry) : LogEntry :=
  mkLogEntry (line_number line) (timestamp line) (category line)
             (message line) true (repeat_count rd) (source_file line).

(** [for _repeat in range(n): for line in source_lines: yield ...] *)
Fixpoint replay (n : nat) (rd : RepeatDirective) (source_lines : list LogEntry)
  : list LogEntry :=
  match n with
  | O => []
  | S n' => map (expanded rd) source_lines ++ replay n' rd source_lines
  end.

Section Expander.

(** [max_lookback], 20 by default. *)
Variable max_lookback : nat.

(** One turn of the loop of [process]: the entries yielded for [it] and
    the ring buffer afterwards. *)
Definition step (buffer : list LogEntry) (it : item)
  : list LogEntry * list LogEntry :=
  match it with
  | Directive rd =>
      let source_lines := Py.slice_from (- line_count rd) buffer in
      match source_lines with
      | [] => ([], buffer)
      | _ => (replay (Z.to_nat (repeat_count rd)) rd source_lines, buffer)
      end
  | Entry e => ([e], Py.deque_append max_lookback buffer e)
  end.

(** [RepeatExpander.process], from the ring buffer [buffer]. *)
Fixpoint process_from (buffer : list LogEntry) (items : list item)
  : list LogEntry * list LogEntry :=
  match items with
  | [] => ([], buffer)
  | it :: rest =>
      let '(out, buffer') := step buffer it in
      let '(outs, final) := process_from buffer' rest in
      (out ++ outs, final)
  end.

End Expander.

(** [RepeatExpander().process(items)] *)
Definition process (items : list item) : list LogEntry :=
  fst (process_from 20 [] items).

End RepeatExpander.

(* ================================================================== *)
(** ** [segmentation/state_machine.py] *)

Record SCATStateChange : Type := mkSCATStateChange {
  sc_timestamp : datetime;
  new_state : string;
  old_state : string;
  sc_alive_status : option Z
}.

Module SCAT.

Import Re.

(** ">>>>>>SCATState = (\S+)\s+- was (\S+)" *)
Definition SCAT_STATE_PATTERN : regex :=
  seq [ lit ">>>>>>SCATState = "; Grp 1 (plus nsp); plus sp; lit "- was ";
        Grp 2 (plus nsp) ].

(** "SCATAliveInt = (\d) \((\w+)\)" *)
Definition ALIVE_PATTERN : regex :=
  seq [ lit "SCATAliveInt = "; Grp 1 d; lit " ("; Grp 2 (plus w); lit ")" ].

Record SCATStateMachine : Type := mkSCAT {
  current_state : string;
  alive_status : Z;
  state_history : list SCATStateChange;
  alive_history : list (datetime * Z * string)
}.

(** [SCATStateMachine.__init__] *)
Definition init : SCATStateMachine :=
  mkSCAT "StateNone" 9 [] [].

(** The state-change part of [process_entry]. *)
Definition track_state (sm : SCATStateMachine) (e : LogEntry) : SCATStateMachine :=
  match search SCAT_STATE_PATTERN (message e) with
  | Some m =>
      let new := Str.strip (Parser.group_or_empty 1 m) in
      let old := Str.strip (Parser.group_or_empty 2 m) in
      mkSCAT new (alive_status sm)
             (state_history sm ++ [mkSCATStateChange (timestamp e) new old None])
             (alive_history sm)
  | None => sm
  end.

(** The alive-status part of [process_entry]; [int] of the one digit
    the pattern captures. *)
Definition track_alive (sm : SCATStateMachine) (e : LogEntry) : SCATStateMachine :=
  match search ALIVE_PATTERN (message e) with
  | Some m =>
      let status := Str.int_of_digits (Parser.group_or_empty 1 m) in
      let name := Parser.group_or_empty 2 m in
      if negb (status =? alive_status sm)%Z
      then mkSCAT (current_state sm) status (state_history sm)
                  (alive_history sm ++ [(timestamp e, status, name)])
      else sm
  | None => sm
  end.

(** [SCATStateMachine.process_entry] *)
Definition process_entry (sm : SCATStateMachine) (e : LogEntry) : SCATStateMachine :=
  track_alive (track_state sm e) e.

(** [for e in entries: sm.process_entry(e)] *)
Definition process_entries (sm : SCATStateMachine) (entries : list LogEntry)
  : SCATStateMachine :=
  fold_left process_entry entries sm.

(** The loop of [get_dead_periods]: the periods closed by the rows of
    [h] and the value of [dead_start] after them. *)
Fixpoint dead_scan (dead_start : option datetime) (h : list (datetime * Z * string))
  : list (datetime * datetime * Q) * option datetime :=
  match h with
  | [] => ([], dead_start)
  | (ts, status, _) :: rest =>
      match dead_start with
      | None =>
          if (status =? 0)%Z then dead_scan (Some ts) rest
          else dead_scan None rest
      | Some ds =>
          if negb (status =? 0)%Z
          then let '(ps, fin) := dead_scan None rest in
               ((ds, ts, Datetime.total_seconds (ts - ds)) :: ps, fin)
          else dead_scan (Some ds) rest
      end
  end.

(** [SCATStateMachine.get_dead_periods] *)
Definition get_dead_periods (sm : SCATStateMachine)
  : list (datetime * datetime * Q) :=
  let '(periods, dead_start) := dead_scan None (alive_history sm) in
  match dead_start, Py.last_opt (alive_history sm) with
  | Some ds, Some (last_ts, _, _) =>
      periods ++ [(ds, last_ts, Datetime.total_seconds (last_ts - ds))]
  | _, _ => periods
  end.

End SCAT.

(* ================================================================== *)
(** ** [segmentation/health_segmenter.py] *)

Module Health.

Import Re.

(** [HealthCheckData] of [segmentation/models.py]. *)
Record HealthCheckData : Type := mkHealth {
  start_line : Z;
  end_line : Z;
  start_time : option datetime;
  end_time : option datetime;
  check_type : string;
  target_host : string;
  success : bool;
  error_code : string;
  http_status : string;
  latency_ms : Q
}.

(** "ServerEPS_LSExchangeInfo Company\[(\d+)\].*?Addr\[([^\]]+)\]" *)
Definition EXCHANGE_INFO_SEND : regex :=
  seq [ lit "ServerEPS_LSExchangeInfo Company["; Grp 1 (plus d); lit "]";
        lazy_star dot; lit "Addr["; Grp 2 (plus (none_of "]")); lit "]" ].

(** "after ServerEPS_LSExchangeInfo ErrorCode = (\d+) ErrorStr=(.*" ")" *)
Definition EXCHANGE_INFO_RESULT : regex :=
  seq [ lit "after ServerEPS_LSExchangeInfo ErrorCode = "; Grp 1 (plus d);
        lit " ErrorStr="; Grp 2 (star dot) ].

(** "after ServerEPS_LaneServiceStatusUpload ErrorCode \((\d+)\) ErrorStr\(([^)]*" ")\)" *)
Definition MONITORING_RESULT : regex :=
  seq [ lit "after ServerEPS_LaneServiceStatusUpload ErrorCode (";
        Grp 1 (plus d); lit ") ErrorStr("; Grp 2 (star (none_of ")")); lit ")" ].

(** "Login result = (\w+)" *)
Definition LOGIN_RESULT : regex :=
  seq [ lit "Login result = "; Grp 1 (plus w) ].

(** "HTTP/1\.\d (\d{3})" *)
Definition HTTP_ERROR : regex :=
  seq [ lit "HTTP/1."; d; lit " "; Grp 1 (times 3 d) ].

(** "Socket Error # (\d+)" *)
Definition SOCKET_ERROR : regex :=
  seq [ lit "Socket Error # "; Grp 1 (plus d) ].

Definition g (n : nat) (m : caps) : string := Parser.group_or_empty n m.

Definition set_http_status (v : string) (h : HealthCheckData) : HealthCheckData :=
  mkHealth (start_line h) (end_line h) (start_time h) (end_time h)
           (check_type h) (target_host h) (success h) (error_code h) v
           (latency_ms h).

(** The HTTP or socket code of an error text; a socket code overrides an
    HTTP one. *)
Definition extract_http_socket (error_str : string) (h : HealthCheckData)
  : HealthCheckData :=
  let h1 := match search HTTP_ERROR error_str with
            | Some hm => set_http_status (g 1 hm) h
            | None => h
            end in
  match search SOCKET_ERROR error_str with
  | Some sm => set_http_status ("Socket_" ++ g 1 sm)%string h1
  | None => h1
  end.

(** The record an [ExchangeInfo] start line opens. *)
Definition open_exchange (e : LogEntry) (m : caps) : HealthCheckData :=
  mkHealth (line_number e) 0 (Some (timestamp e)) None "ExchangeInfo" (g 2 m)
           false "" "" 0.

(** The record closed by an [ExchangeInfo] result line. *)
Definition close_exchange (cur : HealthCheckData) (e : LogEntry) (m : caps)
  : HealthCheckData :=
  let error_code := g 1 m in
  let error_str := Str.strip (g 2 m) in
  let latency := match start_time cur with
                 | Some st => (Datetime.total_seconds (timestamp e - st) * 1000)%Q
                 | None => latency_ms cur
                 end in
  extract_http_socket error_str
    (mkHealth (start_line cur) (line_number e) (start_time cur)
              (Some (timestamp e)) (check_type cur) (target_host cur)
              (String.eqb error_code "0") error_code (http_status cur) latency).

Definition monitoring_record (e : LogEntry) (m : caps) : HealthCheckData :=
  extract_http_socket (g 2 m)
    (mkHealth (line_number e) (line_number e) (Some (timestamp e))
              (Some (timestamp e)) "MonitoringStatus" ""
              (String.eqb (g 1 m) "0") (g 1 m) "" 0).

Definition login_record (e : LogEntry) (m : caps) : HealthCheckData :=
  mkHealth (line_number e) (line_number e) (Some (timestamp e))
           (Some (timestamp e)) "Login" ""
           (String.eqb (g 1 m) "lrNothingNew" || String.eqb (g 1 m) "lrWaitForFiles")
           (g 1 m) "" 0.

(** The single-line checks, tried after the [ExchangeInfo] markers. *)
Definition single_line (current : option HealthCheckData) (e : LogEntry)
  : list HealthCheckData * option HealthCheckData :=
  match search MONITORING_RESULT (message e) with
  | Some m => ([monitoring_record e m], current)
  | None =>
      match search LOGIN_RESULT (message e) with
      | Some m => ([login_record e m], current)
      | None => ([], current)
      end
  end.

(** One turn of the loop of [process_entries]: the records yielded for
    [e] and the value of [current] afterwards. *)
Definition step (current : option HealthCheckData) (e : LogEntry)
  : list HealthCheckData * option HealthCheckData :=
  if negb (String.eqb (category e) "SVREPS") then ([], current)
  else
    match search EXCHANGE_INFO_SEND (message e) with
    | Some m =>
        (match current with
         | Some c => [c]
         | None => []
         end, Some (open_exchange e m))
    | None =>
        match search EXCHANGE_INFO_RESULT (message e), current with
        | Some m, Some c =>
            if String.eqb (check_type c) "ExchangeInfo"
            then ([close_exchange c e m], None)
            else single_line current e
        | _, _ => single_line current e
        end
    end.

(** The loop of [process_entries] from [current]. *)
Fixpoint run_from (current : option HealthCheckData) (entries : list LogEntry)
  : list HealthCheckData * option HealthCheckData :=
  match entries with
  | [] => ([], current)
  | e :: rest =>
      let '(out, current') := step current e in
      let '(outs, final) := run_from current' rest in
      (out ++ outs, final)
  end.

(** [HealthSegmenter.process_entries]: the loop, then the flush of the
    record still open. *)
Definition process_entries (entries : list LogEntry) : list HealthCheckData :=
  let '(outs, final) := run_from None entries in
  outs ++ match final with
          | Some c => [c]
          | None => []
          end.

End Health.

(* ================================================================== *)
(** ** [segmentation/models.py]: [TransactionData] *)

Module Txn.

Record TransactionData : Type := mkTxn {
  start_line : Z;
  end_line : Z;
  start_time : option datetime;
  end_time : option datetime;
  entry_count : Z;
  sequence_number : string;
  card_type : string;
  entry_method : string;
  pan_last4 : string;
  aid : string;
  app_label : string;
  tac_sequence : string;
  cvm_result : string;
  response_code : string;
  host_response_code : string;
  authorization_number : string;
  amount_cents : Z;
  cashback_cents : Z;
  host_url : string;
  host_latency_ms : Q;
  se_send_time : option datetime;
  se_recv_time : option datetime;
  tvr : string;
  is_quickchip : bool;
  is_fallback : bool;
  serial_error_count : Z;
  state_sequence : list string
}.

(** [TransactionData(start_line=..., start_time=...)]: the other fields
    at their defaults. *)
Definition new (start_line : Z) (start_time : datetime) : TransactionData :=
  mkTxn start_line 0 (Some start_time) None 0
        "" "" "" "" "" "" "" ""
        "" "" ""
        0 0
        "" 0 None None
        "" false false
        0 [].

(** The property [is_approved]. *)
Definition is_approved (t : TransactionData) : bool :=
  String.eqb (response_code t) "AA".

(** The property [duration_ms]. *)
Definition duration_ms (t : TransactionData) : Q :=
  match start_time t, end_time t with
  | Some st, Some en => (Datetime.total_seconds (en - st) * 1000)%Q
  | _, _ => 0
  end.

(** *** Assignments to one attribute *)

Definition set_end_line (v : Z) (t : TransactionData) : TransactionData :=
  mkTxn (start_line t) v (start_time t) (end_time t) (entry_count t)
        (sequence_number t) (card_type t) (entry_method t) (pan_last4 t)
        (aid t) (app_label t) (tac_sequence t) (cvm_result t)
        (response_code t) (host_response_code t) (authorization_number t)
        (amount_cents t) (cashback_cents t) (host_url t) (host_latency_ms t)
        (se_send_time t) (se_recv_time t) (tvr t) (is_quickchip t)
        (is_fallback t) (serial_error_count t) (state_sequence t).

Definition set_end_time (v : option datetime) (t : TransactionData) : TransactionData :=
  mkTxn (start_line t) (end_line t) (start_time t) v (entry_count t)
        (sequence_number t) (card_type t) (entry_method t) (pan_last4 t)
        (aid t) (app_label t) (tac_sequence t) (cvm_result t)
        (response_code t) (host_response_code t) (authorization_number t)
        (amount_cents t) (cashback_cents t) (host_url t) (host_latency_ms t)
        (se_send_time t) (se_recv_time t) (tvr t) (is_quickchip t)
        (is_fallback t) (serial_error_count t) (state_sequence t).

Definition set_entry_count (v : Z) (t : TransactionData) : TransactionData :=
  mkTxn (start_line t) (end_line t) (start_time t) (end_time t) v
        (sequence_number t) (card_type t) (entry_method t) (pan_last4 t)
        (aid t) (app_label t) (tac_sequence t) (cvm_result t)
        (response_code t) (host_response_code t) (authorization_number t)
        (amount_cents t) (cashback_cents t) (host_url t) (host_latency_ms t)
        (se_send_time t) (se_recv_time t) (tvr t) (is_quickchip t)
        (is_fallback t) (serial_error_count t) (state_sequence t).

Definition set_sequence_number (v : string) (t : TransactionData) : TransactionData :=
  mkTxn (start_line t) (end_line t) (start_time t) (end_time t)
        (entry_count t) v (card_type t) (entry_method t) (pan_last4 t)
        (aid t) (app_label t) (tac_sequence t) (cvm_result t)
        (response_code t) (host_response_code t) (authorization_number t)
        (amount_cents t) (cashback_cents t) (host_url t) (host_latency_ms t)
        (se_send_time t) (se_recv_time t) (tvr t) (is_quickchip t)
        (is_fallback t) (serial_error_count t) (state_sequence t).

Definition set_card_type (v : string) (t : TransactionData) : TransactionData :=
  mkTxn (start_line t) (end_line t) (start_time t) (end_time t)
        (entry_count t) (sequence_number t) v (entry_method t) (pan_last4 t)
        (aid t) (app_label t) (tac_sequence t) (cvm_result t)
        (response_code t) (host_response_code t) (authorization_number t)
        (amount_cents t) (cashback_cents t) (host_url t) (host_latency_ms t)
        (se_send_time t) (se_recv_time t) (tvr t) (is_quickchip t)
        (is_fallback t) (serial_error_count t) (state_sequence t).

Definition set_entry_method (v : string) (t : TransactionData) : TransactionData :=
  mkTxn (start_line t) (end_line t) (start_time t) (end_time t)
        (entry_count t) (sequence_number t) (card_type t) v (pan_last4 t)
        (aid t) (app_label t) (tac_sequence t) (cvm_result t)
        (response_code t) (host_response_code t) (authorization_number t)
        (amount_cents t) (cashback_cents t) (host_url t) (host_latency_ms t)
        (se_send_time t) (se_recv_time t) (tvr t) (is_quickchip t)
        (is_fallback t) (serial_error_count t) (state_sequence t).

Definition set_pan_last4 (v : string) (t : TransactionData) : TransactionData :=
  mkTxn (start_line t) (end_line t) (start_time t) (end_time t)
        (entry_count t) (sequence_number t) (card_type t) (entry_method t) v
        (aid t) (app_label t) (tac_sequence t) (cvm_result t)
        (response_code t) (host_response_code t) (authorization_number t)
        (amount_cents t) (cashback_cents t) (host_url t) (host_latency_ms t)
        (se_send_time t) (se_recv_time t) (tvr t) (is_quickchip t)
        (is_fallback t) (serial_error_count t) (state_sequence t).

Definition set_aid (v : string) (t : TransactionData) : TransactionData :=
  mkTxn (start_line t) (end_line t) (start_time t) (end_time t)
        (entry_count t) (sequence_number t) (card_type t) (entry_method t)
        (pan_last4 t) v (app_label t) (tac_sequence t) (cvm_result t)
        (response_code t) (host_response_code t) (authorization_number t)
        (amount_cents t) (cashback_cents t) (host_url t) (host_latency_ms t)
        (se_send_time t) (se_recv_time t) (tvr t) (is_quickchip t)
        (is_fallback t) (serial_error_count t) (state_sequence t).

Definition set_app_label (v : string) (t : TransactionData) : TransactionData :=
  mkTxn (start_line t) (end_line t) (start_time t) (end_time t)
        (entry_count t) (sequence_number t) (card_type t) (entry_method t)
        (pan_last4 t) (aid t) v (tac_sequence t) (cvm_result t)
        (response_code t) (host_response_code t) (authorization_number t)
        (amount_cents t) (cashback_cents t) (host_url t) (host_latency_ms t)
        (se_send_time t) (se_recv_time t) (tvr t) (is_quickchip t)
        (is_fallback t) (serial_error_count t) (state_sequence t).

Definition set_tac_sequence (v : string) (t : TransactionData) : TransactionData :=
  mkTxn (start_line t) (end_line t) (start_time t) (end_time t)
        (entry_count t) (sequence_number t) (card_type t) (entry_method t)
        (pan_last4 t) (aid t) (app_label t) v (cvm_result t)
        (response_code t) (host_response_code t) (authorization_number t)
        (amount_cents t) (cashback_cents t) (host_url t) (host_latency_ms t)
        (se_send_time t) (se_recv_time t) (tvr t) (is_quickchip t)
        (is_fallback t) (serial_error_count t) (state_sequence t).

Definition set_cvm_result (v : string) (t : TransactionData) : TransactionData :=
  mkTxn (start_line t) (end_line t) (start_time t) (end_time t)
        (entry_count t) (sequence_number t) (card_type t) (entry_method t)
        (pan_last4 t) (aid t) (app_label t) (tac_sequence t) v
        (response_code t) (host_response_code t) (authorization_number t)
        (amount_cents t) (cashback_cents t) (host_url t) (host_latency_ms t)
        (se_send_time t) (se_recv_time t) (tvr t) (is_quickchip t)
        (is_fallback t) (serial_error_count t) (state_sequence t).

Definition set_response_code (v : string) (t : TransactionData) : TransactionData :=
  mkTxn (start_line t) (end_line t) (start_time t) (end_time t)
        (entry_count t) (sequence_number t) (card_type t) (entry_method t)
        (pan_last4 t) (aid t) (app_label t) (tac_sequence t) (cvm_result t)
        v (host_response_code t) (authorization_number t) (amount_cents t)
        (cashback_cents t) (host_url t) (host_latency_ms t) (se_send_time t)
        (se_recv_time t) (tvr t) (is_quickchip t) (is_fallback t)
        (serial_error_count t) (state_sequence t).

Definition set_host_response_code (v : string) (t : TransactionData) : TransactionData :=
  mkTxn (start_line t) (end_line t) (start_time t) (end_time t)
        (entry_count t) (sequence_number t) (card_type t) (entry_method t)
        (pan_last4 t) (aid t) (app_label t) (tac_sequence t) (cvm_result t)
        (response_code t) v (authorization_number t) (amount_cents t)
        (cashback_cents t) (host_url t) (host_latency_ms t) (se_send_time t)
        (se_recv_time t) (tvr t) (is_quickchip t) (is_fallback t)
        (serial_error_count t) (state_sequence t).

Definition set_authorization_number (v : string) (t : TransactionData) : TransactionData :=
  mkTxn (start_line t) (end_line t) (start_time t) (end_time t)
        (entry_count t) (sequence_number t) (card_type t) (entry_method t)
        (pan_last4 t) (aid t) (app_label t) (tac_sequence t) (cvm_result t)
        (response_code t) (host_response_code t) v (amount_cents t)
        (cashback_cents t) (host_url t) (host_latency_ms t) (se_send_time t)
        (se_recv_time t) (tvr t) (is_quickchip t) (is_fallback t)
        (serial_error_count t) (state_sequence t).

Definition set_amount_cents (v : Z) (t : TransactionData) : TransactionData :=
  mkTxn (start_line t) (end_line t) (start_time t) (end_time t)
        (entry_count t) (sequence_number t) (card_type t) (entry_method t)
        (pan_last4 t) (aid t) (app_label t) (tac_sequence t) (cvm_result t)
        (response_code t) (host_response_code t) (authorization_number t) v
        (cashback_cents t) (host_url t) (host_latency_ms t) (se_send_time t)
        (se_recv_time t) (tvr t) (is_quickchip t) (is_fallback t)
        (serial_error_count t) (state_sequence t).

Definition set_cashback_cents (v : Z) (t : TransactionData) : TransactionData :=
  mkTxn (start_line t) (end_line t) (start_time t) (end_time t)
        (entry_count t) (sequence_number t) (card_type t) (entry_method t)
        (pan_last4 t) (aid t) (app_label t) (tac_sequence t) (cvm_result t)
        (response_code t) (host_response_code t) (authorization_number t)
        (amount_cents t) v (host_url t) (host_latency_ms t) (se_send_time t)
        (se_recv_time t) (tvr t) (is_quickchip t) (is_fallback t)
        (serial_error_count t) (state_sequence t).

Definition set_host_url (v : string) (t : TransactionData) : TransactionData :=
  mkTxn (start_line t) (end_line t) (start_time t) (end_time t)
        (entry_count t) (sequence_number t) (card_type t) (entry_method t)
        (pan_last4 t) (aid t) (app_label t) (tac_sequence t) (cvm_result t)
        (response_code t) (host_response_code t) (authorization_number t)
        (amount_cents t) (cashback_cents t) v (host_latency_ms t)
        (se_send_time t) (se_recv_time t) (tvr t) (is_quickchip t)
        (is_fallback t) (serial_error_count t) (state_sequence t).

Definition set_host_latency_ms (v : Q) (t : TransactionData) : TransactionData :=
  mkTxn (start_line t) (end_line t) (start_time t) (end_time t)
        (entry_count t) (sequence_number t) (card_type t) (entry_method t)
        (pan_last4 t) (aid t) (app_label t) (tac_sequence t) (cvm_result t)
        (response_code t) (host_response_code t) (authorization_number t)
        (amount_cents t) (cashback_cents t) (host_url t) v (se_send_time t)
        (se_recv_time t) (tvr t) (is_quickchip t) (is_fallback t)
        (serial_error_count t) (state_sequence t).

Definition set_se_send_time (v : option datetime) (t : TransactionData) : TransactionData :=
  mkTxn (start_line t) (end_line t) (start_time t) (end_time t)
        (entry_count t) (sequence_number t) (card_type t) (entry_method t)
        (pan_last4 t) (aid t) (app_label t) (tac_sequence t) (cvm_result t)
        (response_code t) (host_response_code t) (authorization_number t)
        (amount_cents t) (cashback_cents t) (host_url t) (host_latency_ms t)
        v (se_recv_time t) (tvr t) (is_quickchip t) (is_fallback t)
        (serial_error_count t) (state_sequence t).

Definition set_se_recv_time (v : option datetime) (t : TransactionData) : TransactionData :=
  mkTxn (start_line t) (end_line t) (start_time t) (end_time t)
        (entry_count t) (sequence_number t) (card_type t) (entry_method t)
        (pan_last4 t) (aid t) (app_label t) (tac_sequence t) (cvm_result t)
        (response_code t) (host_response_code t) (authorization_number t)
        (amount_cents t) (cashback_cents t) (host_url t) (host_latency_ms t)
        (se_send_time t) v (tvr t) (is_quickchip t) (is_fallback t)
        (serial_error_count t) (state_sequence t).

Definition set_tvr (v : string) (t : TransactionData) : TransactionData :=
  mkTxn (start_line t) (end_line t) (start_time t) (end_time t)
        (entry_count t) (sequence_number t) (card_type t) (entry_method t)
        (pan_last4 t) (aid t) (app_label t) (tac_sequence t) (cvm_result t)
        (response_code t) (host_response_code t) (authorization_number t)
        (amount_cents t) (cashback_cents t) (host_url t) (host_latency_ms t)
        (se_send_time t) (se_recv_time t) v (is_quickchip t) (is_fallback t)
        (serial_error_count t) (state_sequence t).

Definition set_is_quickchip (v : bool) (t : TransactionData) : TransactionData :=
  mkTxn (start_line t) (end_line t) (start_time t) (end_time t)
        (entry_count t) (sequence_number t) (card_type t) (entry_method t)
        (pan_last4 t) (aid t) (app_label t) (tac_sequence t) (cvm_result t)
        (response_code t) (host_response_code t) (authorization_number t)
        (amount_cents t) (cashback_cents t) (host_url t) (host_latency_ms t)
        (se_send_time t) (se_recv_time t) (tvr t) v (is_fallback t)
        (serial_error_count t) (state_sequence t).

Definition set_serial_error_count (v : Z) (t : TransactionData) : TransactionData :=
  mkTxn (start_line t) (end_line t) (start_time t) (end_time t)
        (entry_count t) (sequence_number t) (card_type t) (entry_method t)
        (pan_last4 t) (aid t) (app_label t) (tac_sequence t) (cvm_result t)
        (response_code t) (host_response_code t) (authorization_number t)
        (amount_cents t) (cashback_cents t) (host_url t) (host_latency_ms t)
        (se_send_time t) (se_recv_time t) (tvr t) (is_quickchip t)
        (is_fallback t) v (state_sequence t).

Definition set_state_sequence (v : list string) (t : TransactionData) : TransactionData :=
  mkTxn (start_line t) (end_line t) (start_time t) (end_time t)
        (entry_count t) (sequence_number t) (card_type t) (entry_method t)
        (pan_last4 t) (aid t) (app_label t) (tac_sequence t) (cvm_result t)
        (response_code t) (host_response_code t) (authorization_number t)
        (amount_cents t) (cashback_cents t) (host_url t) (host_latency_ms t)
        (se_send_time t) (se_recv_time t) (tvr t) (is_quickchip t)
        (is_fallback t) (serial_error_count t) v.

End Txn.

(* ================================================================== *)
(** ** [segmentation/transaction_segmenter.py] *)

Module Segmenter.

Import Re Txn.

Inductive TransactionState : Type :=
| IDLE
| IN_PROGRESS
| ONLINE_PENDING
| COMPLETING.

(** *** [PATTERNS] *)

(** "MTX_POS_BeginOrder" *)
Definition begin_order : regex := lit "MTX_POS_BeginOrder".
(** "MTX_POS_SET_TenderTypePOS = [0-9A-F]" *)
Definition tender_type_set : regex :=
  Cat (lit "MTX_POS_SET_TenderTypePOS = ")
      (Chr (COr (CRange "0" "9") (CRange "A" "F"))).
(** "TenderTypeMTXi = \S+ <(\w+[\s\w]*" ")>" *)
Definition tender_type : regex :=
  seq [ lit "TenderTypeMTXi = "; plus nsp; lit " <";
        Grp 1 (Cat (plus w) (star (Chr (COr CSpace CWord)))); lit ">" ].
(** "CardEntryType = (\w)" *)
Definition card_entry : regex := seq [ lit "CardEntryType = "; Grp 1 w ].
(** "SE_SEND\(TimeOutSecs (\d+)\).*?URL\[([^\]]+)\].*?Ae(\d+)" *)
Definition se_send : regex :=
  seq [ lit "SE_SEND(TimeOutSecs "; Grp 1 (plus d); lit ")"; lazy_star dot;
        lit "URL["; Grp 2 (plus (none_of "]")); lit "]"; lazy_star dot;
        lit "Ae"; Grp 3 (plus d) ].
(** "SE_RECV\(([0-9.]+) secs\).*?Ae(\d+)" *)
Definition se_recv : regex :=
  seq [ lit "SE_RECV("; Grp 1 (plus (Chr (COr (CRange "0" "9") (CLit ".")))) ;
        lit " secs)"; lazy_star dot; lit "Ae"; Grp 2 (plus d) ].
(** "ResponseCode = (\w+)" *)
Definition response_code_pat : regex := seq [ lit "ResponseCode = "; Grp 1 (plus w) ].
(** "HostResponseCode = (\d+)" *)
Definition host_response : regex := seq [ lit "HostResponseCode = "; Grp 1 (plus d) ].
(** "AuthorizationNumber = (\w+)" *)
Definition auth_number : regex := seq [ lit "AuthorizationNumber = "; Grp 1 (plus w) ].
(** "MTX_POS_EndOrder" *)
Definition end_order : regex := lit "MTX_POS_EndOrder".
(** "Reset_Clear END" *)
Definition reset_clear_end : regex := lit "Reset_Clear END".
(** "AppID >(\w+)<" *)
Definition aid_pat : regex := seq [ lit "AppID >"; Grp 1 (plus w); lit "<" ].
(** "AppLabel >([^<]+)<" *)
Definition app_label_pat : regex :=
  seq [ lit "AppLabel >"; Grp 1 (plus (none_of "<")); lit "<" ].
(** "CVMR >(\w+)<" *)
Definition cvm_result_pat : regex := seq [ lit "CVMR >"; Grp 1 (plus w); lit "<" ].
(** "tvr=(\w+)," *)
Definition tvr_pat : regex := seq [ lit "tvr="; Grp 1 (plus w); lit "," ].
(** "\*{4}COMMAND SEQUENCE for .+ >([^<]+)<" *)
Definition cmd_sequence : regex :=
  seq [ lit "****COMMAND SEQUENCE for "; plus dot; lit " >";
        Grp 1 (plus (none_of "<")); lit "<" ].
(** "IsQuickChip=(\w)" *)
Definition quickchip : regex := seq [ lit "IsQuickChip="; Grp 1 w ].
(** ">>>>>>SCATState = (\w+)" *)
Definition scat_state : regex := seq [ lit ">>>>>>SCATState = "; Grp 1 (plus w) ].
(** "\*{4}ERROR: SendMsgWaitAck3Tries failed" *)
Definition send_ack_fail : regex := lit "****ERROR: SendMsgWaitAck3Tries failed".

(** *** [SE_SEND_FIELD_PATTERNS], in the order of the dictionary *)

Inductive send_field : Type :=
| company | store | processing_code | seq_number | amount | cashback
| card_type_code | pan_last4_f | entry_method_f | aid_field
| app_label_field | tvr_field | cvm_field | tac_seq.

Definition SE_SEND_FIELD_PATTERNS : list (send_field * regex) :=
  [ (company, seq [ lit "Aa"; Grp 1 (plus d) ]);              (* "Aa(\d+)" *)
    (store, seq [ lit "Ab"; Grp 1 (plus d) ]);                (* "Ab(\d+)" *)
    (processing_code, seq [ lit "Ac"; Grp 1 (plus d) ]);      (* "Ac(\d+)" *)
    (seq_number, seq [ lit "Ae"; Grp 1 (plus d) ]);           (* "Ae(\d+)" *)
    (amount, seq [ lit "Da"; Grp 1 (plus d) ]);               (* "Da(\d+)" *)
    (cashback, seq [ lit "Dc"; Grp 1 (plus d) ]);             (* "Dc(\d+)" *)
    (card_type_code, seq [ lit "Bn"; Grp 1 (times 2 w) ]);    (* "Bn(\w{2})" *)
    (pan_last4_f, seq [ lit "Bp"; Grp 1 (plus d) ]);          (* "Bp(\d+)" *)
    (entry_method_f,                                          (* "BfE?C?(\w)" *)
      seq [ lit "Bf"; opt (lit "E"); opt (lit "C"); Grp 1 w ]);
    (aid_field, seq [ lit "84-"; Grp 1 (plus w) ]);           (* "84-(\w+)" *)
    (app_label_field,                                         (* "50-([^|]+)" *)
      seq [ lit "50-"; Grp 1 (plus (none_of "|")) ]);
    (tvr_field, seq [ lit "95-"; Grp 1 (plus w) ]);           (* "95-(\w+)" *)
    (cvm_field, seq [ lit "9F34-"; Grp 1 (plus w) ]);         (* "9F34-(\w+)" *)
    (tac_seq, seq [ lit "Gh"; Grp 1 (plus (none_of "[")) ]) ] (* "Gh([^[]+)" *).

(** *** [SE_RECV_FIELD_PATTERNS] *)

Inductive recv_field : Type :=
| response_code_host | auth_number_f | approved_flag | response_text
| host_response_f.

Definition SE_RECV_FIELD_PATTERNS : list (recv_field * regex) :=
  [ (response_code_host, seq [ lit "Af"; Grp 1 (times 2 w) ]);   (* "Af(\w{2})" *)
    (auth_number_f, seq [ lit "Ag"; Grp 1 (plus w) ]);           (* "Ag(\w+)" *)
    (approved_flag,                                              (* "Au([YN])" *)
      seq [ lit "Au"; Grp 1 (Chr (COr (CLit "Y") (CLit "N"))) ]);
    (response_text, seq [ lit "Ao"; Grp 1 (plus (none_of "[")) ]); (* "Ao([^[]+)" *)
    (host_response_f, seq [ lit "Mb"; Grp 1 (times 3 d) ]) ]     (* "Mb(\d{3})" *).

(** [CARD_TYPE_MAP.get(val, val)] *)
Definition card_type_name (val : string) : string :=
  if String.eqb val "DB" then "Debit"
  else if String.eqb val "VS" then "Credit"
  else if String.eqb val "MC" then "Credit"
  else if String.eqb val "AX" then "Credit"
  else if String.eqb val "DS" then "Credit"
  else if String.eqb val "EF" then "EBT Food"
  else if String.eqb val "EC" then "EBT Cash"
  else val.

Definition g (n : nat) (m : caps) : string := Parser.group_or_empty n m.

(** Truth value of a [str]. *)
Definition nonempty (s : string) : bool := negb (String.eqb s "").

(** *** [_extract_fields], one extractor after the other *)

Definition x_card_entry (e : LogEntry) (t : TransactionData) : TransactionData :=
  match search card_entry (message e) with
  | Some m =>
      if String.eqb (category e) "DLL-EX" || String.eqb (category e) "TCP/IP"
      then set_entry_method (g 1 m) t else t
  | None => t
  end.

Definition x_aid (e : LogEntry) (t : TransactionData) : TransactionData :=
  match search aid_pat (message e) with
  | Some m => set_aid (g 1 m) t
  | None => t
  end.

Definition x_app_label (e : LogEntry) (t : TransactionData) : TransactionData :=
  match search app_label_pat (message e) with
  | Some m => set_app_label (Str.strip (g 1 m)) t
  | None => t
  end.

Definition x_cvm_result (e : LogEntry) (t : TransactionData) : TransactionData :=
  match search cvm_result_pat (message e) with
  | Some m => if negb (String.eqb (g 1 m) "3F0000") then set_cvm_result (g 1 m) t else t
  | None => t
  end.

Definition x_tvr (e : LogEntry) (t : TransactionData) : TransactionData :=
  match search tvr_pat (message e) with
  | Some m => set_tvr (g 1 m) t
  | None => t
  end.

Definition x_cmd_sequence (e : LogEntry) (t : TransactionData) : TransactionData :=
  match search cmd_sequence (message e) with
  | Some m => set_tac_sequence (Str.strip (g 1 m)) t
  | None => t
  end.

Definition x_quickchip (e : LogEntry) (t : TransactionData) : TransactionData :=
  match search quickchip (message e) with
  | Some m => set_is_quickchip (String.eqb (g 1 m) "Y") t
  | None => t
  end.

Definition x_auth_number (e : LogEntry) (t : TransactionData) : TransactionData :=
  match search auth_number (message e) with
  | Some m =>
      if String.eqb (category e) "TCP/IP" then set_authorization_number (g 1 m) t
      else t
  | None => t
  end.

(** The card type a tender name stands for, if any. *)
Definition tender_card_type (tender_name : string) : option string :=
  if Str.contains "Debit" tender_name then Some "Debit"
  else if Str.contains "Credit" tender_name then Some "Credit"
  else if Str.contains "EBT Food" tender_name || Str.contains "Food Stamp" tender_name
       then Some "EBT Food"
  else if Str.contains "EBT Cash" tender_name then Some "EBT Cash"
  else None.

Definition x_tender_type (e : LogEntry) (t : TransactionData) : TransactionData :=
  match search tender_type (message e) with
  | Some m =>
      match tender_card_type (Str.strip (g 1 m)) with
      | Some ct => set_card_type ct t
      | None => t
      end
  | None => t
  end.

(** [TransactionSegmenter._extract_fields] on the transaction in
    progress. *)
Definition _extract_fields (e : LogEntry) (t : TransactionData) : TransactionData :=
  x_tender_type e
    (x_auth_number e
      (x_quickchip e
        (x_cmd_sequence e
          (x_tvr e
            (x_cvm_result e
              (x_app_label e
                (x_aid e
                  (x_card_entry e t)))))))).

(** *** [_extract_se_send_fields] *)

(** The branch of the [if]/[elif] chain taken for a field that matched
    with the text [val]. *)
Definition send_assign (f : send_field) (val : string) (t : TransactionData)
  : TransactionData :=
  match f with
  | amount =>
      if (amount_cents t =? 0)%Z then set_amount_cents (Str.int_of_digits val) t else t
  | cashback => set_cashback_cents (Str.int_of_digits val) t
  | card_type_code =>
      if negb (nonempty (card_type t)) then set_card_type (card_type_name val) t else t
  | pan_last4_f => set_pan_last4 val t
  | entry_method_f =>
      if negb (nonempty (entry_method t)) then set_entry_method val t else t
  | aid_field => if negb (nonempty (aid t)) then set_aid val t else t
  | app_label_field =>
      if negb (nonempty (app_label t)) then set_app_label (Str.strip val) t else t
  | tvr_field => if negb (nonempty (tvr t)) then set_tvr val t else t
  | cvm_field => if negb (String.eqb val "3F0000") then set_cvm_result val t else t
  | tac_seq =>
      if negb (nonempty (tac_sequence t)) then set_tac_sequence (Str.strip val) t else t
  | company | store | processing_code | seq_number => t
  end.

Definition _extract_se_send_fields (msg : string) (t : TransactionData)
  : TransactionData :=
  fold_left (fun t '(f, pattern) =>
               match search pattern msg with
               | Some m => send_assign f (g 1 m) t
               | None => t
               end) SE_SEND_FIELD_PATTERNS t.

(** *** [_extract_se_recv_fields] *)

Definition recv_assign (f : recv_field) (val : string) (t : TransactionData)
  : TransactionData :=
  match f with
  | response_code_host =>
      if String.eqb val "00" then set_response_code "AA" t
      else if String.eqb val "05" || String.eqb val "14" || String.eqb val "51"
           then set_response_code "DD" t
      else t
  | auth_number_f => set_authorization_number (Str.strip val) t
  | host_response_f => set_host_response_code val t
  | approved_flag | response_text => t
  end.

Definition _extract_se_recv_fields (msg : string) (t : TransactionData)
  : TransactionData :=
  fold_left (fun t '(f, pattern) =>
               match search pattern msg with
               | Some m => recv_assign f (g 1 m) t
               | None => t
               end) SE_RECV_FIELD_PATTERNS t.

(** *** The segmenter object *)

Record segmenter : Type := mkSeg {
  _state : TransactionState;
  _current : option TransactionData;
  _entries_buffer : list LogEntry
}.

(** [TransactionSegmenter.__init__] *)
Definition init : segmenter := mkSeg IDLE None [].

(** [_start_new] *)
Definition _start_new (e : LogEntry) : segmenter :=
  mkSeg IN_PROGRESS (Some (Txn.new (line_number e) (timestamp e))) [e].

(** [_finalize_current] on the transaction [t] in progress. *)
Definition _finalize_current (entry : option LogEntry) (t : TransactionData)
  : TransactionData :=
  match entry with
  | Some e => set_end_time (Some (timestamp e)) (set_end_line (line_number e) t)
  | None => t
  end.

Definition is_some {A : Type} (x : option A) : bool :=
  match x with
  | Some _ => true
  | None => false
  end.

Definition state_eqb (a b : TransactionState) : bool :=
  match a, b with
  | IDLE, IDLE | IN_PROGRESS, IN_PROGRESS | ONLINE_PENDING, ONLINE_PENDING
  | COMPLETING, COMPLETING => true
  | _, _ => false
  end.

(** The outbound host-exchange marker. *)
Definition on_se_send (e : LogEntry) (st : TransactionState * TransactionData)
  : TransactionState * TransactionData :=
  match search se_send (message e) with
  | Some m =>
      if String.eqb (category e) "SVREPS"
      then (ONLINE_PENDING,
            _extract_se_send_fields (message e)
              (set_sequence_number (g 3 m)
                (set_host_url (g 2 m)
                  (set_se_send_time (Some (timestamp e)) (snd st)))))
      else st
  | None => st
  end.

(** The inbound host-exchange marker; [float] of the elapsed seconds may
    raise. *)
Definition on_se_recv (e : LogEntry) (st : TransactionState * TransactionData)
  : outcome (TransactionState * TransactionData) :=
  match search se_recv (message e) with
  | Some m =>
      if String.eqb (category e) "SVREPS"
      then bind (or_value_error (Str.py_float (g 1 m))) (fun latency =>
           Returned (COMPLETING,
                     _extract_se_recv_fields (message e)
                       (set_host_latency_ms (latency * 1000)%Q
                         (set_se_recv_time (Some (timestamp e)) (snd st)))))
      else Returned st
  | None => Returned st
  end.

(** [ResponseCode] on the TCP/IP channel, kept once set. *)
Definition on_response_code (e : LogEntry) (t : TransactionData) : TransactionData :=
  match search response_code_pat (message e) with
  | Some m =>
      if String.eqb (category e) "TCP/IP" && negb (nonempty (response_code t))
      then set_response_code (g 1 m) t else t
  | None => t
  end.

Definition on_host_response (e : LogEntry) (t : TransactionData) : TransactionData :=
  match search host_response (message e) with
  | Some m =>
      if String.eqb (category e) "TCP/IP" then set_host_response_code (g 1 m) t else t
  | None => t
  end.

Definition on_send_ack_fail (e : LogEntry) (t : TransactionData) : TransactionData :=
  match search send_ack_fail (message e) with
  | Some _ => set_serial_error_count (serial_error_count t + 1) t
  | None => t
  end.

Definition on_scat_state (e : LogEntry) (t : TransactionData) : TransactionData :=
  match search scat_state (message e) with
  | Some m => set_state_sequence (state_sequence t ++ [Str.strip (g 1 m)]) t
  | None => t
  end.

(** The part of [_process_entry] that runs once a transaction is in
    progress. *)
Definition in_progress (state : TransactionState) (t : TransactionData)
           (buffer : list LogEntry) (e : LogEntry)
  : outcome (segmenter * option TransactionData) :=
  let buffer := buffer ++ [e] in
  let t := set_entry_count (entry_count t + 1) t in
  let t := _extract_fields e t in
  let st := on_se_send e (state, t) in
  bind (on_se_recv e st) (fun st =>
  let state := fst st in
  let t := on_host_response e (on_response_code e (snd st)) in
  if is_some (search end_order (message e))
  then Returned (mkSeg IDLE None [], Some (_finalize_current (Some e) t))
  else if is_some (search reset_clear_end (message e)) && nonempty (response_code t)
  then Returned (mkSeg IDLE None [], Some (_finalize_current (Some e) t))
  else Returned (mkSeg state (Some (on_scat_state e (on_send_ack_fail e t))) buffer,
                 None)).

(** [TransactionSegmenter._process_entry]: the segmenter afterwards and
    the transaction returned, if any. *)
Definition _process_entry (seg : segmenter) (e : LogEntry)
  : outcome (segmenter * option TransactionData) :=
  if is_some (search begin_order (message e))
  then
    let completed :=
      match _current seg with
      | Some t => if is_some (start_time t)
                  then Some (_finalize_current (Some e) t) else None
      | None => None
      end in
    Returned (_start_new e, completed)
  else
    let seg :=
      if state_eqb (_state seg) IDLE
         && is_some (search tender_type_set (message e))
         && String.eqb (category e) "DLL-EX"
      then _start_new e else seg in
    match _current seg with
    | None => Returned (seg, None)
    | Some t => in_progress (_state seg) t (_entries_buffer seg) e
    end.

(** The flush of [process_entries] after the last entry. *)
Definition flush (seg : segmenter) : list TransactionData :=
  match _current seg with
  | Some t =>
      if is_some (start_time t)
      then [_finalize_current (Py.last_opt (_entries_buffer seg)) t]
      else []
  | None => []
  end.

(** [TransactionSegmenter.process_entries] from the segmenter [seg]. *)
Fixpoint process_from (seg : segmenter) (entries : list LogEntry)
  : generated TransactionData :=
  match entries with
  | [] => (flush seg, None)
  | e :: rest =>
      match _process_entry seg e with
      | Raised x => ([], Some x)
      | Returned (seg', result) =>
          let '(out, err) := process_from seg' rest in
          (match result with
           | Some t => t :: out
           | None => out
           end, err)
      end
  end.

(** [TransactionSegmenter().process_entries(entries)] *)
Definition process_entries (entries : list LogEntry) : generated TransactionData :=
  process_from init entries.

End Segmenter.

(* ================================================================== *)
(** ** [ingestion/file_reader.py]: lines to entries *)

Module FileReader.

(** [FileReader.parse_lines] over the lines of a file, numbered from
    [n]. *)
Fixpoint parse_lines_from (source_file : string) (n : Z) (lines : list string)
  : generated item :=
  match lines with
  | [] => ([], None)
  | raw :: rest =>
      match Parser.parse_line source_file raw n with
      | Raised x => ([], Some x)
      | Returned r =>
          let '(out, err) := parse_lines_from source_file (n + 1) rest in
          (match r with
           | Some it => it :: out
           | None => out
           end, err)
      end
  end.

Definition parse_lines (source_file : string) (lines : list string)
  : generated item :=
  parse_lines_from source_file 1 lines.

(** [[item for item in parsed if isinstance(item, LogEntry)]] *)
Fixpoint entries_only (items : list item) : list LogEntry :=
  match items with
  | [] => []
  | Entry e :: rest => e :: entries_only rest
  | Directive _ :: rest => entries_only rest
  end.

(** [FileReader.read_entries] *)
Definition read_entries (source_file : string) (expand_repeats : bool)
           (lines : list string) : generated LogEntry :=
  let '(items, err) := parse_lines source_file lines in
  (if expand_repeats then RepeatExpander.process items else entries_only items,
   err).

End FileReader.

(* ================================================================== *)
(** ** [storage/repositories.py]: the [scat_timeline] table *)

Module Timeline.

(** [deduped[ts] = status] on a [dict], which keeps its keys in the
    order of their first insertion. *)
Fixpoint dict_set (ts : datetime) (status : Z) (deduped : list (datetime * Z))
  : list (datetime * Z) :=
  match deduped with
  | [] => [(ts, status)]
  | (k, v) :: rest =>
      if (k =? ts)%Z then (k, status) :: rest
      else (k, v) :: dict_set ts status rest
  end.

(** [SCATTimelineRepo.insert_batch]: the rows inserted for a file, one
    per timestamp, with the last status seen for it. *)
Definition insert_batch (entries : list (datetime * Z)) : list (datetime * Z) :=
  fold_left (fun deduped '(ts, status) => dict_set ts status deduped) entries [].

Fixpoint insert_by_timestamp (r : datetime * Z) (rows : list (datetime * Z))
  : list (datetime * Z) :=
  match rows with
  | [] => [r]
  | r' :: rest =>
      if (fst r <=? fst r')%Z then r :: rows
      else r' :: insert_by_timestamp r rest
  end.

(** [SELECT timestamp, alive_status ... ORDER BY timestamp] over rows
    whose timestamps are distinct (the primary key of the table). *)
Definition order_by_timestamp (rows : list (datetime * Z)) : list (datetime * Z) :=
  fold_right insert_by_timestamp [] rows.

(** The rows [_check_scat_dead] reads for a file ingested with the
    alive history [history] ([cli/commands/ingest.py]). *)
Definition scat_timeline (history : list (datetime * Z * string))
  : list (datetime * Z) :=
  order_by_timestamp
    (insert_batch (map (fun '(ts, status, _) => (ts, status)) history)).

End Timeline.

(* ================================================================== *)
(** ** [config/issue_types.py] *)

Record IssueType : Type := mkIssueType {
  it_id : Z;
  it_name : string;
  it_severity : string;
  it_severity_rank : Z;
  it_description : string;
  it_indicators : list string;
  it_resolution_steps : list string
}.

Module ISSUE_TYPES.

Definition scat_dead : IssueType :=
  mkIssueType 2 "scat_dead" "critical" 1
    "Pinpad is dead/unresponsive for extended period"
    [ "SCATAliveInt = 0 (ReportScatDead)"; "IsSCATAlive >N<";
      "SCAT msg not sent, SCAT dead"; "Set SCAT dead:" ]
    [ "1. Power cycle the pinpad";
      "2. Have cashier re-sign-on (CheckerSignOn)";
      "3. Check COM9 cable connection";
      "4. Verify M400 firmware version";
      "5. If P2P mismatch: check encryption configuration" ].

Definition card_read_intermittent : IssueType :=
  mkIssueType 13 "card_read_intermittent" "high" 2
    "Intermittent card read failures - customers waiting at pinpad with no card read"
    [ "BeginOrder followed by EndOrder with no card data";
      "SCATReady polling loop with no TenderType response";
      "High ratio of $0/no-card-type transactions" ]
    [ "1. Clean the chip card reader slot and contactless reader surface";
      "2. Inspect mag stripe reader for debris or damage";
      "3. Check for worn/damaged card reader contacts";
      "4. Power cycle pinpad (unplug for 60 seconds)";
      "5. If 7-8 AM spike: check USB power management settings (disable selective suspend)";
      "6. If chronic (>15% daily rate): schedule pinpad replacement";
      "7. Check if NFC/contactless antenna is loose" ].

End ISSUE_TYPES.

(* ================================================================== *)
(** ** Binary64 arithmetic, where rounding decides *)

Module Float64.

(** [float(z)] of an integer below 2^63 in size. *)
Definition of_Z (z : Z) : PrimFloat.float :=
  if (z <? 0)%Z then PrimFloat.opp (PrimFloat.of_uint63 (Uint63.of_Z (- z)))
  else PrimFloat.of_uint63 (Uint63.of_Z z).

(** [count * 100.0 / total] as the float the interpreter computes. *)
Definition pct (count total : Z) : PrimFloat.float :=
  PrimFloat.div (PrimFloat.mul (of_Z count) (of_Z 100)) (of_Z total).

(** [a > b + 5] on two such floats. *)
Definition above_by_5 (a b : PrimFloat.float) : bool :=
  PrimFloat.ltb (PrimFloat.add b (of_Z 5)) a.

End Float64.

(* ================================================================== *)
(** ** [ml/rules.py] *)

Module Rules.

(** The dictionary [_make_issue] builds. *)
Record Issue : Type := mkIssue {
  issue_type : string;
  severity : string;
  severity_rank : Z;
  confidence : Q;
  description : string;
  time_range : string;
  evidence : string;
  resolution_steps : list string
}.

Definition _make_issue (it : IssueType) (confidence : Q)
           (time_range evidence : string) : Issue :=
  mkIssue (it_name it) (it_severity it) (it_severity_rank it) confidence
          (it_description it) time_range evidence (it_resolution_steps it).

(** [min(a, b)] *)
Definition pymin (a b : Q) : Q := if Qlt_le_dec b a then b else a.

(** [a > b] on floats. *)
Definition gtb (a b : Q) : bool := if Qlt_le_dec b a then true else false.
(** [a >= b] on floats. *)
Definition geb (a b : Q) : bool := Qle_bool b a.
(** [a < b] on floats. *)
Definition ltb (a b : Q) : bool := gtb b a.

(** [RuleEngine._outside_window] *)
Definition _outside_window (event_start event_end : datetime)
           (window_start window_end : option datetime) : bool :=
  match window_start, window_end with
  | None, None => false
  | _, _ =>
      match window_start with
      | Some w => (event_end <? w)%Z
      | None => false
      end
      ||
      match window_end with
      | Some w => (event_start >? w)%Z
      | None => false
      end
  end.

Section Detectors.

(** [str(ts)] of a [datetime] and the format specification [.nf] of a
    float: renderings of the Python library, taken as given. *)
Variable str_datetime : datetime -> string.
Variable format_f : nat -> Q -> string.

Variables window_start window_end : option datetime.

(** *** [_check_scat_dead] *)

(** The issue of a dead period closed by the row at [ts]. *)
Definition closed_issue (dead_start ts : datetime) : list Issue :=
  let duration_sec := Datetime.total_seconds (ts - dead_start) in
  if gtb duration_sec 60
  then if negb (_outside_window dead_start ts window_start window_end)
       then [_make_issue ISSUE_TYPES.scat_dead
               (pymin 0.95 (0.5 + duration_sec / 3600))
               (str_datetime dead_start ++ " - " ++ str_datetime ts)%string
               ("Pinpad dead for " ++ format_f 1 (duration_sec / 60)
                                   ++ " minutes")%string]
       else []
  else [].

(** The loop over the rows: the issues appended and the value of
    [dead_start] afterwards. *)
Fixpoint dead_loop (dead_start : option datetime) (rows : list (datetime * Z))
  : list Issue * option datetime :=
  match rows with
  | [] => ([], dead_start)
  | (ts, status) :: rest =>
      match dead_start with
      | None =>
          if (status =? 0)%Z then dead_loop (Some ts) rest
          else dead_loop None rest
      | Some ds =>
          if negb (status =? 0)%Z
          then let '(issues, fin) := dead_loop None rest in
               (closed_issue ds ts ++ issues, fin)
          else dead_loop (Some ds) rest
      end
  end.

(** The branch "still dead at end of file". *)
Definition still_dead (dead_start : option datetime) (rows : list (datetime * Z))
  : list Issue :=
  match dead_start, Py.last_opt rows with
  | Some ds, Some (last_ts, _) =>
      let duration_sec := Datetime.total_seconds (last_ts - ds) in
      if gtb duration_sec 60
      then if negb (_outside_window ds last_ts window_start window_end)
           then [_make_issue ISSUE_TYPES.scat_dead 0.9
                   (str_datetime ds ++ " - (end of file)")%string
                   ("Pinpad dead for " ++ format_f 1 (duration_sec / 60)
                      ++ "+ minutes (still dead)")%string]
           else []
      else []
  | _, _ => []
  end.

(** [RuleEngine._check_scat_dead] on the rows of the timeline query. *)
Definition _check_scat_dead (rows : list (datetime * Z)) : list Issue :=
  match rows with
  | [] => []
  | _ =>
      let '(issues, dead_start) := dead_loop None rows in
      issues ++ still_dead dead_start rows
  end.

(** *** [_check_card_read_intermittent] *)

(** A row of the transaction query: [e.start_time], [e.end_time],
    [e.duration_ms], [t.is_approved], [t.card_type],
    [t.host_latency_ms], [t.amount_cents], [t.entry_method]; a column
    that is NULL is [None]. *)
Record txn_row : Type := mkRow {
  r_start_time : datetime;
  r_end_time : option datetime;
  r_duration_ms : option Q;
  r_is_approved : option bool;
  r_card_type : option string;
  r_host_latency_ms : option Q;
  r_amount_cents : option Z;
  r_entry_method : option string
}.

Definition MIN_WAIT_MS : Q := 15000.

(** [not r[3] and (not r[4] or r[4] == "") and (r[5] is None or r[5] == 0)] *)
Definition is_noread (r : txn_row) : bool :=
  negb match r_is_approved r with
       | Some b => b
       | None => false
       end
  && match r_card_type r with
     | Some ct => String.eqb ct ""
     | None => true
     end
  && match r_host_latency_ms r with
     | Some l => Qeq_bool l 0
     | None => true
     end.

(** [r[2] is not None and r[2] < MIN_WAIT_MS] *)
Definition is_quick (r : txn_row) : bool :=
  match r_duration_ms r with
  | Some dur => ltb dur MIN_WAIT_MS
  | None => false
  end.

(** The first loop: the rows kept in [no_reads] and the count
    [quick_cancels]. *)
Fixpoint collect (rows : list txn_row) : list txn_row * Z :=
  match rows with
  | [] => ([], 0%Z)
  | r :: rest =>
      let '(no_reads, quick_cancels) := collect rest in
      if is_noread r
      then if is_quick r then (no_reads, (quick_cancels + 1)%Z)
           else (r :: no_reads, quick_cancels)
      else (no_reads, quick_cancels)
  end.

(** [is_real_noread] of the second loop. *)
Definition is_real_noread (r : txn_row) : bool :=
  is_noread r
  && match r_duration_ms r with
     | Some dur => geb dur MIN_WAIT_MS
     | None => true
     end.

(** The second loop, from [max_burst] and [burst_count]: their values
    after the rows. *)
Fixpoint burst_loop (max_burst burst_count : Z) (rows : list txn_row) : Z * Z :=
  match rows with
  | [] => (max_burst, burst_count)
  | r :: rest =>
      if is_real_noread r then burst_loop max_burst (burst_count + 1)%Z rest
      else burst_loop (if (burst_count >? max_burst)%Z then burst_count
                       else max_burst) 0%Z rest
  end.

Definition max_burst_of (rows : list txn_row) : Z :=
  let '(max_burst, burst_count) := burst_loop 0 0 rows in
  if (burst_count >? max_burst)%Z then burst_count else max_burst.

(** [sum] of floats. *)
Definition qsum (l : list Q) : Q := fold_left Qplus l 0.

(** [[r[2] for r in no_reads if r[2] is not None and r[2] > 0]] *)
Fixpoint wait_times_of (no_reads : list txn_row) : list Q :=
  match no_reads with
  | [] => []
  | r :: rest =>
      match r_duration_ms r with
      | Some dur => if gtb dur 0 then dur :: wait_times_of rest
                    else wait_times_of rest
      | None => wait_times_of rest
      end
  end.

(** [sum(1 for r in no_reads if r[2] and 30_000 <= r[2] <= 55_000)] *)
Definition timeout_zone_of (no_reads : list txn_row) : Z :=
  Z.of_nat (List.length (filter (fun r =>
    match r_duration_ms r with
    | Some dur => negb (Qeq_bool dur 0) && geb dur 30000 && geb 55000 dur
    | None => false
    end) no_reads)).

Definition len {A : Type} (l : list A) : Z := Z.of_nat (List.length l).

(** The figures both branches print. *)
Record figures : Type := mkFigures {
  total : Z;
  no_read_count : Z;
  quick_cancels : Z;
  no_read_pct : Q;
  max_burst : Z;
  avg_wait_s : Q;
  total_wait_s : Q;
  timeout_pct : Q
}.

Definition figures_of (rows : list txn_row) : figures :=
  let '(no_reads, quick_cancels) := collect rows in
  let total := len rows in
  let no_read_count := len no_reads in
  let wait_times := wait_times_of no_reads in
  mkFigures total no_read_count quick_cancels
    (inject_Z no_read_count * 100 / inject_Z total)
    (max_burst_of rows)
    (match wait_times with
     | [] => 0
     | _ => qsum wait_times / inject_Z (len wait_times) / 1000
     end)
    (match wait_times with
     | [] => 0
     | _ => qsum wait_times / 1000
     end)
    (if (no_read_count =? 0)%Z then 0
     else inject_Z (timeout_zone_of no_reads) * 100 / inject_Z no_read_count).

Definition part_rate (f : figures) : string :=
  (Str.of_Z (no_read_count f) ++ "/" ++ Str.of_Z (total f)
   ++ " transactions failed to read card (" ++ format_f 0 (no_read_pct f)
   ++ "%)")%string.

Definition part_quick (f : figures) : list string :=
  if (quick_cancels f >? 0)%Z
  then [(Str.of_Z (quick_cancels f)
         ++ " quick cancels (<15s) excluded as likely cashier behavior")%string]
  else [].

Definition part_burst (f : figures) : list string :=
  if (max_burst f >=? 3)%Z
  then [("Burst of " ++ Str.of_Z (max_burst f)
         ++ " consecutive no-reads detected")%string]
  else [].

Definition part_avg (f : figures) : string :=
  ("Avg customer wait: " ++ format_f 0 (avg_wait_s f)
   ++ "s per failed attempt")%string.

Definition part_timeout (f : figures) : list string :=
  if gtb (timeout_pct f) 20
  then [(format_f 0 (timeout_pct f)
         ++ "% of failures cluster at POS timeout (30-55s)")%string]
  else [].

Definition part_total (f : figures) : string :=
  ("Total wasted wait time: " ++ format_f 1 (total_wait_s f / 60)
   ++ " minutes")%string.

(** [evidence_parts] of the acute branch. *)
Definition acute_parts (f : figures) : list string :=
  [part_rate f] ++ part_quick f ++ part_burst f ++ [part_avg f]
  ++ part_timeout f ++ [part_total f].

(** The note on the rate at 7 and 8 AM; [hourly] is what
    [_get_hourly_noread_rate] returns.  The test
    [morning_pct > no_read_pct + 5] is made on the floats the code
    computes, [count * 100.0 / total] for both rates: the rounding of
    the sum decides when the two sides are equal as exact numbers. *)
Definition part_morning (hourly : list (Z * Z * Z)) (f : figures) : list string :=
  let morning := filter (fun h => (fst (fst h) =? 7)%Z || (fst (fst h) =? 8)%Z)
                        hourly in
  let morning_rate := fold_left Z.add (map (fun h => snd (fst h)) morning) 0%Z in
  let morning_total := fold_left Z.add (map snd morning) 0%Z in
  if (morning_total >? 0)%Z
  then let morning_pct := inject_Z morning_rate * 100 / inject_Z morning_total in
       if Float64.above_by_5 (Float64.pct morning_rate morning_total)
                             (Float64.pct (no_read_count f) (total f))
       then [("Morning spike: " ++ format_f 0 morning_pct
              ++ "% fail rate at 7-8 AM (vs " ++ format_f 0 (no_read_pct f)
              ++ "% overall) - possible startup/thermal issue")%string]
       else []
  else [].

(** [evidence_parts] of the chronic branch. *)
Definition chronic_parts (hourly : list (Z * Z * Z)) (f : figures) : list string :=
  [part_rate f] ++ part_quick f ++ [part_avg f] ++ part_timeout f
  ++ [part_total f] ++ part_morning hourly f.

(** [f"{no_reads[0][0]} - {no_reads[-1][0]}"] *)
Definition noread_range (no_reads : list txn_row) : string :=
  match no_reads, Py.last_opt no_reads with
  | first :: _, Some last =>
      (str_datetime (r_start_time first) ++ " - "
       ++ str_datetime (r_start_time last))%string
  | _, _ => EmptyString
  end.

(** [RuleEngine._check_card_read_intermittent] on the rows of the
    transaction query and the result of [_get_hourly_noread_rate]. *)
Definition _check_card_read_intermittent (rows : list txn_row)
           (hourly : list (Z * Z * Z)) : list Issue :=
  if (len rows <? 5)%Z then []
  else
    let f := figures_of rows in
    let no_reads := fst (collect rows) in
    if (no_read_count f =? 0)%Z then []
    else if (max_burst f >=? 3)%Z || geb (no_read_pct f) 30
    then [_make_issue ISSUE_TYPES.card_read_intermittent
            (pymin 0.95 (0.7 + inject_Z (max_burst f) * 0.05))
            (noread_range no_reads)
            (Str.join "; " (acute_parts f))]
    else if geb (no_read_pct f) 15 && (total f >=? 10)%Z
    then [_make_issue ISSUE_TYPES.card_read_intermittent
            (pymin 0.85 (0.5 + no_read_pct f / 100))
            (noread_range no_reads)
            (Str.join "; " (chronic_parts hourly f))]
    else [].

End Detectors.

End Rules.

(* ================================================================== *)
(** ** [segmentation/error_cascade.py] *)

Module Cascade.

Import Re.

(** [ErrorCascadeData] of [segmentation/models.py]. *)
Record ErrorCascadeData : Type := mkCascade {
  start_line : Z;
  end_line : Z;
  start_time : option datetime;
  end_time : option datetime;
  error_pattern : string;
  error_count : Z;
  first_error_message : string;
  recovery_achieved : bool;
  recovery_time_ms : option Q
}.

(** "\*{4}ERROR[:\s](.+)" *)
Definition ERROR_PATTERN : regex :=
  seq [ lit "****ERROR"; Chr (COr (CLit ":") CSpace); Grp 1 (plus dot) ].

(** "ProcessRequest FAILED" *)
Definition PROCESS_FAILED : regex := lit "ProcessRequest FAILED".

Definition MAX_GAP_SECONDS : Q := 5.

(** [bool(ERROR_PATTERN.search(msg) or PROCESS_FAILED.search(msg))] *)
Definition is_error (msg : string) : bool :=
  match search ERROR_PATTERN msg with
  | Some _ => true
  | None =>
      match search PROCESS_FAILED msg with
      | Some _ => true
      | None => false
      end
  end.

(** [ErrorCascadeData(start_line=..., start_time=..., error_count=1,
    first_error_message=...)] with the pattern label [label]. *)
Definition opened (e : LogEntry) (label : string) : ErrorCascadeData :=
  mkCascade (line_number e) 0 (Some (timestamp e)) None label 1
            (Str.strip (message e)) false None.

(** [m.group(1).strip()[:100]] *)
Definition label_of (m : caps) : string :=
  substring 0 100 (Str.strip (Parser.group_or_empty 1 m)).

(** The cascade the first error line opens. *)
Definition open_first (e : LogEntry) : ErrorCascadeData :=
  match search ERROR_PATTERN (message e) with
  | Some m => opened e (label_of m)
  | None =>
      match search PROCESS_FAILED (message e) with
      | Some _ => opened e "ProcessRequest FAILED"
      | None => opened e ""
      end
  end.

(** The cascade opened by an error line that comes too late for the one
    before: only [ERROR_PATTERN] labels it. *)
Definition open_after_gap (e : LogEntry) : ErrorCascadeData :=
  match search ERROR_PATTERN (message e) with
  | Some m => opened e (label_of m)
  | None => opened e ""
  end.

(** [_finalize]: a cascade of one line ends where it starts. *)
Definition _finalize (c : ErrorCascadeData) : ErrorCascadeData :=
  match end_time c with
  | None =>
      mkCascade (start_line c) (start_line c) (start_time c) (start_time c)
                (error_pattern c) (error_count c) (first_error_message c)
                (recovery_achieved c) (recovery_time_ms c)
  | Some _ => c
  end.

(** One more error line in the cascade. *)
Definition extended (c : ErrorCascadeData) (e : LogEntry) : ErrorCascadeData :=
  mkCascade (start_line c) (line_number e) (start_time c) (Some (timestamp e))
            (error_pattern c) (error_count c + 1) (first_error_message c)
            (recovery_achieved c) (recovery_time_ms c).

(** The marks of recovery on the line that closes a cascade. *)
Definition recovered (c : ErrorCascadeData) (e : LogEntry) : ErrorCascadeData :=
  if Str.contains "SCATAliveInt = 3" (message e) || Str.contains "Ready" (message e)
  then mkCascade (start_line c) (end_line c) (start_time c) (end_time c)
                 (error_pattern c) (error_count c) (first_error_message c) true
                 (match end_time c with
                  | Some en =>
                      Some (Datetime.total_seconds (timestamp e - en) * 1000)%Q
                  | None => recovery_time_ms c
                  end)
  else c.

(** The detector: [_current] and [_last_error_time]. *)
Record detector : Type := mkDetector {
  _current : option ErrorCascadeData;
  _last_error_time : option datetime
}.

(** [ErrorCascadeDetector.__init__] *)
Definition init : detector := mkDetector None None.

Section Detector.

(** [max_gap_seconds], 5.0 by default. *)
Variable max_gap : Q.

(** [(ts - last).total_seconds() <= max_gap] *)
Definition within_gap (last ts : datetime) : bool :=
  Qle_bool (Datetime.total_seconds (ts - last)) max_gap.

(** One turn of the loop of [process_entries]: the cascades yielded for
    [e] and the detector afterwards. *)
Definition step (dt : detector) (e : LogEntry)
  : list ErrorCascadeData * detector :=
  if is_error (message e)
  then
    match _current dt with
    | None => ([], mkDetector (Some (open_first e)) (Some (timestamp e)))
    | Some c =>
        match _last_error_time dt with
        | Some last =>
            if within_gap last (timestamp e)
            then ([], mkDetector (Some (extended c e)) (Some (timestamp e)))
            else ([_finalize c],
                  mkDetector (Some (open_after_gap e)) (Some (timestamp e)))
        | None =>
            ([_finalize c],
             mkDetector (Some (open_after_gap e)) (Some (timestamp e)))
        end
    end
  else
    match _current dt, _last_error_time dt with
    | Some c, Some last =>
        if negb (within_gap last (timestamp e))
        then ([recovered (_finalize c) e], mkDetector None None)
        else ([], dt)
    | _, _ => ([], dt)
    end.

(** The loop of [process_entries] from the detector [dt]. *)
Fixpoint run_from (dt : detector) (entries : list LogEntry)
  : list ErrorCascadeData * detector :=
  match entries with
  | [] => ([], dt)
  | e :: rest =>
      let '(out, dt') := step dt e in
      let '(outs, final) := run_from dt' rest in
      (out ++ outs, final)
  end.

(** The flush after the loop. *)
Definition flush (dt : detector) : list ErrorCascadeData :=
  match _current dt with
  | Some c => [_finalize c]
  | None => []
  end.

(** [ErrorCascadeDetector(max_gap).process_entries(entries)] *)
Definition process_entries (entries : list LogEntry) : list ErrorCascadeData :=
  let '(outs, final) := run_from init entries in
  outs ++ flush final.

End Detector.

End Cascade.

(* ================================================================== *)
(** ** [ml/rules.py]: the other detectors and [analyze_file] *)

Module RuleEngine.

Import Rules.

Definition serial_comm_failure : IssueType :=
  mkIssueType 1 "serial_comm_failure" "critical" 1
    "Pinpad serial communication lost - SendMsgWaitAck3Tries failures"
    [ "SendMsgWaitAck3Tries failed"; "ProcessRequest FAILED";
      "Serial Out on 'Data Sent:' GetLastError" ]
    [ "1. Check USB/serial cable connection to pinpad";
      "2. Power cycle the pinpad (unplug for 30 seconds)";
      "3. Verify COM port settings (COM9, 115200 baud)";
      "4. Check for loose connections at both ends";
      "5. Try a different USB port or cable" ].

Definition servereps_500 : IssueType :=
  mkIssueType 3 "servereps_500" "high" 2
    "ServerEPS returning HTTP 500 Internal Server Error"
    [ "HTTP/1.1 500 Internal Server Error"; "ExchangeInfo was not sent";
      "MonitoringStatus was not sent" ]
    [ "1. Check ServerEPS service status (svc1/svc2.servereps.com)";
      "2. Verify network connectivity from POS";
      "3. If persistent: contact MicroTrax support";
      "4. System will auto-failover to secondary DC" ].

Definition servereps_socket_error : IssueType :=
  mkIssueType 4 "servereps_socket_error" "high" 2
    "Socket error connecting to ServerEPS"
    [ "Socket Error # 10054"; "Socket Error # 10060"; "Socket Error # 10061" ]
    [ "1. Check store internet connectivity";
      "2. Verify DNS resolution for servereps.com";
      "3. Check firewall rules (ports 443/HTTPS)";
      "4. Socket 10054: Remote server reset connection";
      "5. Socket 10060: Network timeout - check ISP" ].

Definition host_timeout : IssueType :=
  mkIssueType 5 "host_timeout" "high" 2
    "Host authorization timeout (SE_SEND without SE_RECV)"
    [ "SE_SEND without matching SE_RECV"; "Host latency > 10 seconds" ]
    [ "1. Check network latency to ServerEPS hosts";
      "2. Verify transaction host (trn1/trn2.servereps.com)";
      "3. Check for network congestion";
      "4. If widespread: ServerEPS capacity issue" ].

Definition repeated_decline : IssueType :=
  mkIssueType 9 "repeated_decline" "low" 4
    "Multiple consecutive transaction declines"
    [ "ResponseCode = DD"; "Multiple consecutive DN response codes" ]
    [ "1. Normal issuer behavior (insufficient funds, fraud hold)";
      "2. Check if same card being retried";
      "3. For EBT: verify available balance";
      "4. Not a system issue unless all cards declining" ].

Definition p2p_encryption_mismatch : IssueType :=
  mkIssueType 12 "p2p_encryption_mismatch" "critical" 1
    "P2P encryption required but terminal not capable"
    [ "IsP2PDLL=Y, IsTermP2PCapable=N"; "Set SCAT dead: P2P Required" ]
    [ "1. Verify pinpad supports P2P encryption";
      "2. Check terminal configuration version";
      "3. Update pinpad firmware if needed";
      "4. Verify VSD/SRED encryption module is enabled" ].

Section Detectors.

Variable str_datetime : datetime -> string.
Variable format_f : nat -> Q -> string.

(** [repr] of a [set] of strings, whose order Python leaves open. *)
Variable repr_set : list string -> string.

(** *** [_check_serial_failures] *)

(** [(row[0] - current_cluster[-1][0]).total_seconds() < 10]; the
    cluster in progress is never empty. *)
Definition joins (current_cluster : list (datetime * string))
           (row : datetime * string) : bool :=
  match Py.last_opt current_cluster with
  | Some last => ltb (Datetime.total_seconds (fst row - fst last)) 10
  | None => false
  end.

(** The clustering loop from the cluster in progress: the clusters it
    appends, the last of them after the loop. *)
Fixpoint cluster_loop (current_cluster : list (datetime * string))
         (rows : list (datetime * string))
  : list (list (datetime * string)) :=
  match rows with
  | [] => [current_cluster]
  | row :: rest =>
      if joins current_cluster row
      then cluster_loop (current_cluster ++ [row]) rest
      else current_cluster :: cluster_loop [row] rest
  end.

(** [clusters] once the loop is over, for [rows] not empty. *)
Definition clusters_of (rows : list (datetime * string))
  : list (list (datetime * string)) :=
  match rows with
  | [] => []
  | row :: rest => cluster_loop [row] rest
  end.

Definition cluster_issue (cluster : list (datetime * string)) : list Issue :=
  match cluster, Py.last_opt cluster with
  | first :: _, Some last =>
      if (len cluster >=? 2)%Z
      then [_make_issue serial_comm_failure
              (pymin 0.95 (0.6 + inject_Z (len cluster) * 0.1))
              (str_datetime (fst first) ++ " - " ++ str_datetime (fst last))%string
              (Str.of_Z (len cluster) ++ " ACK failures in "
               ++ format_f 0 (Datetime.total_seconds (fst last - fst first))
               ++ "s")%string]
      else []
  | _, _ => []
  end.

(** [RuleEngine._check_serial_failures] on the rows of its query. *)
Definition _check_serial_failures (rows : list (datetime * string)) : list Issue :=
  flat_map cluster_issue (clusters_of rows).

(** *** [_check_servereps_errors] *)

(** A row of the failed health checks: [e.start_time], [hc.check_type],
    [hc.http_status], [hc.error_code]. *)
Definition health_row : Type :=
  (datetime * option string * option string * option string)%type.

Definition hr_start (r : health_row) : datetime := fst (fst (fst r)).
Definition hr_check_type (r : health_row) : option string := snd (fst (fst r)).
Definition hr_http_status (r : health_row) : option string := snd (fst r).

Definition opt_str (x : option string) : string :=
  match x with
  | Some v => v
  | None => "None"
  end.

Definition is_http_500 (r : health_row) : bool :=
  match hr_http_status r with
  | Some v => String.eqb v "500"
  | None => false
  end.

(** [r[2] and r[2].startswith("Socket_")] *)
Definition is_socket_error (r : health_row) : bool :=
  match hr_http_status r with
  | Some v => negb (String.eqb v "") && Str.startswith "Socket_" v
  | None => false
  end.

Definition first_last_range (rows : list health_row) : string :=
  match rows, Py.last_opt rows with
  | first :: _, Some last =>
      (str_datetime (hr_start first) ++ " - " ++ str_datetime (hr_start last))%string
  | _, _ => EmptyString
  end.

(** [RuleEngine._check_servereps_errors] on the rows of its query. *)
Definition _check_servereps_errors (rows : list health_row) : list Issue :=
  match rows with
  | [] => []
  | _ =>
  let http_500s := filter is_http_500 rows in
  let socket_errors := filter is_socket_error rows in
  match http_500s with
  | [] => []
  | _ => [_make_issue servereps_500 0.95 (first_last_range http_500s)
            (Str.of_Z (len http_500s) ++ " HTTP 500 errors across "
             ++ repr_set (map (fun r => opt_str (hr_check_type r)) http_500s))%string]
  end
  ++
  match socket_errors with
  | [] => []
  | _ => [_make_issue servereps_socket_error 0.9 (first_last_range socket_errors)
            (Str.of_Z (len socket_errors) ++ " socket errors: "
             ++ repr_set (map (fun r => opt_str (hr_http_status r)) socket_errors))%string]
  end
  end.

(** *** [_check_p2p_mismatch] *)

(** On the rows of its query, at most one by [LIMIT 1]. *)
Definition _check_p2p_mismatch (rows : list (datetime * string)) : list Issue :=
  match rows with
  | [] => []
  | row :: _ =>
      [_make_issue p2p_encryption_mismatch 0.99 (str_datetime (fst row))
         "P2P DLL requires encryption but terminal reports not capable"]
  end.

(** *** [_check_transaction_health] *)

(** A row of the query: [e.start_time], [t.response_code],
    [t.card_type], [t.pan_last4]. *)
Definition decline_row : Type :=
  (datetime * option string * option string * option string)%type.

Definition dr_start (r : decline_row) : datetime := fst (fst (fst r)).
Definition dr_response_code (r : decline_row) : option string := snd (fst (fst r)).

(** [row[1] in ("DD", "DN")] *)
Definition is_decline (r : decline_row) : bool :=
  match dr_response_code r with
  | Some v => String.eqb v "DD" || String.eqb v "DN"
  | None => false
  end.

(** The loop, from [consecutive_declines], [max_consecutive] and
    [decline_start]: their values after the rows. *)
Fixpoint decline_loop (consecutive max_consecutive : Z)
         (decline_start : option datetime) (rows : list decline_row)
  : Z * Z * option datetime :=
  match rows with
  | [] => (consecutive, max_consecutive, decline_start)
  | row :: rest =>
      if is_decline row
      then decline_loop (consecutive + 1) (Z.max max_consecutive (consecutive + 1))
                        (if (consecutive =? 0)%Z then Some (dr_start row)
                         else decline_start) rest
      else decline_loop 0 max_consecutive decline_start rest
  end.

(** [RuleEngine._check_transaction_health] on the rows of its query. *)
Definition _check_transaction_health (rows : list decline_row) : list Issue :=
  match rows with
  | [] => []
  | _ =>
      let '(_, max_consecutive, decline_start) := decline_loop 0 0 None rows in
      if (max_consecutive >=? 3)%Z
      then [_make_issue repeated_decline 0.7
              (match decline_start with
               | Some ts => str_datetime ts
               | None => EmptyString
               end)
              (Str.of_Z max_consecutive ++ " consecutive declines")%string]
      else []
  end.

(** *** [_check_host_latency] *)

(** On the rows of its query: [e.start_time], [t.host_latency_ms],
    [t.host_url], slowest first, five at most. *)
Definition _check_host_latency (rows : list (datetime * Q * option string))
  : list Issue :=
  match rows with
  | [] => []
  | (start, max_latency, _) :: _ =>
      [_make_issue host_timeout
         (pymin 0.9 (0.5 + max_latency / 20000))
         (str_datetime start)
         (Str.of_Z (len rows) ++ " transactions with latency > 5s (max: "
          ++ format_f 0 max_latency ++ "ms)")%string]
  end.

(** *** [_check_error_cascades] *)

(** A row of the query: [e.start_time], [e.end_time], [e.duration_ms],
    [ec.error_pattern], [ec.error_count], [ec.recovery_achieved]. *)
Record cascade_row : Type := mkCascadeRow {
  cr_start_time : datetime;
  cr_end_time : option datetime;
  cr_duration_ms : option Q;
  cr_error_pattern : option string;
  cr_error_count : Z;
  cr_recovery_achieved : option bool
}.

(** [row[3] or "Unknown"] *)
Definition pattern_of (r : cascade_row) : string :=
  match cr_error_pattern r with
  | Some v => if String.eqb v "" then "Unknown" else v
  | None => "Unknown"
  end.

Definition str_opt_datetime (x : option datetime) : string :=
  match x with
  | Some ts => str_datetime ts
  | None => "None"
  end.

Definition str_opt_bool (x : option bool) : string :=
  match x with
  | Some true => "True"
  | Some false => "False"
  | None => "None"
  end.

(** The issue of one cascade; both branches on the pattern name the
    same issue type. *)
Definition cascade_issue (r : cascade_row) : Issue :=
  _make_issue
    (if Str.contains "SendMsgWaitAck3Tries" (pattern_of r)
     then serial_comm_failure else serial_comm_failure)
    (pymin 0.9 (0.5 + inject_Z (cr_error_count r) * 0.05))
    (str_datetime (cr_start_time r) ++ " - " ++ str_opt_datetime (cr_end_time r))%string
    ("Error cascade: " ++ Str.of_Z (cr_error_count r) ++ " '" ++ pattern_of r
     ++ "' errors, recovered=" ++ str_opt_bool (cr_recovery_achieved r))%string.

(** [RuleEngine._check_error_cascades] on the rows of its query. *)
Definition _check_error_cascades (rows : list cascade_row) : list Issue :=
  map cascade_issue rows.

(** *** [analyze_file] *)

(** What the queries of the eight detectors return for a file and a
    window. *)
Record file_data : Type := mkFileData {
  scat_rows : list (datetime * Z);
  ack_failure_rows : list (datetime * string);
  failed_check_rows : list health_row;
  p2p_rows : list (datetime * string);
  decline_rows : list decline_row;
  slow_rows : list (datetime * Q * option string);
  cascade_rows : list cascade_row;
  txn_rows : list txn_row;
  hourly_rows : list (Z * Z * Z)
}.

(** [RuleEngine.analyze_file] *)
Definition analyze_file (window_start window_end : option datetime)
           (fd : file_data) : list Issue :=
  _check_scat_dead str_datetime format_f window_start window_end (scat_rows fd)
  ++ _check_serial_failures (ack_failure_rows fd)
  ++ _check_servereps_errors (failed_check_rows fd)
  ++ _check_p2p_mismatch (p2p_rows fd)
  ++ _check_transaction_health (decline_rows fd)
  ++ _check_host_latency (slow_rows fd)
  ++ _check_error_cascades (cascade_rows fd)
  ++ _check_card_read_intermittent str_datetime format_f (txn_rows fd)
       (hourly_rows fd).

End Detectors.

End RuleEngine.

(* ================================================================== *)
(** ** Notions and inputs the statements are about *)

(** The four lines of the end-to-end scenario. *)
Definition scenario : list string :=
  [ "11/30/25 08:06:19.279 DLL-EX MTX_POS_BeginOrder";
    "11/30/25 08:07:31.399 SVREPS SE_SEND(TimeOutSecs 30) [60 bytes] URL[https://trn2.servereps.com/sCAT2] Aa145714 Ab1 Ae9218 BnDB Da5000 Bp1234 BfE";
    "11/30/25 08:07:33.149 SVREPS SE_RECV(1.743 secs) [250 bytes] Ae9218 Af00 Ag123456";
    "11/30/25 08:08:40.447 DLL-EX MTX_POS_EndOrder" ].

(** An entry as the parser yields it. *)
Definition sample_entry : LogEntry :=
  mkLogEntry 1%Z 63900057600005000%Z "SERIAL" "msg1" false 1%Z "test.txt".

(** An item as the parser yields it: an entry is not an expanded copy. *)
Definition input_entry (it : item) : Prop :=
  match it with
  | Entry e => is_expanded e = false
  | Directive _ => True
  end.

(** The alive status and its name carried by the message of an entry. *)
Definition alive_of (e : LogEntry) : option (Z * string) :=
  match Re.search SCAT.ALIVE_PATTERN (message e) with
  | Some m => Some (Str.int_of_digits (Parser.group_or_empty 1 m),
                    Parser.group_or_empty 2 m)
  | None => None
  end.

(** What one entry adds to the alive history. *)
Definition recorded (sm : SCAT.SCATStateMachine) (e : LogEntry)
  : list (datetime * Z * string) :=
  match alive_of e with
  | Some (status, name) =>
      if (status =? SCAT.alive_status sm)%Z then []
      else [(timestamp e, status, name)]
  | None => []
  end.

(** Timestamp and status of a transition. *)
Definition transition (x : datetime * Z * string) : datetime * Z :=
  let '(ts, status, _) := x in (ts, status).

(** An entry of category DLL-EX stamped [ts]. *)
Definition alive_entry (ts : Z) (msg : string) : LogEntry :=
  mkLogEntry 0%Z ts "DLL-EX" msg false 1%Z "".

(** Alive status 3, 3, 0, 0, 3, one second apart. *)
Definition five_entries : list LogEntry :=
  [ alive_entry 1000000 "SCATAliveInt = 3 (ReportScatAlive)";
    alive_entry 2000000 "SCATAliveInt = 3 (ReportScatAlive)";
    alive_entry 3000000 "SCATAliveInt = 0 (ReportScatDead)";
    alive_entry 4000000 "SCATAliveInt = 0 (ReportScatDead)";
    alive_entry 5000000 "SCATAliveInt = 3 (ReportScatAlive)" ].

(** A start marker of an [ExchangeInfo] check towards [host]. *)
Definition exchange_start (line ts : Z) (host : string) : LogEntry :=
  mkLogEntry line ts "SVREPS"
    ("ServerEPS_LSExchangeInfo Company[145714] Store[1] Addr[" ++ host ++ "]")%string
    false 1%Z "".

Definition first_start : LogEntry := exchange_start 1 1000000 "svc1.servereps.com".
Definition second_start : LogEntry := exchange_start 2 2000000 "svc2.servereps.com".

(** The record a start marker opens, before any result line: no end,
    no error code, [success] false. *)
Definition unresolved (line ts : Z) (host : string) : Health.HealthCheckData :=
  Health.mkHealth line 0 (Some ts) None "ExchangeInfo" host false "" "" 0.

(** An entry that is not an expanded copy. *)
Definition entry_at (line ts : Z) (cat msg : string) : LogEntry :=
  mkLogEntry line ts cat msg false 1%Z "".

(** A transaction just started. *)
Definition fresh_txn : Txn.TransactionData := Txn.new 1 63900086779279000%Z.




(** What holds of every machine: the last transition recorded has the
    current status, and a transition to 0 was recorded with no dead
    period open. *)
Definition well_formed (sm : SCAT.SCATStateMachine) : Prop :=
  forall h ts status name,
    SCAT.alive_history sm = h ++ [(ts, status, name)] ->
    status = SCAT.alive_status sm /\
    (status = 0%Z -> snd (SCAT.dead_scan None h) = None).

(** The timestamps of the transitions of a history. *)
Definition timestamps (h : list (datetime * Z * string)) : list Z :=
  map (fun x => fst (transition x)) h.

(** Alive, dead a second later, and no status line after that. *)
Definition dead_then_silent : list LogEntry :=
  [ alive_entry 1000000 "SCATAliveInt = 3 (ReportScatAlive)";
    alive_entry 2000000 "SCATAliveInt = 0 (ReportScatDead)";
    alive_entry 500000000 "MTX_POS_BeginOrder" ].

(** Two transitions in the same millisecond: alive, then dead again. *)
Definition dead_alive_dead_same_instant : list LogEntry :=
  [ alive_entry 1000000 "SCATAliveInt = 0 (ReportScatDead)";
    alive_entry 101000000 "SCATAliveInt = 3 (ReportScatAlive)";
    alive_entry 101000000 "SCATAliveInt = 0 (ReportScatDead)" ].

(** Timestamps that go back: the line logged second is stamped before
    the first. *)
Definition dead_out_of_order : list LogEntry :=
  [ alive_entry 101000000 "SCATAliveInt = 0 (ReportScatDead)";
    alive_entry 1000000 "SCATAliveInt = 3 (ReportScatAlive)";
    alive_entry 201000000 "SCATAliveInt = 0 (ReportScatDead)" ].

(** The line number an item carries. *)
Definition item_line (it : item) : Z :=
  match it with
  | Entry e => line_number e
  | Directive rd => rd_line_number rd
  end.

(** An entry that is not an expanded copy. *)
Definition original (e : LogEntry) : bool := negb (is_expanded e).

(** All the characters of [s] are blanks in the sense of [str.isspace]. *)
Fixpoint all_space (s : string) : bool :=
  match s with
  | EmptyString => true
  | String a s' => Str.is_space a && all_space s'
  end.

(** The statuses of the transitions of a history. *)
Definition statuses (h : list (datetime * Z * string)) : list Z :=
  map (fun x => snd (fst x)) h.

(** No status of [l] repeats the one before it, [prev] being the one
    before the first. *)
Fixpoint no_repeat (prev : Z) (l : list Z) : Prop :=
  match l with
  | [] => True
  | x :: rest => x <> prev /\ no_repeat x rest
  end.

(** The named-state change an entry carries, if any. *)
Definition state_of (e : LogEntry) : list SCATStateChange :=
  match Re.search SCAT.SCAT_STATE_PATTERN (message e) with
  | Some m =>
      [mkSCATStateChange (timestamp e)
         (Str.strip (Parser.group_or_empty 1 m))
         (Str.strip (Parser.group_or_empty 2 m)) None]
  | None => []
  end.

(** Dead periods read off a history: every transition to 0 opens one,
    which the next transition closes; the last transition closes its own
    if it is one to 0. *)
Fixpoint dead_periods_of (h : list (datetime * Z * string))
  : list (datetime * datetime * Q) :=
  match h with
  | [] => []
  | (ts, status, _) :: rest =>
      if (status =? 0)%Z
      then match rest with
           | (ts', _, _) :: _ => (ts, ts', Datetime.total_seconds (ts' - ts))
           | [] => (ts, ts, Datetime.total_seconds (ts - ts))
           end :: dead_periods_of rest
      else dead_periods_of rest
  end.

(** An entry of the backend-health category. *)
Definition is_svreps (e : LogEntry) : bool := String.eqb (category e) "SVREPS".

(** What every health-check record yielded satisfies. *)
Definition sound_check (r : Health.HealthCheckData) : Prop :=
  (Health.check_type r = "ExchangeInfo" \/
   Health.check_type r = "MonitoringStatus" \/
   Health.check_type r = "Login") /\
  Health.start_time r <> None /\
  Health.success r
  = (if String.eqb (Health.check_type r) "Login"
     then String.eqb (Health.error_code r) "lrNothingNew"
          || String.eqb (Health.error_code r) "lrWaitForFiles"
     else String.eqb (Health.error_code r) "0") /\
  (Health.check_type r <> "ExchangeInfo" ->
   Health.end_line r = Health.start_line r /\
   Health.end_time r = Health.start_time r /\
   Health.latency_ms r = 0) /\
  (forall st en,
     Health.check_type r = "ExchangeInfo" ->
     Health.start_time r = Some st -> Health.end_time r = Some en ->
     Health.latency_ms r = (Datetime.total_seconds (en - st) * 1000)%Q).

(** The record open between a start marker and its result line. *)
Definition open_check (c : Health.HealthCheckData) : Prop :=
  Health.check_type c = "ExchangeInfo" /\
  Health.start_time c <> None /\ Health.end_time c = None /\
  Health.success c = false /\ Health.error_code c = "".

(** [d.get(ts)] on a dictionary kept as the list of its items. *)
Fixpoint lookup (ts : datetime) (d : list (datetime * Z)) : option Z :=
  match d with
  | [] => None
  | (k, v) :: rest => if (k =? ts)%Z then Some v else lookup ts rest
  end.

(** The status given last for [ts] in a batch. *)
Definition last_status_for (ts : datetime) (entries : list (datetime * Z))
  : option Z :=
  lookup ts (rev entries).

(** An entry the cascade detector takes for an error. *)
Definition error_like (e : LogEntry) : bool := Cascade.is_error (message e).

(** The sum of the error counts of cascades. *)
Definition total_errors (cs : list Cascade.ErrorCascadeData) : Z :=
  fold_right (fun c acc => (Cascade.error_count c + acc)%Z) 0%Z cs.

(** What every cascade yielded satisfies. *)
Definition sound_cascade (c : Cascade.ErrorCascadeData) : Prop :=
  Cascade.start_time c <> None /\ Cascade.end_time c <> None /\
  (1 <= Cascade.error_count c)%Z /\
  (Cascade.error_count c = 1%Z ->
   Cascade.end_time c = Cascade.start_time c /\
   Cascade.end_line c = Cascade.start_line c) /\
  (Cascade.recovery_achieved c = true -> Cascade.recovery_time_ms c <> None) /\
  (Cascade.recovery_achieved c = false -> Cascade.recovery_time_ms c = None).

(** The cascade in progress. *)
Definition open_cascade (c : Cascade.ErrorCascadeData) : Prop :=
  Cascade.start_time c <> None /\ (1 <= Cascade.error_count c)%Z /\
  (Cascade.error_count c = 1%Z -> Cascade.end_time c = None) /\
  (Cascade.end_time c = None -> Cascade.error_count c = 1%Z) /\
  Cascade.recovery_achieved c = false /\ Cascade.recovery_time_ms c = None.

(** Each entry of [l] comes within [max_gap] of the one before it,
    [prev] being the time of the one before the first. *)
Fixpoint chained (max_gap : Q) (prev : datetime) (l : list LogEntry) : Prop :=
  match l with
  | [] => True
  | e :: rest =>
      Cascade.within_gap max_gap prev (timestamp e) = true /\
      chained max_gap (timestamp e) rest
  end.

(** The last entry of [rest], or [e] when there is none. *)
Definition last_entry (e : LogEntry) (rest : list LogEntry) : LogEntry :=
  last rest e.

(** A cascade of [n] errors from the entry [first] to the entry [final],
    not recovered. *)
Definition spans (c : Cascade.ErrorCascadeData) (n : nat)
           (first final : LogEntry) : Prop :=
  Cascade.error_count c = Z.of_nat n /\
  Cascade.start_line c = line_number first /\
  Cascade.start_time c = Some (timestamp first) /\
  Cascade.end_line c = line_number final /\
  Cascade.end_time c = Some (timestamp final) /\
  Cascade.recovery_achieved c = false.

(** An entry that starts a transaction: a begin-order marker, or, on
    DLL-EX, a tender-type-set marker. *)
Definition start_signal (e : LogEntry) : bool :=
  Segmenter.is_some (Re.search Segmenter.begin_order (message e))
  || (Segmenter.is_some (Re.search Segmenter.tender_type_set (message e))
      && String.eqb (category e) "DLL-EX").

(** An inbound marker on SVREPS whose seconds [float] rejects. *)
Definition bad_seconds (e : LogEntry) : bool :=
  match Re.search Segmenter.se_recv (message e) with
  | Some m =>
      String.eqb (category e) "SVREPS"
      && negb (Segmenter.is_some (Str.py_float (Segmenter.g 1 m)))
  | None => false
  end.




(** The second transaction starts where the first did. *)
Definition same_start (t t' : Txn.TransactionData) : Prop :=
  Txn.start_line t' = Txn.start_line t /\ Txn.start_time t' = Txn.start_time t.

(** The transaction runs from one entry of the stream to the same or a
    later one: its start line and time are those of the first, its end
    line and time those of the second. *)
Definition bounded_by (entries : list LogEntry) (t : Txn.TransactionData) : Prop :=
  exists (i j : nat) (first last : LogEntry),
    (i <= j)%nat /\
    nth_error entries i = Some first /\
    nth_error entries j = Some last /\
    Txn.start_line t = line_number first /\
    Txn.start_time t = Some (timestamp first) /\
    Txn.end_line t = line_number last /\
    Txn.end_time t = Some (timestamp last).

(** What the segmenter holds after the entries [seen]: a transaction in
    progress started at one of them, and the buffer ends with the last
    of them. *)
Definition started_in (seen : list LogEntry) (seg : Segmenter.segmenter) : Prop :=
  forall t, Segmenter._current seg = Some t ->
    (exists (i : nat) (first : LogEntry),
        nth_error seen i = Some first /\
        Txn.start_line t = line_number first /\
        Txn.start_time t = Some (timestamp first)) /\
    Py.last_opt (Segmenter._entries_buffer seg) = Py.last_opt seen.

(** Consecutive failures of the cluster are less than ten seconds
    apart. *)
Fixpoint close_chain (cluster : list (datetime * string)) : Prop :=
  match cluster with
  | a :: (b :: _) as rest =>
      Datetime.total_seconds (fst b - fst a) < 10 /\ close_chain rest
  | _ => True
  end.

(** From the last failure of a cluster to the first of the next there
    are ten seconds or more. *)
Fixpoint apart (clusters : list (list (datetime * string))) : Prop :=
  match clusters with
  | c1 :: (c2 :: _) as rest =>
      (forall a b, Py.last_opt c1 = Some a -> hd_error c2 = Some b ->
                   10 <= Datetime.total_seconds (fst b - fst a))
      /\ apart rest
  | _ => True
  end.

(** [n] rows in a row that are declines. *)
Definition has_decline_run (n : nat) (rows : list RuleEngine.decline_row) : Prop :=
  exists pre run post,
    rows = pre ++ run ++ post /\ List.length run = n /\
    forallb RuleEngine.is_decline run = true.

(** An issue whose confidence lies above 0.5 and at most at 0.99, and
    whose severity rank is one of 1 to 4. *)
Definition well_scored (i : Rules.Issue) : Prop :=
  0.5 < Rules.confidence i /\ Rules.confidence i <= 0.99 /\
  (1 <= Rules.severity_rank i <= 4)%Z.

(** What the queries guarantee of their rows: a latency above 5,000 ms
    for the slow transactions, three errors or more for the cascades. *)
Definition as_queried (fd : RuleEngine.file_data) : Prop :=
  Forall (fun r => 5000 < snd (fst r)) (RuleEngine.slow_rows fd) /\
  Forall (fun r => (3 <= RuleEngine.cr_error_count r)%Z) (RuleEngine.cascade_rows fd).

(** 1 while a transaction is in progress. *)
Definition open_count (seg : Segmenter.segmenter) : nat :=
  match Segmenter._current seg with
  | Some _ => 1
  | None => 0
  end.

(* ================================================================== *)
(** * Properties *)

(** ** The line parser *)

(** [parse_line] returns a directive, an entry or nothing, or raises
    [ValueError]; it raises exactly on a line of the standard shape
    whose timestamp [strptime] rejects. *)
Lemma parse_line_cases (source_file raw : string) (n : Z) :
  match Parser.parse_line source_file raw n with
  | Returned (Some (Directive rd)) =>
      Re.rmatch Parser.REPEAT_PATTERN raw <> None /\ rd_line_number rd = n
  | Returned (Some (Entry e)) =>
      Re.rmatch Parser.REPEAT_PATTERN raw = None /\
      exists m, Re.rmatch Parser.LINE_PATTERN raw = Some m /\
                Datetime.strptime (Parser.group_or_empty 1 m) = Some (timestamp e) /\
                line_number e = n /\ is_expanded e = false
  | Returned None =>
      Re.rmatch Parser.REPEAT_PATTERN raw = None /\
      Re.rmatch Parser.LINE_PATTERN raw = None
  | Raised ValueError =>
      Re.rmatch Parser.REPEAT_PATTERN raw = None /\
      exists m, Re.rmatch Parser.LINE_PATTERN raw = Some m /\
                Datetime.strptime (Parser.group_or_empty 1 m) = None
  end.
Proof.
  unfold Parser.parse_line.
  destruct (Re.rmatch Parser.REPEAT_PATTERN raw) as [m|] eqn:Hrep.
  - simpl. split; [discriminate | reflexivity].
  - destruct (Re.rmatch Parser.LINE_PATTERN raw) as [m|] eqn:Hline.
    + destruct (Datetime.strptime (Parser.group_or_empty 1 m)) as [ts|] eqn:Hts;
        simpl.
      * split; [reflexivity | exists m; auto].
      * split; [reflexivity | exists m; auto].
    + simpl. auto.
Qed.

(** C2.  A line of the standard shape whose month is 99 does not yield
    nothing: [strptime] rejects the timestamp and [parse_line] lets the
    [ValueError] escape, whatever the file and the line number. *)
Theorem C2_parse_line_invalid_timestamp_raises :
  forall (source_file : string) (n : Z),
    Re.rmatch Parser.LINE_PATTERN "99/01/25 00:00:00.000 SERIAL x" <> None /\
    Parser.parse_line source_file "99/01/25 00:00:00.000 SERIAL x" n
    = Raised ValueError.
Proof.
  intros source_file n. split.
  - vm_compute. discriminate.
  - vm_compute. reflexivity.
Qed.

(** ** The end-to-end scenario *)

(** C6.  The four lines of the scenario, read with or without repeat
    expansion and segmented, give exactly one transaction, and no
    exception: a Debit card, 5000 cents, PAN ending 1234, entry method
    E, response code AA, approved, host latency 1743 ms. *)
Theorem C6_end_to_end_scenario :
  forall (source_file : string) (expand_repeats : bool),
  exists t : Txn.TransactionData,
    Segmenter.process_entries
      (fst (FileReader.read_entries source_file expand_repeats scenario))
    = ([t], None) /\
    snd (FileReader.read_entries source_file expand_repeats scenario) = None /\
    Txn.card_type t = "Debit" /\
    Txn.amount_cents t = 5000%Z /\
    Txn.pan_last4 t = "1234" /\
    Txn.entry_method t = "E" /\
    Txn.response_code t = "AA" /\
    Txn.is_approved t = true /\
    Txn.host_latency_ms t == 1743.
Proof.
  intros source_file expand_repeats.
  destruct expand_repeats;
    (eexists; split; [vm_compute; reflexivity | ];
     repeat split; vm_compute; reflexivity).
Qed.

(** ** The repeat expander *)

Lemma replay_nil (n : nat) (rd : RepeatDirective) :
  RepeatExpander.replay n rd [] = [].
Proof. induction n as [|n IH]; simpl; auto. Qed.

Lemma replay_length (n : nat) (rd : RepeatDirective) (src : list LogEntry) :
  List.length (RepeatExpander.replay n rd src) = (n * List.length src)%nat.
Proof.
  induction n as [|n IH]; simpl; auto.
  rewrite length_app, length_map, IH. reflexivity.
Qed.

(** Every entry a directive yields is the copy of one of the selected
    entries. *)
Lemma replay_In (n : nat) (rd : RepeatDirective) (src : list LogEntry) (x : LogEntry) :
  In x (RepeatExpander.replay n rd src) ->
  exists line, In line src /\ x = RepeatExpander.expanded rd line.
Proof.
  induction n as [|n IH]; simpl; [tauto|].
  intros H. apply in_app_or in H. destruct H as [H|H]; auto.
  apply in_map_iff in H. destruct H as [line [Heq Hin]].
  exists line. auto.
Qed.


(** A directive for [k] lines, [1 <= k <= len(buffer)], selects the last
    [k] of them. *)
Lemma slice_from_last {A : Type} (k : Z) (l : list A) :
  (1 <= k <= Z.of_nat (List.length l))%Z ->
  Py.slice_from (- k) l = skipn (List.length l - Z.to_nat k) l /\
  List.length (Py.slice_from (- k) l) = Z.to_nat k.
Proof.
  intros H. unfold Py.slice_from.
  destruct (Z.ltb_spec (- k) 0); [|lia].
  rewrite Z.max_l by lia.
  replace (Z.to_nat (Z.of_nat (List.length l) + - k))
    with (List.length l - Z.to_nat k)%nat by lia.
  split; [reflexivity|]. rewrite length_skipn. lia.
Qed.




(** Repeat expansion for a directive with [1 <= N <= len(buffer)]: the
    last [N] buffered entries, in order, [M] times over, [N * M] entries
    in all, each an expanded copy of its source; the buffer is left as
    it was. *)
Lemma expand_cardinality (max_lookback : nat) (buffer : list LogEntry)
      (rd : RepeatDirective) :
  (1 <= line_count rd <= Z.of_nat (List.length buffer))%Z ->
  let src := skipn (List.length buffer - Z.to_nat (line_count rd)) buffer in
  let out := fst (RepeatExpander.step max_lookback buffer (Directive rd)) in
  out = RepeatExpander.replay (Z.to_nat (repeat_count rd)) rd src /\
  List.length out = (Z.to_nat (line_count rd) * Z.to_nat (repeat_count rd))%nat /\
  (forall x, In x out ->
     is_expanded x = true /\ expansion_count x = repeat_count rd /\
     exists line, In line src /\
       line_number x = line_number line /\ timestamp x = timestamp line /\
       category x = category line /\ message x = message line) /\
  snd (RepeatExpander.step max_lookback buffer (Directive rd)) = buffer.
Proof.
  intros H src out.
  destruct (slice_from_last (line_count rd) buffer H) as [Hsl Hlen].
  assert (Hout : out = RepeatExpander.replay (Z.to_nat (repeat_count rd)) rd src).
  { unfold out, RepeatExpander.step. fold src in Hsl. rewrite Hsl.
    destruct src as [|e b]; [|reflexivity].
    rewrite replay_nil. reflexivity. }
  split; [exact Hout|]. split; [|split].
  - rewrite Hout, replay_length. unfold src. rewrite <- Hsl, Hlen. lia.
  - intros x Hx. rewrite Hout in Hx.
    destruct (replay_In _ _ _ _ Hx) as [line [Hin ->]].
    simpl. repeat split; auto. exists line. auto.
  - unfold RepeatExpander.step.
    destruct (Py.slice_from (- line_count rd) buffer); reflexivity.
Qed.

(** The ring buffer only ever takes the entries of the input: a
    directive leaves it as it is. *)
Lemma directive_keeps_buffer (max_lookback : nat) (buffer : list LogEntry)
      (rd : RepeatDirective) :
  snd (RepeatExpander.step max_lookback buffer (Directive rd)) = buffer.
Proof.
  unfold RepeatExpander.step.
  destruct (Py.slice_from (- line_count rd) buffer); reflexivity.
Qed.

(** C9.  The line "(Above 0 Lines Repeated 2 Times)" parses to a
    directive with [line_count = 0], and with one entry buffered that
    directive yields two copies of the entry where [N * M] is 0: the
    slice [buf_list[-0:]] is the whole buffer. *)
Theorem C9_zero_line_count_replays_buffer :
  forall (source_file : string) (n : Z) (e : LogEntry),
    Parser.parse_line source_file "   (Above 0 Lines Repeated 2 Times)" n
    = Returned (Some (Directive (mkRepeatDirective 0 2 n))) /\
    fst (RepeatExpander.step 20 [e] (Directive (mkRepeatDirective 0 2 n)))
    = [RepeatExpander.expanded (mkRepeatDirective 0 2 n) e;
       RepeatExpander.expanded (mkRepeatDirective 0 2 n) e] /\
    List.length
      (fst (RepeatExpander.step 20 [e] (Directive (mkRepeatDirective 0 2 n))))
    <> (Z.to_nat 0 * Z.to_nat 2)%nat.
Proof.
  intros source_file n e. split; [vm_compute; reflexivity|].
  split; [reflexivity|]. simpl. discriminate.
Qed.

(** ** The liveness state machine *)

Lemma track_state_alive (sm : SCAT.SCATStateMachine) (e : LogEntry) :
  SCAT.alive_status (SCAT.track_state sm e) = SCAT.alive_status sm /\
  SCAT.alive_history (SCAT.track_state sm e) = SCAT.alive_history sm.
Proof.
  unfold SCAT.track_state.
  destruct (Re.search SCAT.SCAT_STATE_PATTERN (message e)); simpl; auto.
Qed.

(** A transition is appended exactly when the entry carries a status
    that differs from the current one, which then becomes current. *)
Lemma process_entry_alive (sm : SCAT.SCATStateMachine) (e : LogEntry) :
  SCAT.alive_history (SCAT.process_entry sm e)
  = SCAT.alive_history sm ++ recorded sm e /\
  SCAT.alive_status (SCAT.process_entry sm e)
  = match alive_of e with
    | Some (status, _) => status
    | None => SCAT.alive_status sm
    end.
Proof.
  destruct (track_state_alive sm e) as [Hst Hh].
  unfold SCAT.process_entry, SCAT.track_alive, recorded, alive_of.
  destruct (Re.search SCAT.ALIVE_PATTERN (message e)) as [m|].
  - rewrite Hst.
    destruct (Z.eqb_spec (Str.int_of_digits (Parser.group_or_empty 1 m))
                         (SCAT.alive_status sm)) as [Heq|Hne]; simpl.
    + rewrite Hh, Hst, app_nil_r. auto.
    + rewrite Hh. auto.
  - rewrite Hh, Hst, app_nil_r. auto.
Qed.

(** C3 (as the code has it).  A fresh machine has alive status 9, so the
    first 3 of [3, 3, 0, 0, 3] is itself a transition: three are
    recorded, at the first 3, at the first 0 and at the 3 after the
    zeros; and, for every machine and entry, a transition is recorded
    exactly when the status carried differs from the current one. *)
Theorem C3_liveness_dedup :
  (forall sm e,
     SCAT.alive_history (SCAT.process_entry sm e)
     = SCAT.alive_history sm ++ recorded sm e) /\
  (forall e1 e2 e3 e4 e5 n1 n2 n3 n4 n5,
     alive_of e1 = Some (3%Z, n1) -> alive_of e2 = Some (3%Z, n2) ->
     alive_of e3 = Some (0%Z, n3) -> alive_of e4 = Some (0%Z, n4) ->
     alive_of e5 = Some (3%Z, n5) ->
     map transition
         (SCAT.alive_history
            (SCAT.process_entries SCAT.init [e1; e2; e3; e4; e5]))
     = [(timestamp e1, 3%Z); (timestamp e3, 0%Z); (timestamp e5, 3%Z)]).
Proof.
  split.
  - intros sm e. apply process_entry_alive.
  - intros e1 e2 e3 e4 e5 n1 n2 n3 n4 n5 H1 H2 H3 H4 H5.
    unfold SCAT.process_entries. simpl fold_left.
    set (s1 := SCAT.process_entry SCAT.init e1).
    set (s2 := SCAT.process_entry s1 e2).
    set (s3 := SCAT.process_entry s2 e3).
    set (s4 := SCAT.process_entry s3 e4).
    destruct (process_entry_alive SCAT.init e1) as [A1 B1].
    destruct (process_entry_alive s1 e2) as [A2 B2].
    destruct (process_entry_alive s2 e3) as [A3 B3].
    destruct (process_entry_alive s3 e4) as [A4 B4].
    destruct (process_entry_alive s4 e5) as [A5 _].
    fold s1 in A1, B1. fold s2 in A2, B2. fold s3 in A3, B3.
    fold s4 in A4, B4.
    rewrite H1 in B1. rewrite H2 in B2. rewrite H3 in B3. rewrite H4 in B4.
    unfold recorded in A1, A2, A3, A4, A5.
    rewrite H1 in A1. rewrite H2, B1 in A2. rewrite H3, B2 in A3.
    rewrite H4, B3 in A4. rewrite H5, B4 in A5.
    simpl in A1, A2, A3, A4, A5.
    rewrite A5, A4, A3, A2, A1. reflexivity.
Qed.

Lemma C3_witness :
  map transition
      (SCAT.alive_history (SCAT.process_entries SCAT.init five_entries))
  = [(1000000%Z, 3%Z); (3000000%Z, 0%Z); (5000000%Z, 3%Z)].
Proof.
  apply (proj2 C3_liveness_dedup
           (alive_entry 1000000 "SCATAliveInt = 3 (ReportScatAlive)")
           (alive_entry 2000000 "SCATAliveInt = 3 (ReportScatAlive)")
           (alive_entry 3000000 "SCATAliveInt = 0 (ReportScatDead)")
           (alive_entry 4000000 "SCATAliveInt = 0 (ReportScatDead)")
           (alive_entry 5000000 "SCATAliveInt = 3 (ReportScatAlive)")
           "ReportScatAlive" "ReportScatAlive" "ReportScatDead"
           "ReportScatDead" "ReportScatAlive");
    vm_compute; reflexivity.
Defined.

(** C3 as stated fails: the history of the five entries has three
    transitions, not the two the claim lists. *)
Lemma C3_counterexample :
  let history := SCAT.alive_history (SCAT.process_entries SCAT.init five_entries) in
  List.length history = 3%nat /\
  map transition history <> [(3000000%Z, 0%Z); (5000000%Z, 3%Z)].
Proof.
  vm_compute. split; [reflexivity | discriminate].
Qed.

(** ** The health-check segmenter *)

Lemma run_from_app (current : option Health.HealthCheckData)
      (l1 l2 : list LogEntry) :
  Health.run_from current (l1 ++ l2)
  = let '(o1, c1) := Health.run_from current l1 in
    let '(o2, c2) := Health.run_from c1 l2 in
    (o1 ++ o2, c2).
Proof.
  revert current. induction l1 as [|e l1 IH]; intros current; simpl.
  - destruct (Health.run_from current l2); reflexivity.
  - destruct (Health.step current e) as [out c'].
    rewrite IH.
    destruct (Health.run_from c' l1) as [o1 c1].
    destruct (Health.run_from c1 l2) as [o2 c2].
    rewrite app_assoc. reflexivity.
Qed.

(** C4 (as the code has it).  An [ExchangeInfo] record that never got
    its result line is emitted all the same: a second start marker
    yields the record still open, as it is, before opening the new one,
    and the record open at the end of the stream is flushed as the last
    output. *)
Theorem C4_unresolved_exchange_is_emitted :
  (forall (c : Health.HealthCheckData) (e : LogEntry) (m : Re.caps),
     category e = "SVREPS" ->
     Re.search Health.EXCHANGE_INFO_SEND (message e) = Some m ->
     Health.step (Some c) e = ([c], Some (Health.open_exchange e m))) /\
  (forall (entries : list LogEntry) (c : Health.HealthCheckData),
     snd (Health.run_from None entries) = Some c ->
     Health.process_entries entries
     = fst (Health.run_from None entries) ++ [c]) /\
  (forall (before : list LogEntry) (e : LogEntry) (m : Re.caps),
     category e = "SVREPS" ->
     Re.search Health.EXCHANGE_INFO_SEND (message e) = Some m ->
     Health.process_entries (before ++ [e])
     = fst (Health.run_from None (before ++ [e])) ++ [Health.open_exchange e m]).
Proof.
  assert (Hstep : forall c e m,
            category e = "SVREPS" ->
            Re.search Health.EXCHANGE_INFO_SEND (message e) = Some m ->
            Health.step c e
            = (match c with Some x => [x] | None => [] end,
               Some (Health.open_exchange e m))).
  { intros c e m Hcat Hm. unfold Health.step.
    rewrite Hcat, Hm. reflexivity. }
  split; [|split].
  - intros c e m Hcat Hm. apply (Hstep (Some c) e m Hcat Hm).
  - intros entries c Hfin. unfold Health.process_entries.
    destruct (Health.run_from None entries) as [outs final].
    simpl in Hfin. subst final. reflexivity.
  - intros before e m Hcat Hm. unfold Health.process_entries.
    rewrite run_from_app.
    destruct (Health.run_from None before) as [o1 c1].
    simpl. rewrite (Hstep c1 e m Hcat Hm). reflexivity.
Qed.

Lemma C4_witness :
  Health.step (Some (unresolved 1 1000000 "svc1.servereps.com")) second_start
  = ([unresolved 1 1000000 "svc1.servereps.com"],
     Some (unresolved 2 2000000 "svc2.servereps.com")) /\
  Health.process_entries [first_start]
  = [unresolved 1 1000000 "svc1.servereps.com"].
Proof.
  split.
  - apply (proj1 C4_unresolved_exchange_is_emitted
             (unresolved 1 1000000 "svc1.servereps.com") second_start
             [(2%nat, "svc2.servereps.com"); (1%nat, "145714")]);
      vm_compute; reflexivity.
  - apply (proj1 (proj2 C4_unresolved_exchange_is_emitted) [first_start]
             (unresolved 1 1000000 "svc1.servereps.com")).
    vm_compute. reflexivity.
Defined.

(** C4 as stated fails, in both its parts: two start markers in a row
    yield two records, the first of them the record that never got a
    result line (no end time, no error code), and a lone start marker
    is yielded at the end of the stream. *)
Lemma C4_counterexample :
  Health.process_entries [first_start; second_start]
  = [unresolved 1 1000000 "svc1.servereps.com";
     unresolved 2 2000000 "svc2.servereps.com"] /\
  Health.process_entries [first_start]
  = [unresolved 1 1000000 "svc1.servereps.com"] /\
  ~ (forall entries r,
       In r (Health.process_entries entries) ->
       Health.check_type r = "ExchangeInfo" ->
       Health.end_time r <> None).
Proof.
  split; [vm_compute; reflexivity|]. split; [vm_compute; reflexivity|].
  intros H.
  apply (H [first_start] (unresolved 1 1000000 "svc1.servereps.com")).
  - vm_compute. left. reflexivity.
  - reflexivity.
  - reflexivity.
Qed.

(** ** The per-entry field extractors *)

Section ExtractFields.

Import Segmenter.












(** *** The fields of the outbound payload *)

Section PayloadField.

(** A field [P] of the transaction that only the branch [f0] of the
    chain assigns: to [upd val old], where [val] is the matched text and
    [old] the value the field has. *)
Context {X : Type}.
Variable P : Txn.TransactionData -> X.
Variable f0 : send_field.
Variable upd : string -> X -> X.

Hypothesis other :
  forall f val t, f <> f0 -> P (send_assign f val t) = P t.
Hypothesis own :
  forall val t, P (send_assign f0 val t) = upd val (P t).



End PayloadField.














End ExtractFields.



(** ** The liveness-dead detector *)

Lemma last_opt_app_cons {A : Type} (l1 l2 : list A) (x : A) :
  Py.last_opt (l1 ++ x :: l2) = Py.last_opt (x :: l2).
Proof.
  unfold Py.last_opt. rewrite rev_app_distr.
  destruct (rev (x :: l2)) as [|y r] eqn:E; [|reflexivity].
  simpl in E. destruct (rev l2); discriminate E.
Qed.

Lemma last_opt_snoc {A : Type} (l : list A) (x : A) :
  Py.last_opt (l ++ [x]) = Some x.
Proof. unfold Py.last_opt. rewrite rev_app_distr. reflexivity. Qed.

Section ScatDead.

Variable str_datetime : datetime -> string.
Variable format_f : nat -> Q -> string.
Variables window_start window_end : option datetime.

Let loop := Rules.dead_loop str_datetime format_f window_start window_end.
Let closed := Rules.closed_issue str_datetime format_f window_start window_end.
Let still := Rules.still_dead str_datetime format_f window_start window_end.
Let check := Rules._check_scat_dead str_datetime format_f window_start window_end.

Lemma dead_loop_app (ds : option datetime) (l1 l2 : list (datetime * Z)) :
  loop ds (l1 ++ l2)
  = let '(i1, d1) := loop ds l1 in
    let '(i2, d2) := loop d1 l2 in
    (i1 ++ i2, d2).
Proof.
  unfold loop. revert ds.
  induction l1 as [|[ts status] l1 IH]; intros ds; simpl.
  - destruct (Rules.dead_loop _ _ _ _ ds l2); reflexivity.
  - destruct ds as [d|].
    + destruct (status =? 0)%Z; simpl.
      * apply IH.
      * rewrite IH.
        destruct (Rules.dead_loop _ _ _ _ None l1) as [i1 d1].
        destruct (Rules.dead_loop _ _ _ _ d1 l2) as [i2 d2].
        rewrite app_assoc. reflexivity.
    + destruct (status =? 0)%Z; apply IH.
Qed.

(** Rows of status 0 inside a dead run change nothing. *)
Lemma dead_loop_zeros (d : datetime) (zs : list (datetime * Z)) :
  Forall (fun r => snd r = 0%Z) zs -> loop (Some d) zs = ([], Some d).
Proof.
  unfold loop. induction 1 as [|[ts status] zs Hz _ IH]; simpl; [reflexivity|].
  simpl in Hz. subst status. simpl. exact IH.
Qed.

(** The detector on a timeline in which a dead run starts at [t0], with
    no run open before it, and is closed at [t1]: the issues of the rows
    before, the issue of the run if any, and those of the rows after. *)
Lemma check_scat_dead_run (pre zs post : list (datetime * Z)) (t0 t1 : datetime)
      (s : Z) :
  snd (loop None pre) = None ->
  Forall (fun r => snd r = 0%Z) zs ->
  s <> 0%Z ->
  check (pre ++ (t0, 0%Z) :: zs ++ (t1, s) :: post)
  = fst (loop None pre) ++ closed t0 t1 ++ check post.
Proof.
  intros Hpre Hzs Hs.
  unfold check, Rules._check_scat_dead.
  fold loop. fold still.
  destruct (pre ++ (t0, 0%Z) :: zs ++ (t1, s) :: post) as [|r0 rows0] eqn:Erows.
  { destruct pre; discriminate Erows. }
  rewrite <- Erows. clear r0 rows0 Erows.
  rewrite dead_loop_app.
  destruct (loop None pre) as [ip dp] eqn:Ep. simpl in Hpre. subst dp.
  change ((t0, 0%Z) :: zs ++ (t1, s) :: post)
    with ([(t0, 0%Z)] ++ zs ++ (t1, s) :: post).
  rewrite dead_loop_app.
  replace (loop None [(t0, 0%Z)]) with (@nil Rules.Issue, Some t0) by reflexivity.
  rewrite dead_loop_app, (dead_loop_zeros t0 zs Hzs).
  unfold loop at 1. simpl Rules.dead_loop. fold loop. fold closed.
  destruct (Z.eqb_spec s 0) as [Hz|_]; [contradiction|]. simpl negb. cbv iota.
  destruct (loop None post) as [ipost dpost] eqn:Epost.
  simpl fst. simpl app.
  rewrite <- !app_assoc. f_equal. f_equal.
  destruct post as [|p post'].
  - simpl in Epost. unfold loop in Epost. simpl in Epost.
    injection Epost as <- <-. reflexivity.
  - f_equal. unfold still, Rules.still_dead.
    match goal with
    | |- context [Py.last_opt (pre ++ ?l)] =>
        assert (Hl : Py.last_opt (pre ++ l) = Py.last_opt (p :: post'))
    end.
    { transitivity
        (Py.last_opt ((pre ++ (t0, 0%Z) :: zs ++ [(t1, s)]) ++ p :: post')).
      - f_equal. rewrite <- app_assoc. simpl. rewrite <- app_assoc. reflexivity.
      - apply last_opt_app_cons. }
    rewrite Hl. reflexivity.
Qed.

(** The threshold is strict: a run of 60 s or less gives no issue. *)
Lemma closed_issue_threshold (t0 t1 : datetime) :
  (t1 - t0 <= 60000000)%Z -> closed t0 t1 = [].
Proof.
  intros H. unfold closed, Rules.closed_issue, Rules.gtb.
  destruct (Qlt_le_dec 60 (Datetime.total_seconds (t1 - t0))) as [Hlt|_];
    [|reflexivity].
  unfold Qlt, Datetime.total_seconds in Hlt. simpl in Hlt. lia.
Qed.

(** A run of more than 60 s inside the window gives one issue, of
    confidence [min(0.95, 0.5 + duration_sec / 3600)]. *)
Lemma closed_issue_fires (t0 t1 : datetime) :
  (t1 - t0 > 60000000)%Z ->
  Rules._outside_window t0 t1 window_start window_end = false ->
  exists i, closed t0 t1 = [i] /\
            Rules.confidence i
            = Rules.pymin 0.95 (0.5 + Datetime.total_seconds (t1 - t0) / 3600).
Proof.
  intros H Hw. unfold closed, Rules.closed_issue, Rules.gtb.
  destruct (Qlt_le_dec 60 (Datetime.total_seconds (t1 - t0))) as [_|Hle].
  - rewrite Hw. simpl. eexists. split; reflexivity.
  - unfold Qle, Datetime.total_seconds in Hle. simpl in Hle. lia.
Qed.

(** The issue of a closed run is of type [scat_dead]. *)
Lemma closed_issue_type (t0 t1 : datetime) :
  Forall (fun i => Rules.issue_type i = "scat_dead") (closed t0 t1).
Proof.
  unfold closed, Rules.closed_issue.
  destruct (Rules.gtb _ 60); [|constructor].
  destruct (negb _); [|constructor].
  constructor; [reflexivity|constructor].
Qed.

(** A run that lies outside the window gives no issue, however long. *)
Lemma closed_issue_outside (t0 t1 : datetime) :
  Rules._outside_window t0 t1 window_start window_end = true ->
  closed t0 t1 = [].
Proof.
  intros Hw. unfold closed, Rules.closed_issue. rewrite Hw.
  destruct (Rules.gtb _ 60); reflexivity.
Qed.

End ScatDead.

(** [min] of the code is the minimum of the two numbers. *)
Lemma pymin_is_min (a b : Q) : Rules.pymin a b == Qmin a b.
Proof.
  unfold Rules.pymin. destruct (Qlt_le_dec b a) as [H|H].
  - symmetry. apply Q.min_r. apply Qlt_le_weak. exact H.
  - symmetry. apply Q.min_l. exact H.
Qed.

(** [total_seconds] of a difference of [delta] microseconds. *)
Lemma total_seconds_micro (delta : Z) :
  Datetime.total_seconds delta == inject_Z delta / 1000000.
Proof.
  unfold Datetime.total_seconds, Qeq, Qdiv, Qmult, Qinv, inject_Z. simpl. lia.
Qed.

(** C7.  In every timeline, a dead run that starts with no run open
    before it and is closed after exactly 60.0 s adds no issue, and one
    closed after 60.001 s adds exactly one (inside the window, or with
    no window), of type [scat_dead] and of confidence
    min(0.95, 0.5 + 60.001/3600), which is 1860001/3600000, about
    0.51667.  The threshold is strictly above 60 s: any run of 60 s or
    less adds none, and any run of more than 60 s inside the window adds
    exactly one issue, of confidence min(0.95, 0.5 + seconds/3600); a
    run outside the window adds none. *)
Theorem C7_dead_period_boundary :
  forall (str_datetime : datetime -> string) (format_f : nat -> Q -> string)
         (window_start window_end : option datetime)
         (pre zs post : list (datetime * Z)) (t0 : datetime) (s : Z),
    let loop := Rules.dead_loop str_datetime format_f window_start window_end in
    let check :=
      Rules._check_scat_dead str_datetime format_f window_start window_end in
    snd (loop None pre) = None ->
    Forall (fun r => snd r = 0%Z) zs ->
    s <> 0%Z ->
    check (pre ++ (t0, 0%Z) :: zs ++ ((t0 + 60000000)%Z, s) :: post)
    = fst (loop None pre) ++ check post /\
    (Rules._outside_window t0 (t0 + 60001000)%Z window_start window_end = false ->
     exists i,
       check (pre ++ (t0, 0%Z) :: zs ++ ((t0 + 60001000)%Z, s) :: post)
       = fst (loop None pre) ++ [i] ++ check post /\
       Rules.issue_type i = "scat_dead" /\
       Rules.confidence i == 1860001 # 3600000 /\
       Rules.confidence i == Qmin 0.95 (0.5 + 60.001 / 3600)) /\
    (forall t1, (t1 - t0 <= 60000000)%Z ->
       check (pre ++ (t0, 0%Z) :: zs ++ (t1, s) :: post)
       = fst (loop None pre) ++ check post) /\
    (forall t1, (t1 - t0 > 60000000)%Z ->
       Rules._outside_window t0 t1 window_start window_end = false ->
       exists i,
         check (pre ++ (t0, 0%Z) :: zs ++ (t1, s) :: post)
         = fst (loop None pre) ++ [i] ++ check post /\
         Rules.issue_type i = "scat_dead" /\
         Rules.confidence i
         == Qmin 0.95 (0.5 + inject_Z (t1 - t0) / 1000000 / 3600)) /\
    (forall t1,
       Rules._outside_window t0 t1 window_start window_end = true ->
       check (pre ++ (t0, 0%Z) :: zs ++ (t1, s) :: post)
       = fst (loop None pre) ++ check post).
Proof.
  intros str_datetime format_f ws we pre zs post t0 s loop check Hpre Hzs Hs.
  assert (Hle : forall t1, (t1 - t0 <= 60000000)%Z ->
            check (pre ++ (t0, 0%Z) :: zs ++ (t1, s) :: post)
            = fst (loop None pre) ++ check post).
  { intros t1 Ht1. unfold check, loop.
    rewrite check_scat_dead_run by assumption.
    rewrite closed_issue_threshold by exact Ht1. reflexivity. }
  assert (Hgt : forall t1, (t1 - t0 > 60000000)%Z ->
            Rules._outside_window t0 t1 ws we = false ->
            exists i,
              check (pre ++ (t0, 0%Z) :: zs ++ (t1, s) :: post)
              = fst (loop None pre) ++ [i] ++ check post /\
              Rules.issue_type i = "scat_dead" /\
              Rules.confidence i
              == Qmin 0.95 (0.5 + inject_Z (t1 - t0) / 1000000 / 3600)).
  { intros t1 Ht1 Hw.
    destruct (closed_issue_fires str_datetime format_f ws we t0 t1 Ht1 Hw)
      as [i [Hi Hc]].
    pose proof (closed_issue_type str_datetime format_f ws we t0 t1) as Hty.
    rewrite Hi in Hty. inversion Hty as [|x l Hx _]; subst.
    exists i. split; [|split; [exact Hx|]].
    - unfold check, loop. rewrite check_scat_dead_run by assumption.
      rewrite Hi. reflexivity.
    - rewrite Hc, pymin_is_min, total_seconds_micro. reflexivity. }
  split; [apply Hle; lia|]. split; [|split; [exact Hle|split; [exact Hgt|]]].
  - intros Hw.
    destruct (Hgt (t0 + 60001000)%Z) as [i [Hi [Hty Hc]]]; [lia|exact Hw|].
    replace (t0 + 60001000 - t0)%Z with 60001000%Z in Hc by lia.
    exists i. split; [exact Hi|]. split; [exact Hty|].
    split; (rewrite Hc; vm_compute; reflexivity).
  - intros t1 Hw. unfold check, loop.
    rewrite check_scat_dead_run by assumption.
    rewrite closed_issue_outside by exact Hw. reflexivity.
Qed.

Lemma C7_witness :
  Rules._check_scat_dead (fun _ => "") (fun _ _ => "") None None
    [(0%Z, 3%Z); (1000000%Z, 0%Z); (61000000%Z, 3%Z)] = [] /\
  exists i,
    Rules._check_scat_dead (fun _ => "") (fun _ _ => "") None None
      [(0%Z, 3%Z); (1000000%Z, 0%Z); (61001000%Z, 3%Z)] = [i] /\
    Rules.issue_type i = "scat_dead" /\
    Rules.confidence i == 1860001 # 3600000 /\
    Rules.confidence i == Qmin 0.95 (0.5 + 60.001 / 3600).
Proof.
  destruct (C7_dead_period_boundary (fun _ => "") (fun _ _ => "") None None
              [(0%Z, 3%Z)] [] [] 1000000%Z 3%Z) as [H60 [H61 _]].
  - reflexivity.
  - constructor.
  - discriminate.
  - split; [exact H60|]. apply H61. reflexivity.
Defined.

(** ** The intermittent card-read detector *)






Lemma filter_none {A : Type} (f : A -> bool) (l : list A) :
  Forall (fun x => f x = false) l -> filter f l = [].
Proof.
  induction 1 as [|x l Hx _ IH]; simpl; [reflexivity|].
  rewrite Hx. exact IH.
Qed.






(** ** Dead periods of a terminal that never recovers *)

Lemma dead_scan_app (ds : option datetime) (h1 h2 : list (datetime * Z * string)) :
  SCAT.dead_scan ds (h1 ++ h2)
  = let '(p1, d1) := SCAT.dead_scan ds h1 in
    let '(p2, d2) := SCAT.dead_scan d1 h2 in
    (p1 ++ p2, d2).
Proof.
  revert ds. induction h1 as [|[[ts status] name] h1 IH]; intros ds; simpl.
  - destruct (SCAT.dead_scan ds h2); reflexivity.
  - destruct ds as [d|].
    + destruct (status =? 0)%Z; simpl.
      * apply IH.
      * rewrite IH.
        destruct (SCAT.dead_scan None h1) as [p1 d1].
        destruct (SCAT.dead_scan d1 h2) as [p2 d2]. reflexivity.
    + destruct (status =? 0)%Z; apply IH.
Qed.

(** After a transition to a status other than 0 no dead period is
    open. *)
Lemma dead_scan_closed (ds : option datetime) (h : list (datetime * Z * string))
      (ts : datetime) (status : Z) (name : string) :
  status <> 0%Z -> snd (SCAT.dead_scan ds (h ++ [(ts, status, name)])) = None.
Proof.
  intros Hs. rewrite dead_scan_app.
  destruct (SCAT.dead_scan ds h) as [p1 d1]. simpl.
  destruct (Z.eqb_spec status 0) as [|_]; [contradiction|].
  destruct d1; reflexivity.
Qed.

Lemma last_opt_inv {A : Type} (l : list A) (x : A) :
  Py.last_opt l = Some x -> exists h, l = h ++ [x].
Proof.
  unfold Py.last_opt. intros H.
  destruct (rev l) as [|y r] eqn:E; [discriminate H|].
  injection H as ->. exists (rev r).
  rewrite <- (rev_involutive l), E. reflexivity.
Qed.

Lemma well_formed_init : well_formed SCAT.init.
Proof.
  intros h ts status name H. simpl in H. destruct h; discriminate H.
Qed.

Lemma well_formed_step (sm : SCAT.SCATStateMachine) (e : LogEntry) :
  well_formed sm -> well_formed (SCAT.process_entry sm e).
Proof.
  intros Hwf h ts status name.
  destruct (process_entry_alive sm e) as [Hh Hs].
  rewrite Hh, Hs. unfold recorded.
  destruct (alive_of e) as [[v n]|].
  - destruct (Z.eqb_spec v (SCAT.alive_status sm)) as [Heq|Hne].
    + rewrite app_nil_r. intros H. rewrite Heq. exact (Hwf _ _ _ _ H).
    + intros H. apply app_inj_tail in H. destruct H as [<- H].
      injection H as <- <- <-. split; [reflexivity|].
      intros ->.
      destruct (SCAT.alive_history sm) as [|x0 l0] eqn:E; [reflexivity|].
      destruct (@exists_last _ (x0 :: l0)) as [h' [[[ts' s'] n'] E']];
        [discriminate|].
      rewrite E'.
      destruct (Hwf h' ts' s' n') as [Hs' _]; [rewrite E; exact E'|].
      apply dead_scan_closed. rewrite Hs'. auto.
  - rewrite app_nil_r. exact (Hwf h ts status name).
Qed.

Lemma well_formed_run (entries : list LogEntry) (sm : SCAT.SCATStateMachine) :
  well_formed sm -> well_formed (SCAT.process_entries sm entries).
Proof.
  revert sm. induction entries as [|e entries IH]; intros sm Hwf; simpl.
  - exact Hwf.
  - apply IH. apply well_formed_step. exact Hwf.
Qed.

(** The open-ended period of a history that ends dead starts and ends at
    the last transition. *)
Lemma dead_scan_ends_dead (h : list (datetime * Z * string)) (t : datetime)
      (name : string) :
  snd (SCAT.dead_scan None h) = None ->
  SCAT.dead_scan None (h ++ [(t, 0%Z, name)])
  = (fst (SCAT.dead_scan None h), Some t).
Proof.
  intros H. rewrite dead_scan_app.
  destruct (SCAT.dead_scan None h) as [p1 d1]. simpl in H. subst d1.
  simpl. rewrite app_nil_r. reflexivity.
Qed.

(** *** The rows the rule engine reads *)

Lemma dict_set_fresh (ts : datetime) (status : Z) (deduped : list (datetime * Z)) :
  Forall (fun r => (fst r < ts)%Z) deduped ->
  Timeline.dict_set ts status deduped = deduped ++ [(ts, status)].
Proof.
  induction 1 as [|[k v] rest Hk _ IH]; simpl; [reflexivity|].
  simpl in Hk. destruct (Z.eqb_spec k ts); [lia|]. rewrite IH. reflexivity.
Qed.

(** With strictly increasing timestamps nothing is deduplicated. *)
Lemma insert_batch_sorted (entries acc : list (datetime * Z)) :
  StronglySorted Z.lt (map fst (acc ++ entries)) ->
  fold_left (fun deduped '(ts, status) => Timeline.dict_set ts status deduped)
            entries acc
  = acc ++ entries.
Proof.
  revert acc. induction entries as [|[ts status] entries IH]; intros acc Hs.
  - simpl. rewrite app_nil_r. reflexivity.
  - simpl. rewrite dict_set_fresh.
    + rewrite IH; rewrite <- app_assoc; [reflexivity | exact Hs].
    + clear IH. induction acc as [|[k v] acc IHa]; [constructor|].
      simpl in Hs. inversion Hs as [|? ? Hrest Hall]; subst.
      constructor.
      * simpl. rewrite Forall_forall in Hall. apply Hall.
        rewrite map_app. apply in_or_app. right. left. reflexivity.
      * apply IHa. exact Hrest.
Qed.

(** ... and the order of the query is the order of the history. *)
Lemma order_by_timestamp_sorted (rows : list (datetime * Z)) :
  StronglySorted Z.lt (map fst rows) -> Timeline.order_by_timestamp rows = rows.
Proof.
  induction rows as [|r rows IH]; intros Hs; [reflexivity|].
  simpl in Hs. inversion Hs as [|? ? Hrest Hall]; subst.
  unfold Timeline.order_by_timestamp in *. simpl. rewrite (IH Hrest).
  destruct rows as [|r' rows']; [reflexivity|].
  simpl. inversion Hall as [|? ? Hlt _]; subst.
  destruct (Z.leb_spec (fst r) (fst r')); [reflexivity | lia].
Qed.

Lemma scat_timeline_sorted (h : list (datetime * Z * string)) :
  StronglySorted Z.lt (timestamps h) ->
  Timeline.scat_timeline h = map transition h.
Proof.
  intros Hs. unfold Timeline.scat_timeline, Timeline.insert_batch.
  change (map (fun '(ts, status, _) => (ts, status)) h) with (map transition h).
  assert (Hs' : StronglySorted Z.lt (map fst (map transition h))).
  { rewrite map_map. exact Hs. }
  rewrite insert_batch_sorted by exact Hs'.
  apply order_by_timestamp_sorted. exact Hs'.
Qed.

(** The detector and the state machine agree on the dead period that is
    open after a row. *)
Lemma dead_loop_dead_scan (str_datetime : datetime -> string)
      (format_f : nat -> Q -> string) (ws we : option datetime)
      (ds : option datetime) (h : list (datetime * Z * string)) :
  snd (Rules.dead_loop str_datetime format_f ws we ds (map transition h))
  = snd (SCAT.dead_scan ds h).
Proof.
  revert ds. induction h as [|[[ts status] name] h IH]; intros ds; simpl.
  - reflexivity.
  - destruct ds as [d|].
    + destruct (status =? 0)%Z; simpl.
      * apply IH.
      * specialize (IH None).
        destruct (Rules.dead_loop _ _ _ _ None (map transition h)).
        destruct (SCAT.dead_scan None h). exact IH.
    + destruct (status =? 0)%Z; apply IH.
Qed.

(** C10 (as the code has it).  For every stream that leaves the alive
    history ending in a transition to 0 at [t], [get_dead_periods]
    reports, after the closed periods, the open-ended one as
    [(t, t, 0.0)]; and when the timestamps of the history are strictly
    increasing, so that the rows of the timeline table are the history
    in its order, the still-dead branch of the rule engine gives no
    issue: the detector returns the issues of the closed periods
    only. *)
Theorem C10_never_recovered_dead_run :
  forall (entries : list LogEntry) (t : datetime) (name : string),
    let sm := SCAT.process_entries SCAT.init entries in
    Py.last_opt (SCAT.alive_history sm) = Some (t, 0%Z, name) ->
    (exists closed d,
       SCAT.get_dead_periods sm = closed ++ [(t, t, d)] /\ d == 0) /\
    (forall (str_datetime : datetime -> string) (format_f : nat -> Q -> string)
            (ws we : option datetime),
       StronglySorted Z.lt (timestamps (SCAT.alive_history sm)) ->
       let rows := Timeline.scat_timeline (SCAT.alive_history sm) in
       Rules.still_dead str_datetime format_f ws we
         (snd (Rules.dead_loop str_datetime format_f ws we None rows)) rows = [] /\
       Rules._check_scat_dead str_datetime format_f ws we rows
       = fst (Rules.dead_loop str_datetime format_f ws we None rows)).
Proof.
  intros entries t name sm Hlast.
  destruct (last_opt_inv _ _ Hlast) as [h Hh].
  assert (Hwf : well_formed sm)
    by (apply well_formed_run, well_formed_init).
  destruct (Hwf h t 0%Z name Hh) as [_ Hopen].
  specialize (Hopen eq_refl).
  pose proof (dead_scan_ends_dead h t name Hopen) as Hscan.
  split.
  - exists (fst (SCAT.dead_scan None h)), (Datetime.total_seconds 0).
    split; [|reflexivity].
    unfold SCAT.get_dead_periods. rewrite Hlast, Hh, Hscan.
    rewrite Z.sub_diag. reflexivity.
  - intros str_datetime format_f ws we Hsorted rows.
    assert (Hrows : rows = map transition (SCAT.alive_history sm))
      by (apply scat_timeline_sorted; exact Hsorted).
    assert (Hstill : Rules.still_dead str_datetime format_f ws we
                       (snd (Rules.dead_loop str_datetime format_f ws we None rows))
                       rows = []).
    { rewrite Hrows, dead_loop_dead_scan, Hh, Hscan. simpl snd.
      rewrite map_app. simpl map. unfold Rules.still_dead.
      rewrite last_opt_snoc. rewrite Z.sub_diag. reflexivity. }
    split; [exact Hstill|].
    unfold Rules._check_scat_dead.
    destruct rows as [|r rows'] eqn:Er; [reflexivity|].
    rewrite <- Er in *.
    destruct (Rules.dead_loop str_datetime format_f ws we None rows) as [issues ds].
    simpl in Hstill. simpl. rewrite Hstill. apply app_nil_r.
Qed.

Lemma C10_witness :
  (exists closed d,
     SCAT.get_dead_periods (SCAT.process_entries SCAT.init dead_then_silent)
     = closed ++ [(2000000%Z, 2000000%Z, d)] /\ d == 0) /\
  Rules._check_scat_dead (fun _ => "") (fun _ _ => "") None None
    (Timeline.scat_timeline
       (SCAT.alive_history (SCAT.process_entries SCAT.init dead_then_silent)))
  = [].
Proof.
  destruct (C10_never_recovered_dead_run dead_then_silent 2000000%Z
              "ReportScatDead") as [H1 H2].
  - vm_compute. reflexivity.
  - split; [exact H1|].
    destruct (H2 (fun _ => "") (fun _ _ => "") None None) as [_ H3].
    + vm_compute. repeat constructor.
    + rewrite H3. vm_compute. reflexivity.
Defined.

(** C10 as stated fails in its second part: the table keeps one row per
    timestamp and the query sorts by timestamp, so the rows need not be
    the history.  Both histories end with a transition to 0, and for
    both the still-dead branch gives an issue (duration 100 s). *)
Lemma C10_counterexample :
  (let sm := SCAT.process_entries SCAT.init dead_alive_dead_same_instant in
   let rows := Timeline.scat_timeline (SCAT.alive_history sm) in
   Py.last_opt (SCAT.alive_history sm)
   = Some (101000000%Z, 0%Z, "ReportScatDead") /\
   rows = [(1000000%Z, 0%Z); (101000000%Z, 0%Z)] /\
   Rules.still_dead (fun _ => "") (fun _ _ => "") None None
     (snd (Rules.dead_loop (fun _ => "") (fun _ _ => "") None None None rows))
     rows <> []) /\
  (let sm := SCAT.process_entries SCAT.init dead_out_of_order in
   let rows := Timeline.scat_timeline (SCAT.alive_history sm) in
   Py.last_opt (SCAT.alive_history sm)
   = Some (201000000%Z, 0%Z, "ReportScatDead") /\
   rows = [(1000000%Z, 3%Z); (101000000%Z, 0%Z); (201000000%Z, 0%Z)] /\
   Rules.still_dead (fun _ => "") (fun _ _ => "") None None
     (snd (Rules.dead_loop (fun _ => "") (fun _ _ => "") None None None rows))
     rows <> []).
Proof.
  split; vm_compute; (split; [reflexivity|]); (split; [reflexivity|]);
    discriminate.
Qed.

(** ** The ring buffer holds no expanded copy *)

Lemma Forall_skipn {A : Type} (P : A -> Prop) (n : nat) (l : list A) :
  Forall P l -> Forall P (skipn n l).
Proof.
  revert l. induction n as [|n IH]; intros l H; [exact H|].
  destruct H as [|x l Hx Hl]; [constructor|]. simpl. apply IH. exact Hl.
Qed.

(** Fed with what the parser yields, the buffer only ever holds entries
    that are not expanded copies: no directive replays a copy. *)
Lemma buffer_holds_no_copy (max_lookback : nat) (items : list item)
      (buffer : list LogEntry) :
  Forall input_entry items ->
  Forall (fun e => is_expanded e = false) buffer ->
  Forall (fun e => is_expanded e = false)
         (snd (RepeatExpander.process_from max_lookback buffer items)).
Proof.
  intros Hitems. revert buffer.
  induction Hitems as [|it items Hit _ IH]; intros buffer Hbuf; [exact Hbuf|].
  cbn [RepeatExpander.process_from].
  destruct (RepeatExpander.step max_lookback buffer it) as [out buffer'] eqn:Es.
  specialize (IH buffer').
  destruct (RepeatExpander.process_from max_lookback buffer' items) as [outs final].
  apply IH. clear IH.
  destruct it as [e|rd].
  - simpl in Es. injection Es as _ <-.
    unfold Py.deque_append. apply Forall_skipn.
    apply Forall_app. split; [exact Hbuf|]. constructor; [exact Hit|constructor].
  - pose proof (directive_keeps_buffer max_lookback buffer rd) as Hk.
    rewrite Es in Hk. simpl in Hk. subst buffer'. exact Hbuf.
Qed.

(** ** The figures of the claims in binary64

    The rationals of the embedding agree with the floats of the program
    on the numbers the scenario and the boundaries turn on. *)

Module Binary64.

Import PrimFloat.
#[local] Set Warnings "-inexact-float".
#[local] Open Scope float_scope.

(** [float("1.743") * 1000] is [1743.0]. *)
Lemma latency_1743 : eqb (1.743 * 1000) 1743 = true.
Proof. vm_compute. reflexivity. Qed.

(** [min(0.95, 0.7 + 3 * 0.05)] is [0.85]. *)
Lemma burst_confidence : ltb (0.7 + 3 * 0.05) 0.95 = true /\
                         eqb (0.7 + 3 * 0.05) 0.85 = true.
Proof. vm_compute. split; reflexivity. Qed.

(** [timedelta.total_seconds()] of 60 s is not above 60, that of
    60.001 s is, and is the float [60.001]. *)
Lemma dead_threshold :
  ltb 60 (60000000 / 1000000) = false /\
  ltb 60 (60001000 / 1000000) = true /\
  eqb (60001000 / 1000000) 60.001 = true.
Proof. vm_compute. repeat split; reflexivity. Qed.

(** [0.5 + 60.001 / 3600] is below [0.95], so that [min] takes it. *)
Lemma dead_confidence : ltb (0.5 + 60.001 / 3600) 0.95 = true /\
                        ltb 0.516666 (0.5 + 60.001 / 3600) = true /\
                        ltb (0.5 + 60.001 / 3600) 0.516667 = true.
Proof. vm_compute. repeat split; reflexivity. Qed.

(** With 17 no-reads in 60 transactions and 1 in 3 at 7 AM both sides
    of the test of the morning spike are 100/3 as exact numbers; as
    floats the sum is the smaller, and the note is added. *)
Lemma morning_spike_rounding (format_f : nat -> Q -> string) (f : Rules.figures) :
  Rules.no_read_count f = 17%Z -> Rules.total f = 60%Z ->
  List.length (Rules.part_morning format_f [(7, 1, 3)%Z] f) = 1%nat.
Proof.
  intros Hn Ht. unfold Rules.part_morning. rewrite Hn, Ht.
  vm_compute. reflexivity.
Qed.

End Binary64.

(* ================================================================== *)
(** * Further properties of the code *)

(** ** [str.rstrip] *)

Lemma rstrip_all_space (s : string) :
  all_space s = true -> Str.rstrip s = EmptyString.
Proof.
  induction s as [|a s IH]; simpl; [reflexivity|].
  intros H. apply andb_prop in H. destruct H as [Ha Hs].
  rewrite (IH Hs), Ha. reflexivity.
Qed.

(** [rstrip] cuts a run of blanks off the end of [s], and what it
    leaves is either empty or ends with a character that is no blank:
    stripping again changes nothing. *)
Lemma rstrip_spec (s : string) :
  (exists w, s = (Str.rstrip s ++ w)%string /\ all_space w = true) /\
  Str.rstrip (Str.rstrip s) = Str.rstrip s.
Proof.
  induction s as [|a s [[w [Hs Hw]] Hidem]]; simpl.
  - split; [exists EmptyString; auto | reflexivity].
  - destruct (Str.rstrip s) as [|b r] eqn:E.
    + destruct (Str.is_space a) eqn:Ha.
      * split; [|reflexivity].
        exists (String a s). split; [reflexivity|].
        simpl. rewrite Ha. simpl in Hs. rewrite Hs. exact Hw.
      * split.
        -- exists s. split; [reflexivity|]. simpl in Hs. rewrite Hs. exact Hw.
        -- simpl. rewrite Ha. reflexivity.
    + split.
      * exists w. split; [|exact Hw]. simpl. f_equal. exact Hs.
      * change (Str.rstrip (String a (String b r)))
          with (match Str.rstrip (String b r) with
                | EmptyString => if Str.is_space a then EmptyString
                                 else String a EmptyString
                | r' => String a r'
                end).
        rewrite Hidem. reflexivity.
Qed.

Lemma digits_value_nonneg (s : string) (acc : Z) :
  (0 <= acc)%Z -> (0 <= Str.digits_value acc s)%Z.
Proof.
  revert acc. induction s as [|a s IH]; intros acc H;
    cbn [Str.digits_value]; [exact H|].
  apply IH. pose proof (Nat2Z.is_nonneg (Str.code a - 48)). lia.
Qed.

(** ** What [parse_line] returns *)

(** X1.  An entry that [parse_line] returns carries the line number and
    the file name given, is not an expanded copy, has expansion count 1,
    and its message has no trailing blank; a directive carries the line
    number, and its two counts are not negative. *)
Theorem parse_line_result_shape :
  forall (file raw : string) (n : Z),
    (forall e, Parser.parse_line file raw n = Returned (Some (Entry e)) ->
       line_number e = n /\ source_file e = file /\
       is_expanded e = false /\ expansion_count e = 1%Z /\
       Str.rstrip (message e) = message e) /\
    (forall rd, Parser.parse_line file raw n
                = Returned (Some (Directive rd)) ->
       rd_line_number rd = n /\ (0 <= line_count rd)%Z /\
       (0 <= repeat_count rd)%Z).
Proof.
  intros sf raw n. unfold Parser.parse_line.
  destruct (Re.rmatch Parser.REPEAT_PATTERN raw) as [m|].
  - split; intros x H; [discriminate H|].
    injection H as <-. simpl. split; [reflexivity|]. split.
    + destruct (Re.group 1 m); [apply digits_value_nonneg|]; lia.
    + apply digits_value_nonneg. lia.
  - destruct (Re.rmatch Parser.LINE_PATTERN raw) as [m|].
    + destruct (Datetime.strptime (Parser.group_or_empty 1 m)) as [ts|]; simpl;
        split; intros x H; try discriminate H.
      injection H as <-. simpl. repeat split.
      apply (proj2 (rstrip_spec _)).
    + split; intros x H; discriminate H.
Qed.

Lemma parse_line_result_shape_witness :
  exists e,
    Parser.parse_line "test.txt"
      "11/30/25 08:06:19.279 DLL-EX MTX_POS_BeginOrder   " 7
    = Returned (Some (Entry e)) /\
    line_number e = 7%Z /\ source_file e = "test.txt" /\
    is_expanded e = false /\ expansion_count e = 1%Z /\
    Str.rstrip (message e) = message e /\ message e = "MTX_POS_BeginOrder".
Proof.
  eexists. split; [vm_compute; reflexivity|].
  destruct (proj1 (parse_line_result_shape "test.txt"
              "11/30/25 08:06:19.279 DLL-EX MTX_POS_BeginOrder   " 7)
              (mkLogEntry 7 63900086779279000%Z "DLL-EX" "MTX_POS_BeginOrder"
                          false 1 "test.txt"))
    as [H1 [H2 [H3 [H4 H5]]]].
  - vm_compute. reflexivity.
  - repeat split; assumption.
Defined.

(** ** The ring buffer and the output of the expander *)

Lemma skipn_snoc {A : Type} (n : nat) (l : list A) (x : A) :
  (n <= List.length l)%nat -> skipn n (l ++ [x]) = skipn n l ++ [x].
Proof.
  revert l. induction n as [|n IH]; intros l H; [reflexivity|].
  destruct l as [|y l]; simpl in *; [lia|]. apply IH. lia.
Qed.

Lemma skipn_skipn_add {A : Type} (n m : nat) (l : list A) :
  skipn n (skipn m l) = skipn (m + n) l.
Proof.
  revert l. induction m as [|m IH]; intros l; [reflexivity|].
  destruct l as [|y l]; simpl; [destruct n; reflexivity|]. apply IH.
Qed.

(** The buffer after an append is the tail of what it was the tail of,
    one entry longer. *)
Lemma deque_append_tail {A : Type} (maxlen : nat) (l : list A) (x : A) :
  Py.deque_append maxlen (skipn (List.length l - maxlen) l) x
  = skipn (List.length (l ++ [x]) - maxlen) (l ++ [x]).
Proof.
  unfold Py.deque_append.
  rewrite <- skipn_snoc by lia.
  rewrite skipn_skipn_add. f_equal.
  rewrite length_skipn, !length_app. simpl. lia.
Qed.

Lemma process_from_buffer (m : nat) (items : list item) (l : list LogEntry) :
  snd (RepeatExpander.process_from m (skipn (List.length l - m) l) items)
  = skipn (List.length (l ++ FileReader.entries_only items) - m)
          (l ++ FileReader.entries_only items).
Proof.
  revert l. induction items as [|it items IH]; intros l.
  - simpl. rewrite app_nil_r. reflexivity.
  - cbn [RepeatExpander.process_from].
    destruct (RepeatExpander.step m (skipn (List.length l - m) l) it)
      as [out b'] eqn:Es.
    destruct it as [e|rd].
    + simpl in Es. injection Es as _ <-.
      rewrite deque_append_tail. specialize (IH (l ++ [e])).
      destruct (RepeatExpander.process_from m _ items) as [outs final].
      simpl in *. rewrite IH, <- app_assoc. reflexivity.
    + pose proof (directive_keeps_buffer m (skipn (List.length l - m) l) rd) as Hk.
      rewrite Es in Hk. simpl in Hk. subst b'. specialize (IH l).
      destruct (RepeatExpander.process_from m _ items) as [outs final].
      simpl in *. exact IH.
Qed.

(** X2.  The ring buffer holds the last [max_lookback] entries of the
    input, directives left out, whatever the directives were: from a
    buffer within its capacity, after any run of [process], it is the
    tail of that length of the old buffer followed by the entries, and
    so never exceeds the capacity. *)
Theorem expander_buffer_is_recent_entries :
  forall (max_lookback : nat) (items : list item) (buffer : list LogEntry),
    (List.length buffer <= max_lookback)%nat ->
    let seen := buffer ++ FileReader.entries_only items in
    snd (RepeatExpander.process_from max_lookback buffer items)
    = skipn (List.length seen - max_lookback) seen /\
    (List.length (snd (RepeatExpander.process_from max_lookback buffer items))
     <= max_lookback)%nat.
Proof.
  intros m items buffer Hlen seen.
  assert (H : snd (RepeatExpander.process_from m buffer items)
              = skipn (List.length seen - m) seen).
  { unfold seen. rewrite <- process_from_buffer.
    replace (List.length buffer - m)%nat with 0%nat by lia. reflexivity. }
  split; [exact H|]. rewrite H, length_skipn. lia.
Qed.

Lemma expander_buffer_witness :
  snd (RepeatExpander.process_from 2 [sample_entry]
         [ Entry (entry_at 2 0 "SERIAL" "a"); Directive (mkRepeatDirective 1 3 3);
           Entry (entry_at 4 0 "SERIAL" "b") ])
  = [entry_at 2 0 "SERIAL" "a"; entry_at 4 0 "SERIAL" "b"].
Proof.
  destruct (expander_buffer_is_recent_entries 2
              [ Entry (entry_at 2 0 "SERIAL" "a");
                Directive (mkRepeatDirective 1 3 3);
                Entry (entry_at 4 0 "SERIAL" "b") ] [sample_entry])
    as [H _].
  - simpl. lia.
  - exact H.
Defined.

Lemma replay_all_expanded (n : nat) (rd : RepeatDirective) (src : list LogEntry) :
  filter original (RepeatExpander.replay n rd src) = [].
Proof.
  assert (Hmap : filter original (map (RepeatExpander.expanded rd) src) = []).
  { induction src as [|x src IHs]; [reflexivity|]. simpl. exact IHs. }
  induction n as [|n IH]; [reflexivity|].
  simpl. rewrite filter_app, IH, Hmap. reflexivity.
Qed.

Lemma step_directive_out (m : nat) (buffer : list LogEntry) (rd : RepeatDirective) :
  fst (RepeatExpander.step m buffer (Directive rd))
  = RepeatExpander.replay (Z.to_nat (repeat_count rd)) rd
      (Py.slice_from (- line_count rd) buffer).
Proof.
  unfold RepeatExpander.step.
  destruct (Py.slice_from (- line_count rd) buffer); [|reflexivity].
  rewrite replay_nil. reflexivity.
Qed.

(** X3.  Expansion only adds copies: fed with items as the parser
    yields them, the output of [process] with the expanded copies
    removed is the entries of the input, in their order; a stream
    without directives passes through unchanged. *)
Theorem expander_keeps_originals :
  forall (max_lookback : nat) (items : list item) (buffer : list LogEntry),
    Forall input_entry items ->
    filter original (fst (RepeatExpander.process_from max_lookback buffer items))
    = FileReader.entries_only items /\
    (forall entries,
       fst (RepeatExpander.process_from max_lookback buffer (map Entry entries))
       = entries).
Proof.
  intros m items buffer Hitems. split.
  - revert buffer. induction Hitems as [|it items Hit _ IH]; intros buffer;
      [reflexivity|].
    cbn [RepeatExpander.process_from].
    destruct (RepeatExpander.step m buffer it) as [out b'] eqn:Es.
    specialize (IH b').
    destruct (RepeatExpander.process_from m b' items) as [outs final].
    simpl in *. rewrite filter_app, IH.
    destruct it as [e|rd].
    + simpl in Es. injection Es as <- _. simpl.
      unfold original. rewrite Hit. reflexivity.
    + pose proof (step_directive_out m buffer rd) as Ho.
      rewrite Es in Ho. simpl in Ho. rewrite Ho, replay_all_expanded.
      reflexivity.
  - intros entries. revert buffer.
    induction entries as [|e entries IH]; intros buffer; [reflexivity|].
    simpl. specialize (IH (Py.deque_append m buffer e)).
    destruct (RepeatExpander.process_from m _ (map Entry entries)) as [outs final].
    simpl in *. rewrite IH. reflexivity.
Qed.

Lemma expander_keeps_originals_witness :
  filter original
    (fst (RepeatExpander.process_from 20 []
            [ Entry sample_entry; Directive (mkRepeatDirective 1 3 2);
              Entry (entry_at 3 0 "SERIAL" "b") ]))
  = [sample_entry; entry_at 3 0 "SERIAL" "b"].
Proof.
  destruct (expander_keeps_originals 20
              [ Entry sample_entry; Directive (mkRepeatDirective 1 3 2);
                Entry (entry_at 3 0 "SERIAL" "b") ] []) as [H _].
  - repeat constructor.
  - exact H.
Defined.





(** ** Reading a file *)

Lemma parse_line_item (file raw : string) (n : Z) (it : item) :
  Parser.parse_line file raw n = Returned (Some it) ->
  item_line it = n /\ input_entry it.
Proof.
  intros H. destruct (parse_line_result_shape file raw n) as [He Hd].
  destruct it as [e|rd].
  - destruct (He e H) as [H1 [_ [H3 _]]]. split; assumption.
  - destruct (Hd rd H) as [H1 _]. split; [exact H1 | exact I].
Qed.

Lemma parse_lines_from_spec (file : string) (lines : list string) (n : Z) :
  let items := fst (FileReader.parse_lines_from file n lines) in
  Forall input_entry items /\
  Forall (fun it => (n <= item_line it < n + Z.of_nat (List.length lines))%Z) items /\
  StronglySorted Z.lt (map item_line items) /\
  (List.length items <= List.length lines)%nat.
Proof.
  revert n. induction lines as [|raw lines IH]; intros n.
  - simpl. repeat split; try constructor.
  - cbn [FileReader.parse_lines_from].
    destruct (Parser.parse_line file raw n) as [r|x] eqn:Ep.
    + specialize (IH (n + 1)%Z).
      destruct (FileReader.parse_lines_from file (n + 1) lines) as [out err].
      cbn [fst] in *. destruct IH as [H1 [H2 [H3 H4]]].
      assert (H2' : Forall (fun it =>
                (n <= item_line it < n + Z.of_nat (List.length (raw :: lines)))%Z) out).
      { eapply Forall_impl; [|exact H2]. cbn [List.length]. intros a Ha. lia. }
      destruct r as [it|].
      * destruct (parse_line_item _ _ _ _ Ep) as [Hl Hi].
        split; [constructor; assumption|]. split; [|split].
        -- constructor; [cbn [List.length]; lia | exact H2'].
        -- cbn [map]. constructor; [exact H3|].
           rewrite Forall_map. eapply Forall_impl; [|exact H2].
           intros a Ha. cbn beta in Ha. lia.
        -- cbn [List.length]. lia.
      * split; [exact H1|]. split; [exact H2'|]. split; [exact H3|].
        cbn [List.length]. lia.
    + simpl. repeat split; try constructor. lia.
Qed.

(** X5.  The items [parse_lines] yields carry the numbers of their
    lines: the numbers are between 1 and the number of lines and
    strictly increasing, so that no line yields two items, and the
    entries among them are not expanded copies -- up to the line on
    which [parse_line] raises, if one does. *)
Theorem parse_lines_line_numbers :
  forall (file : string) (lines : list string),
    let items := fst (FileReader.parse_lines file lines) in
    StronglySorted Z.lt (map item_line items) /\
    Forall (fun it => (1 <= item_line it <= Z.of_nat (List.length lines))%Z) items /\
    (List.length items <= List.length lines)%nat /\
    Forall input_entry items.
Proof.
  intros file lines items.
  destruct (parse_lines_from_spec file lines 1) as [H1 [H2 [H3 H4]]].
  fold (FileReader.parse_lines file lines) in H1, H2, H3, H4. fold items in H1, H2, H3, H4.
  repeat split; try assumption.
  eapply Forall_impl; [|exact H2]. intros a Ha. cbn beta in Ha. lia.
Qed.

Lemma entries_only_filter (items : list item) :
  Forall input_entry items ->
  filter original (FileReader.entries_only items) = FileReader.entries_only items.
Proof.
  induction 1 as [|it items Hit _ IH]; [reflexivity|].
  destruct it as [e|rd]; simpl; [|exact IH].
  unfold original at 1. simpl in Hit. rewrite Hit. simpl. f_equal. exact IH.
Qed.

(** X6.  The two modes of [read_entries] agree on the lines of the
    file: reading with repeat expansion and dropping the expanded
    copies gives what reading without expansion gives, and both end
    with the same exception, if any. *)
Theorem read_entries_modes_agree :
  forall (file : string) (lines : list string),
    filter original (fst (FileReader.read_entries file true lines))
    = fst (FileReader.read_entries file false lines) /\
    snd (FileReader.read_entries file true lines)
    = snd (FileReader.read_entries file false lines).
Proof.
  intros file lines. unfold FileReader.read_entries.
  destruct (parse_lines_line_numbers file lines) as [_ [_ [_ Hin]]].
  destruct (FileReader.parse_lines file lines) as [items err].
  cbn [fst snd] in *. split; [|reflexivity].
  unfold RepeatExpander.process.
  exact (proj1 (expander_keeps_originals 20 items [] Hin)).
Qed.

(** ** The histories of the state machine *)

Lemma last_cons_default {A : Type} (y d : A) (l : list A) :
  last (y :: l) d = last l y.
Proof.
  revert y d. induction l as [|z l IHl]; intros y d; [reflexivity|].
  change (last (y :: z :: l) d) with (last (z :: l) d).
  rewrite (IHl z d), (IHl z y). reflexivity.
Qed.

Lemma no_repeat_snoc (prev x : Z) (l : list Z) :
  no_repeat prev (l ++ [x]) <-> no_repeat prev l /\ x <> last l prev.
Proof.
  revert prev. induction l as [|y l IH]; intros prev.
  - simpl. tauto.
  - cbn [app no_repeat]. rewrite IH, last_cons_default. tauto.
Qed.

Lemma statuses_snoc (h : list (datetime * Z * string)) (ts : datetime)
      (status : Z) (name : string) :
  statuses (h ++ [(ts, status, name)]) = statuses h ++ [status].
Proof. unfold statuses. rewrite map_app. reflexivity. Qed.

Lemma run_compressed_step (sm : SCAT.SCATStateMachine) (e : LogEntry) :
  no_repeat 9 (statuses (SCAT.alive_history sm)) /\
  SCAT.alive_status sm = last (statuses (SCAT.alive_history sm)) 9%Z ->
  no_repeat 9 (statuses (SCAT.alive_history (SCAT.process_entry sm e))) /\
  SCAT.alive_status (SCAT.process_entry sm e)
  = last (statuses (SCAT.alive_history (SCAT.process_entry sm e))) 9%Z.
Proof.
  intros [Hnr Hst].
  destruct (process_entry_alive sm e) as [Hh Hs].
  rewrite Hh, Hs. unfold recorded.
  destruct (alive_of e) as [[v n]|].
  - destruct (Z.eqb_spec v (SCAT.alive_status sm)) as [Heq|Hne].
    + rewrite app_nil_r. split; [exact Hnr | congruence].
    + rewrite statuses_snoc, last_last. split; [|reflexivity].
      apply no_repeat_snoc. split; [exact Hnr | congruence].
  - rewrite app_nil_r. split; assumption.
Qed.

(** X7.  Runs are compressed, for every stream of entries: in the alive
    history of a machine started fresh no transition repeats the status
    of the one before it, the first is not to 9, and the current alive
    status is that of the last transition recorded (9 while none is). *)
Theorem alive_history_is_run_compressed :
  forall (entries : list LogEntry),
    let sm := SCAT.process_entries SCAT.init entries in
    no_repeat 9 (statuses (SCAT.alive_history sm)) /\
    SCAT.alive_status sm = last (statuses (SCAT.alive_history sm)) 9%Z.
Proof.
  intros entries.
  assert (Hgen : forall sm,
            no_repeat 9 (statuses (SCAT.alive_history sm)) /\
            SCAT.alive_status sm = last (statuses (SCAT.alive_history sm)) 9%Z ->
            no_repeat 9 (statuses (SCAT.alive_history
                                     (SCAT.process_entries sm entries))) /\
            SCAT.alive_status (SCAT.process_entries sm entries)
            = last (statuses (SCAT.alive_history
                                (SCAT.process_entries sm entries))) 9%Z).
  { induction entries as [|e entries IH]; intros sm Hsm; [exact Hsm|].
    simpl. apply IH. apply run_compressed_step. exact Hsm. }
  apply Hgen. simpl. split; [exact I | reflexivity].
Qed.

Lemma process_entry_state (sm : SCAT.SCATStateMachine) (e : LogEntry) :
  SCAT.state_history (SCAT.process_entry sm e)
  = SCAT.state_history sm ++ state_of e /\
  SCAT.current_state (SCAT.process_entry sm e)
  = last (map new_state (state_of e)) (SCAT.current_state sm).
Proof.
  unfold SCAT.process_entry, SCAT.track_alive, SCAT.track_state, state_of.
  destruct (Re.search SCAT.SCAT_STATE_PATTERN (message e)) as [m|];
    destruct (Re.search SCAT.ALIVE_PATTERN (message e)) as [m'|]; simpl;
    try rewrite app_nil_r;
    repeat match goal with
           | |- context [if ?x then _ else _] => destruct x
           end; simpl; auto.
Qed.

Lemma last_app_default {A : Type} (l1 l2 : list A) (d : A) :
  last (l1 ++ l2) d = last l2 (last l1 d).
Proof.
  revert d. induction l1 as [|y l1 IH]; intros d; [reflexivity|].
  change ((y :: l1) ++ l2) with (y :: (l1 ++ l2)).
  rewrite !last_cons_default. apply IH.
Qed.

(** X8.  Named states are not deduplicated and the histories only grow:
    after any stream the state history is what it was, followed by one
    change per entry that carries one, in the order of the entries; the
    current state is the new state of the last of them; and the alive
    history is what it was, followed by what the stream recorded. *)
Theorem state_history_appends_every_change :
  forall (entries : list LogEntry) (sm : SCAT.SCATStateMachine),
    SCAT.state_history (SCAT.process_entries sm entries)
    = SCAT.state_history sm ++ flat_map state_of entries /\
    SCAT.current_state (SCAT.process_entries sm entries)
    = last (map new_state (flat_map state_of entries)) (SCAT.current_state sm) /\
    exists more,
      SCAT.alive_history (SCAT.process_entries sm entries)
      = SCAT.alive_history sm ++ more.
Proof.
  induction entries as [|e entries IH]; intros sm.
  - simpl. rewrite app_nil_r. repeat split. exists []. rewrite app_nil_r.
    reflexivity.
  - cbn [SCAT.process_entries fold_left flat_map].
    destruct (IH (SCAT.process_entry sm e)) as [H1 [H2 [more H3]]].
    unfold SCAT.process_entries in H1, H2, H3.
    destruct (process_entry_state sm e) as [Hh Hc].
    destruct (process_entry_alive sm e) as [Ha _].
    rewrite H1, H2, H3, Hh, Hc, Ha. split; [|split].
    + rewrite app_assoc. reflexivity.
    + rewrite map_app, last_app_default. reflexivity.
    + exists (recorded sm e ++ more). rewrite app_assoc. reflexivity.
Qed.

(** On a run-compressed history the scan of [get_dead_periods], with its
    open end, gives one period per transition to 0. *)
Lemma dead_scan_run_compressed (h : list (datetime * Z * string)) (prev : Z) :
  no_repeat prev (statuses h) ->
  (let '(periods, dead_start) := SCAT.dead_scan None h in
   match dead_start, Py.last_opt h with
   | Some ds, Some (last_ts, _, _) =>
       periods ++ [(ds, last_ts, Datetime.total_seconds (last_ts - ds))]
   | _, _ => periods
   end) = dead_periods_of h.
Proof.
  revert prev. induction h as [|[[ts st] n] rest IH]; intros prev Hnr;
    [reflexivity|].
  cbn [statuses map no_repeat fst snd] in Hnr. destruct Hnr as [_ Hnr].
  fold (statuses rest) in Hnr. specialize (IH st Hnr).
  cbn [SCAT.dead_scan dead_periods_of].
  destruct (Z.eqb_spec st 0) as [Hz|Hz].
  - subst st. destruct rest as [|[[ts' st'] n'] rest'].
    + reflexivity.
    + cbn [statuses map no_repeat fst snd] in Hnr. destruct Hnr as [Hst' _].
      cbn [SCAT.dead_scan dead_periods_of] in IH |- *.
      destruct (Z.eqb_spec st' 0) as [|_]; [contradiction|]. cbn [negb].
      change ((ts, 0%Z, n) :: (ts', st', n') :: rest')
        with ([(ts, 0%Z, n)] ++ (ts', st', n') :: rest').
      rewrite last_opt_app_cons.
      destruct (SCAT.dead_scan None rest') as [ps fin].
      rewrite <- IH.
      destruct fin as [d|]; [|reflexivity].
      destruct (Py.last_opt ((ts', st', n') :: rest')) as [[[l s] m]|];
        reflexivity.
  - destruct rest as [|x rest'].
    + reflexivity.
    + change ((ts, st, n) :: x :: rest') with ([(ts, st, n)] ++ x :: rest').
      rewrite last_opt_app_cons. exact IH.
Qed.

Lemma dead_periods_of_length (h : list (datetime * Z * string)) :
  List.length (dead_periods_of h)
  = List.length (filter (fun s => (s =? 0)%Z) (statuses h)).
Proof.
  induction h as [|[[ts st] n] rest IH]; [reflexivity|].
  cbn [dead_periods_of statuses map filter fst snd].
  fold (statuses rest). destruct (st =? 0)%Z; simpl; rewrite IH; reflexivity.
Qed.

(** X9.  For every stream, [get_dead_periods] gives exactly one period
    per recorded transition to status 0, in order: it starts at that
    transition and ends at the next transition recorded, or at itself,
    with duration 0, when it is the last. *)
Theorem dead_periods_one_per_dead_transition :
  forall (entries : list LogEntry),
    let sm := SCAT.process_entries SCAT.init entries in
    SCAT.get_dead_periods sm = dead_periods_of (SCAT.alive_history sm) /\
    List.length (SCAT.get_dead_periods sm)
    = List.length (filter (fun s => (s =? 0)%Z) (statuses (SCAT.alive_history sm))).
Proof.
  intros entries sm.
  assert (H : SCAT.get_dead_periods sm = dead_periods_of (SCAT.alive_history sm)).
  { destruct (alive_history_is_run_compressed entries) as [Hnr _].
    fold sm in Hnr. unfold SCAT.get_dead_periods.
    exact (dead_scan_run_compressed _ _ Hnr). }
  split; [exact H|]. rewrite H. apply dead_periods_of_length.
Qed.

(** ** The health-check segmenter on whole streams *)

Lemma health_step_other (current : option Health.HealthCheckData) (e : LogEntry) :
  is_svreps e = false -> Health.step current e = ([], current).
Proof.
  unfold is_svreps, Health.step. intros ->. reflexivity.
Qed.

(** X10.  Only entries of category SVREPS count: the records yielded
    for a stream, and the record left open, are those of the stream
    with every other entry removed. *)
Theorem health_ignores_other_categories :
  forall (entries : list LogEntry) (current : option Health.HealthCheckData),
    Health.run_from current entries
    = Health.run_from current (filter is_svreps entries) /\
    Health.process_entries entries
    = Health.process_entries (filter is_svreps entries).
Proof.
  assert (H : forall entries current,
            Health.run_from current entries
            = Health.run_from current (filter is_svreps entries)).
  { induction entries as [|e entries IH]; intros current; [reflexivity|].
    cbn [filter]. destruct (is_svreps e) eqn:E.
    - cbn [Health.run_from]. destruct (Health.step current e) as [out c'].
      rewrite IH. reflexivity.
    - cbn [Health.run_from]. rewrite (health_step_other _ _ E), IH.
      destruct (Health.run_from current (filter is_svreps entries)).
      reflexivity. }
  intros entries current. split; [apply H|].
  unfold Health.process_entries. rewrite H. reflexivity.
Qed.

(** Looking for an HTTP or socket code touches the HTTP status only. *)
Lemma extract_http_socket_frame (error_str : string) (h : Health.HealthCheckData) :
  let h' := Health.extract_http_socket error_str h in
  Health.start_line h' = Health.start_line h /\
  Health.end_line h' = Health.end_line h /\
  Health.start_time h' = Health.start_time h /\
  Health.end_time h' = Health.end_time h /\
  Health.check_type h' = Health.check_type h /\
  Health.success h' = Health.success h /\
  Health.error_code h' = Health.error_code h /\
  Health.latency_ms h' = Health.latency_ms h.
Proof.
  unfold Health.extract_http_socket.
  destruct (Re.search Health.HTTP_ERROR error_str);
    destruct (Re.search Health.SOCKET_ERROR error_str); simpl; repeat split.
Qed.

Lemma open_exchange_open (e : LogEntry) (m : Re.caps) :
  open_check (Health.open_exchange e m).
Proof. unfold open_check. simpl. repeat split. discriminate. Qed.

Lemma open_check_sound (c : Health.HealthCheckData) :
  open_check c -> sound_check c.
Proof.
  intros [Ht [Hs [He [Hsu Hec]]]]. unfold sound_check.
  split; [left; exact Ht|]. split; [exact Hs|].
  split; [rewrite Ht, Hsu, Hec; reflexivity|].
  split; [intros H; contradiction|].
  intros st en _ _ H. rewrite He in H. discriminate H.
Qed.

Lemma close_exchange_sound (c : Health.HealthCheckData) (e : LogEntry)
      (m : Re.caps) :
  open_check c -> sound_check (Health.close_exchange c e m).
Proof.
  intros [Ht [Hs [He [Hsu Hec]]]]. unfold sound_check, Health.close_exchange.
  destruct (extract_http_socket_frame
              (Str.strip (Health.g 2 m))
              (Health.mkHealth (Health.start_line c) (line_number e)
                 (Health.start_time c) (Some (timestamp e))
                 (Health.check_type c) (Health.target_host c)
                 (String.eqb (Health.g 1 m) "0") (Health.g 1 m)
                 (Health.http_status c)
                 (match Health.start_time c with
                  | Some st => (Datetime.total_seconds (timestamp e - st) * 1000)%Q
                  | None => Health.latency_ms c
                  end)))
    as [H1 [H2 [H3 [H4 [H5 [H6 [H7 H8]]]]]]].
  cbv zeta in H1, H2, H3, H4, H5, H6, H7, H8.
  rewrite H1, H2, H3, H4, H5, H6, H7, H8. cbn [Health.start_line Health.end_line
    Health.start_time Health.end_time Health.check_type Health.success
    Health.error_code Health.latency_ms].
  split; [left; exact Ht|]. split; [exact Hs|].
  split; [rewrite Ht; reflexivity|].
  split; [intros H; contradiction|].
  intros st en _ Hst Hen. rewrite Hst. injection Hen as <-. reflexivity.
Qed.

Lemma monitoring_record_sound (e : LogEntry) (m : Re.caps) :
  sound_check (Health.monitoring_record e m).
Proof.
  unfold sound_check, Health.monitoring_record.
  destruct (extract_http_socket_frame (Health.g 2 m)
              (Health.mkHealth (line_number e) (line_number e)
                 (Some (timestamp e)) (Some (timestamp e)) "MonitoringStatus" ""
                 (String.eqb (Health.g 1 m) "0") (Health.g 1 m) "" 0))
    as [H1 [H2 [H3 [H4 [H5 [H6 [H7 H8]]]]]]].
  cbv zeta in H1, H2, H3, H4, H5, H6, H7, H8.
  rewrite H1, H2, H3, H4, H5, H6, H7, H8. simpl.
  split; [right; left; reflexivity|]. split; [discriminate|].
  split; [reflexivity|]. split; [intros _; repeat split|].
  intros st en H. discriminate H.
Qed.

Lemma login_record_sound (e : LogEntry) (m : Re.caps) :
  sound_check (Health.login_record e m).
Proof.
  unfold sound_check, Health.login_record. simpl.
  split; [right; right; reflexivity|]. split; [discriminate|].
  split; [reflexivity|]. split; [intros _; repeat split|].
  intros st en H. discriminate H.
Qed.

Lemma health_step_sound (current : option Health.HealthCheckData) (e : LogEntry) :
  (forall c, current = Some c -> open_check c) ->
  Forall sound_check (fst (Health.step current e)) /\
  (forall c, snd (Health.step current e) = Some c -> open_check c).
Proof.
  intros Hcur.
  assert (Hsingle : Forall sound_check (fst (Health.single_line current e)) /\
                    snd (Health.single_line current e) = current).
  { unfold Health.single_line.
    destruct (Re.search Health.MONITORING_RESULT (message e)) as [m|].
    - simpl. split; [|reflexivity].
      constructor; [apply monitoring_record_sound | constructor].
    - destruct (Re.search Health.LOGIN_RESULT (message e)) as [m|]; simpl;
        (split; [|reflexivity]).
      + constructor; [apply login_record_sound | constructor].
      + constructor. }
  destruct Hsingle as [Hs1 Hs2].
  unfold Health.step.
  destruct (negb (String.eqb (category e) "SVREPS")); [simpl; split; auto|].
  destruct (Re.search Health.EXCHANGE_INFO_SEND (message e)) as [m|].
  - simpl. split.
    + destruct current as [c|]; [|constructor].
      constructor; [|constructor]. apply open_check_sound. auto.
    + intros c H. injection H as <-. apply open_exchange_open.
  - destruct (Re.search Health.EXCHANGE_INFO_RESULT (message e)) as [m|];
      [|rewrite Hs2; split; [exact Hs1 | exact Hcur]].
    destruct current as [c|]; [|rewrite Hs2; split; [exact Hs1 | exact Hcur]].
    destruct (String.eqb (Health.check_type c) "ExchangeInfo");
      [|rewrite Hs2; split; [exact Hs1 | exact Hcur]].
    simpl. split; [|intros c' H; discriminate H].
    constructor; [|constructor]. apply close_exchange_sound. auto.
Qed.

(** X11.  Every record the segmenter yields, for whatever stream, is
    of one of the three check types and has a start time; its success
    flag is decided by its error code ("0" for ExchangeInfo and
    MonitoringStatus, one of the two good results for Login); a
    MonitoringStatus or Login record starts and ends on one line with
    latency 0; and the latency of a resolved ExchangeInfo record is the
    time from its start marker to its result line, in milliseconds. *)
Theorem health_records_are_sound :
  forall (entries : list LogEntry),
    Forall sound_check (Health.process_entries entries).
Proof.
  intros entries. unfold Health.process_entries.
  assert (H : forall current,
            (forall c, current = Some c -> open_check c) ->
            Forall sound_check (fst (Health.run_from current entries)) /\
            (forall c, snd (Health.run_from current entries) = Some c ->
                       open_check c)).
  { induction entries as [|e entries IH]; intros current Hcur.
    - simpl. split; [constructor | exact Hcur].
    - cbn [Health.run_from].
      destruct (health_step_sound current e Hcur) as [Hout Hnext].
      destruct (Health.step current e) as [out c'].
      destruct (IH c' Hnext) as [Houts Hfin].
      destruct (Health.run_from c' entries) as [outs final].
      simpl in *. split; [|exact Hfin].
      apply Forall_app. split; assumption. }
  destruct (H None) as [Houts Hfin]; [intros c Hc; discriminate Hc|].
  destruct (Health.run_from None entries) as [outs final]. simpl in *.
  apply Forall_app. split; [exact Houts|].
  destruct final as [c|]; [|constructor].
  constructor; [|constructor]. apply open_check_sound. auto.
Qed.

Lemma health_step_count (current : option Health.HealthCheckData) (e : LogEntry) :
  let pending (c : option Health.HealthCheckData) :=
    match c with Some _ => 1%nat | None => 0%nat end in
  (List.length (fst (Health.step current e)) + pending (snd (Health.step current e))
   <= pending current + (if is_svreps e then 1 else 0))%nat.
Proof.
  cbv zeta. unfold Health.step, is_svreps.
  destruct (String.eqb (category e) "SVREPS"); simpl; [|lia].
  destruct (Re.search Health.EXCHANGE_INFO_SEND (message e)) as [m|].
  - destruct current; simpl; lia.
  - assert (Hs : (List.length (fst (Health.single_line current e)) <= 1)%nat /\
                 snd (Health.single_line current e) = current).
    { unfold Health.single_line.
      destruct (Re.search Health.MONITORING_RESULT (message e));
        [simpl; auto|].
      destruct (Re.search Health.LOGIN_RESULT (message e)); simpl; auto. }
    destruct Hs as [Hs1 Hs2].
    destruct (Re.search Health.EXCHANGE_INFO_RESULT (message e)) as [m|];
      [|rewrite Hs2; lia].
    destruct current as [c|]; [|rewrite Hs2; lia].
    destruct (String.eqb (Health.check_type c) "ExchangeInfo");
      [simpl; lia | rewrite Hs2; simpl; lia].
Qed.

(** X12.  A stream never yields more health-check records than it has
    SVREPS entries: every record, the unresolved ones included, is
    owed to an entry of its own. *)
Theorem health_records_bounded_by_entries :
  forall (entries : list LogEntry),
    (List.length (Health.process_entries entries)
     <= List.length (filter is_svreps entries))%nat.
Proof.
  intros entries. unfold Health.process_entries.
  assert (H : forall current,
            (List.length (fst (Health.run_from current entries))
             + match snd (Health.run_from current entries) with
               | Some _ => 1 | None => 0
               end
             <= match current with Some _ => 1 | None => 0 end
                + List.length (filter is_svreps entries))%nat).
  { induction entries as [|e entries IH]; intros current.
    - simpl. lia.
    - cbn [Health.run_from filter].
      pose proof (health_step_count current e) as Hstep. cbv zeta in Hstep.
      destruct (Health.step current e) as [out c'].
      specialize (IH c').
      destruct (Health.run_from c' entries) as [outs final].
      simpl in *. rewrite length_app.
      destruct (is_svreps e); simpl; lia. }
  specialize (H None).
  destruct (Health.run_from None entries) as [outs final]. simpl in *.
  rewrite length_app. destruct final; simpl; lia.
Qed.

(** ** The rows of the timeline table *)

Lemma lookup_app (ts : datetime) (d1 d2 : list (datetime * Z)) :
  lookup ts (d1 ++ d2)
  = match lookup ts d1 with
    | Some v => Some v
    | None => lookup ts d2
    end.
Proof.
  induction d1 as [|[k v] d1 IH]; [reflexivity|].
  simpl. destruct (k =? ts)%Z; [reflexivity | exact IH].
Qed.

Lemma lookup_dict_set (k ts : datetime) (status : Z) (d : list (datetime * Z)) :
  lookup k (Timeline.dict_set ts status d)
  = if (ts =? k)%Z then Some status else lookup k d.
Proof.
  induction d as [|[k' v'] d IH]; simpl.
  - reflexivity.
  - destruct (Z.eqb_spec k' ts) as [->|Hne]; simpl.
    + destruct (ts =? k)%Z; reflexivity.
    + rewrite IH. destruct (Z.eqb_spec k' k) as [->|Hne'].
      * destruct (Z.eqb_spec ts k); [congruence | reflexivity].
      * reflexivity.
Qed.

Lemma lookup_In (ts : datetime) (d : list (datetime * Z)) :
  lookup ts d <> None <-> In ts (map fst d).
Proof.
  induction d as [|[k v] d IH]; simpl.
  - split; [intros H; contradiction H; reflexivity | intros []].
  - destruct (Z.eqb_spec k ts) as [->|Hne].
    + split; [intros _; left; reflexivity | intros _; discriminate].
    + rewrite IH. split; [intros H; right; exact H|].
      intros [H|H]; [contradiction | exact H].
Qed.

Lemma dict_set_keys (ts : datetime) (status : Z) (d : list (datetime * Z)) :
  map fst (Timeline.dict_set ts status d)
  = if in_dec Z.eq_dec ts (map fst d) then map fst d else map fst d ++ [ts].
Proof.
  induction d as [|[k v] d IH]; simpl; [reflexivity|].
  destruct (Z.eqb_spec k ts) as [->|Hne]; simpl.
  - destruct (Z.eq_dec ts ts); [reflexivity | contradiction].
  - rewrite IH. destruct (Z.eq_dec k ts); [contradiction|].
    destruct (in_dec Z.eq_dec ts (map fst d)); reflexivity.
Qed.

Lemma dict_set_NoDup (ts : datetime) (status : Z) (d : list (datetime * Z)) :
  NoDup (map fst d) -> NoDup (map fst (Timeline.dict_set ts status d)).
Proof.
  intros H. rewrite dict_set_keys.
  destruct (in_dec Z.eq_dec ts (map fst d)) as [Hin|Hnin]; [exact H|].
  apply NoDup_app; [exact H | repeat constructor; intros [] |].
  intros x Hx [<-|[]]. contradiction.
Qed.

Lemma insert_batch_fold (entries acc : list (datetime * Z)) :
  NoDup (map fst acc) ->
  let d := fold_left (fun deduped '(ts, status) => Timeline.dict_set ts status deduped)
                     entries acc in
  NoDup (map fst d) /\
  forall ts, lookup ts d = match last_status_for ts entries with
                           | Some v => Some v
                           | None => lookup ts acc
                           end.
Proof.
  revert acc. induction entries as [|[k v] entries IH]; intros acc Hnd.
  - simpl. split; [exact Hnd | reflexivity].
  - cbn [fold_left].
    destruct (IH (Timeline.dict_set k v acc) (dict_set_NoDup k v acc Hnd))
      as [H1 H2].
    split; [exact H1|]. intros ts. cbv zeta in H2. rewrite H2.
    unfold last_status_for. cbn [rev]. rewrite lookup_app, lookup_dict_set.
    destruct (lookup ts (rev entries)); [reflexivity|].
    simpl. destruct (k =? ts)%Z; reflexivity.
Qed.

(** X13.  [insert_batch] keeps one row per timestamp, holding the
    status that comes last for it in the batch: the timestamps of the
    rows are distinct (the primary key of the table holds), a timestamp
    has a row exactly when the batch mentions it, and its row has the
    last status the batch gives it. *)
Theorem insert_batch_last_status_wins :
  forall (entries : list (datetime * Z)),
    NoDup (map fst (Timeline.insert_batch entries)) /\
    (forall ts, lookup ts (Timeline.insert_batch entries)
                = last_status_for ts entries) /\
    (forall ts, In ts (map fst (Timeline.insert_batch entries))
                <-> In ts (map fst entries)).
Proof.
  intros entries.
  destruct (insert_batch_fold entries [] (NoDup_nil _)) as [H1 H2].
  cbv zeta in H2. fold (Timeline.insert_batch entries) in H1, H2.
  assert (H3 : forall ts, lookup ts (Timeline.insert_batch entries)
                          = last_status_for ts entries).
  { intros ts. rewrite H2. destruct (last_status_for ts entries); reflexivity. }
  split; [exact H1|]. split; [exact H3|].
  intros ts. rewrite <- lookup_In, H3. unfold last_status_for.
  rewrite lookup_In, map_rev, <- in_rev. reflexivity.
Qed.

Lemma insert_by_timestamp_In (r x : datetime * Z) (rows : list (datetime * Z)) :
  In x (Timeline.insert_by_timestamp r rows) <-> x = r \/ In x rows.
Proof.
  induction rows as [|r' rows IH]; simpl.
  - split; [intros [H|[]]; left; auto | intros [H|[]]; left; auto].
  - destruct (fst r <=? fst r')%Z; simpl.
    + split; [intros [H|H]; [left; auto | right; exact H]
             | intros [H|H]; [left; auto | right; exact H]].
    + rewrite IH. split; intros H; intuition auto.
Qed.

Lemma order_by_timestamp_In (x : datetime * Z) (rows : list (datetime * Z)) :
  In x (Timeline.order_by_timestamp rows) <-> In x rows.
Proof.
  unfold Timeline.order_by_timestamp.
  induction rows as [|r rows IH]; simpl; [reflexivity|].
  rewrite insert_by_timestamp_In, IH. split; intros [H|H]; auto.
Qed.

Lemma insert_by_timestamp_sorted (r : datetime * Z) (rows : list (datetime * Z)) :
  StronglySorted Z.lt (map fst rows) -> ~ In (fst r) (map fst rows) ->
  StronglySorted Z.lt (map fst (Timeline.insert_by_timestamp r rows)).
Proof.
  induction rows as [|r' rows IH]; intros Hs Hnin; simpl.
  - repeat constructor.
  - simpl in Hs, Hnin. inversion Hs as [|? ? Hrest Hall]; subst.
    destruct (Z.leb_spec (fst r) (fst r')) as [Hle|Hgt]; simpl.
    + assert (Hlt : (fst r < fst r')%Z) by (assert (fst r' <> fst r) by tauto; lia).
      constructor; [exact Hs|].
      constructor; [exact Hlt|].
      eapply Forall_impl; [|exact Hall]. intros a Ha. cbn beta in Ha. lia.
    + constructor; [apply IH; [exact Hrest | tauto]|].
      rewrite Forall_forall. intros k Hk.
      apply in_map_iff in Hk. destruct Hk as [x [<- Hx]].
      apply insert_by_timestamp_In in Hx. destruct Hx as [->|Hx]; [lia|].
      rewrite Forall_forall in Hall. apply Hall. apply in_map. exact Hx.
Qed.

Lemma order_by_timestamp_strict (rows : list (datetime * Z)) :
  NoDup (map fst rows) ->
  StronglySorted Z.lt (map fst (Timeline.order_by_timestamp rows)).
Proof.
  unfold Timeline.order_by_timestamp.
  induction rows as [|r rows IH]; intros Hnd; simpl; [constructor|].
  simpl in Hnd. inversion Hnd as [|? ? Hnin Hrest]; subst.
  apply insert_by_timestamp_sorted; [apply IH; exact Hrest|].
  intros Hin. apply Hnin.
  apply in_map_iff in Hin. destruct Hin as [x [Hx Hin]].
  apply (order_by_timestamp_In x rows) in Hin.
  rewrite <- Hx. apply in_map. exact Hin.
Qed.

Lemma lookup_In_pair (ts : datetime) (status : Z) (d : list (datetime * Z)) :
  NoDup (map fst d) -> (In (ts, status) d <-> lookup ts d = Some status).
Proof.
  induction d as [|[k v] d IH]; intros Hnd; simpl.
  - split; [intros [] | discriminate].
  - simpl in Hnd. inversion Hnd as [|? ? Hnin Hrest]; subst.
    destruct (Z.eqb_spec k ts) as [->|Hne].
    + split.
      * intros [H|H]; [congruence|].
        exfalso. apply Hnin. apply (in_map fst) in H. exact H.
      * intros H. left. congruence.
    + rewrite <- (IH Hrest). split; [intros [H|H]; [congruence | exact H]|].
      intros H. right. exact H.
Qed.

(** X14.  The rows the liveness detector reads for a file are sorted
    by timestamp, strictly, whatever the order of the timestamps in the
    log, and hold exactly one row per timestamp of the alive history:
    the one with the status recorded last for that timestamp. *)
Theorem scat_timeline_sorted_last_status :
  forall (history : list (datetime * Z * string)),
    let rows := Timeline.scat_timeline history in
    StronglySorted Z.lt (map fst rows) /\
    forall ts status,
      In (ts, status) rows
      <-> last_status_for ts (map transition history) = Some status.
Proof.
  intros history rows. unfold rows, Timeline.scat_timeline.
  change (map (fun '(ts, status, _) => (ts, status)) history)
    with (map transition history).
  destruct (insert_batch_last_status_wins (map transition history))
    as [Hnd [Hlk _]].
  split; [apply order_by_timestamp_strict; exact Hnd|].
  intros ts status. rewrite order_by_timestamp_In, <- Hlk.
  apply lookup_In_pair. exact Hnd.
Qed.

(** ** The error-cascade detector *)

Section CascadeProperties.

Variable max_gap : Q.

Lemma total_errors_app (l1 l2 : list Cascade.ErrorCascadeData) :
  total_errors (l1 ++ l2) = (total_errors l1 + total_errors l2)%Z.
Proof.
  induction l1 as [|c l1 IH]; simpl; [reflexivity|]. rewrite IH. lia.
Qed.

Lemma finalize_count (c : Cascade.ErrorCascadeData) :
  Cascade.error_count (Cascade._finalize c) = Cascade.error_count c.
Proof. unfold Cascade._finalize. destruct (Cascade.end_time c); reflexivity. Qed.

Lemma recovered_count (c : Cascade.ErrorCascadeData) (e : LogEntry) :
  Cascade.error_count (Cascade.recovered c e) = Cascade.error_count c.
Proof.
  unfold Cascade.recovered.
  destruct (Str.contains "SCATAliveInt = 3" (message e)
            || Str.contains "Ready" (message e)); reflexivity.
Qed.

Lemma open_first_count (e : LogEntry) :
  Cascade.error_count (Cascade.open_first e) = 1%Z.
Proof.
  unfold Cascade.open_first.
  destruct (Re.search Cascade.ERROR_PATTERN (message e)); [reflexivity|].
  destruct (Re.search Cascade.PROCESS_FAILED (message e)); reflexivity.
Qed.

Lemma open_after_gap_count (e : LogEntry) :
  Cascade.error_count (Cascade.open_after_gap e) = 1%Z.
Proof.
  unfold Cascade.open_after_gap.
  destruct (Re.search Cascade.ERROR_PATTERN (message e)); reflexivity.
Qed.

(** The errors counted so far and in progress. *)
Let pending (dt : Cascade.detector) : Z :=
  match Cascade._current dt with
  | Some c => Cascade.error_count c
  | None => 0%Z
  end.

Lemma cascade_step_count (dt : Cascade.detector) (e : LogEntry) :
  (total_errors (fst (Cascade.step max_gap dt e))
   + pending (snd (Cascade.step max_gap dt e))
   = pending dt + (if error_like e then 1 else 0))%Z.
Proof.
  unfold Cascade.step, error_like, pending.
  destruct (Cascade.is_error (message e)).
  - destruct (Cascade._current dt) as [c|]; simpl.
    + destruct (Cascade._last_error_time dt) as [l|]; simpl.
      * destruct (Cascade.within_gap max_gap l (timestamp e)); simpl.
        -- lia.
        -- rewrite finalize_count, open_after_gap_count. lia.
      * rewrite finalize_count, open_after_gap_count. lia.
    + rewrite open_first_count. lia.
  - destruct (Cascade._current dt) as [c|] eqn:Ec; simpl; [|rewrite Ec; lia].
    destruct (Cascade._last_error_time dt) as [l|]; simpl; [|rewrite Ec; lia].
    destruct (Cascade.within_gap max_gap l (timestamp e)); simpl.
    + rewrite Ec. lia.
    + rewrite recovered_count, finalize_count. lia.
Qed.

Lemma cascade_run_count (entries : list LogEntry) (dt : Cascade.detector) :
  (total_errors (fst (Cascade.run_from max_gap dt entries))
   + pending (snd (Cascade.run_from max_gap dt entries))
   = pending dt + Z.of_nat (List.length (filter error_like entries)))%Z.
Proof.
  revert dt. induction entries as [|e entries IH]; intros dt.
  - simpl. lia.
  - cbn [Cascade.run_from filter].
    pose proof (cascade_step_count dt e) as Hs.
    destruct (Cascade.step max_gap dt e) as [out dt'].
    specialize (IH dt').
    destruct (Cascade.run_from max_gap dt' entries) as [outs final].
    cbn [fst snd] in *. rewrite total_errors_app.
    destruct (error_like e); cbn [List.length]; lia.
Qed.

Lemma open_first_open (e : LogEntry) : open_cascade (Cascade.open_first e).
Proof.
  unfold Cascade.open_first, open_cascade.
  destruct (Re.search Cascade.ERROR_PATTERN (message e));
    [|destruct (Re.search Cascade.PROCESS_FAILED (message e))];
    simpl; repeat split; auto; discriminate.
Qed.

Lemma open_after_gap_open (e : LogEntry) :
  open_cascade (Cascade.open_after_gap e).
Proof.
  unfold Cascade.open_after_gap, open_cascade.
  destruct (Re.search Cascade.ERROR_PATTERN (message e));
    simpl; repeat split; auto; discriminate.
Qed.

Lemma extended_open (c : Cascade.ErrorCascadeData) (e : LogEntry) :
  open_cascade c -> open_cascade (Cascade.extended c e).
Proof.
  intros [Hs [Hc [_ [_ [Hr Ht]]]]]. unfold open_cascade. simpl.
  split; [exact Hs|]. split; [lia|]. split; [intros H; lia|].
  split; [intros H; discriminate H|]. split; assumption.
Qed.

Lemma finalize_sound (c : Cascade.ErrorCascadeData) :
  open_cascade c -> sound_cascade (Cascade._finalize c).
Proof.
  intros [Hs [Hc [H1 [H2 [Hr Ht]]]]]. unfold sound_cascade, Cascade._finalize.
  destruct (Cascade.end_time c) as [en|] eqn:Ee; simpl.
  - rewrite Ee, Hr, Ht. split; [exact Hs|]. split; [discriminate|].
    split; [exact Hc|]. split; [intros H; specialize (H1 H); discriminate H1|].
    split; [discriminate | reflexivity].
  - rewrite Hr, Ht. split; [exact Hs|]. split; [exact Hs|].
    split; [exact Hc|]. split; [intros _; split; reflexivity|].
    split; [discriminate | reflexivity].
Qed.

Lemma recovered_sound (c : Cascade.ErrorCascadeData) (e : LogEntry) :
  sound_cascade c -> Cascade.recovery_achieved c = false ->
  sound_cascade (Cascade.recovered c e).
Proof.
  intros [Hs [He [Hc [H1 [H2 H3]]]]] Hr. unfold Cascade.recovered.
  destruct (Str.contains "SCATAliveInt = 3" (message e)
            || Str.contains "Ready" (message e));
    [|repeat split; auto; apply H1; assumption].
  unfold sound_cascade. simpl.
  split; [exact Hs|]. split; [exact He|]. split; [exact Hc|].
  split; [exact H1|]. split; [|discriminate].
  intros _. destruct (Cascade.end_time c); [discriminate|].
  contradiction He. reflexivity.
Qed.

Lemma finalize_not_recovered (c : Cascade.ErrorCascadeData) :
  Cascade.recovery_achieved (Cascade._finalize c) = Cascade.recovery_achieved c.
Proof. unfold Cascade._finalize. destruct (Cascade.end_time c); reflexivity. Qed.

Lemma cascade_step_sound (dt : Cascade.detector) (e : LogEntry) :
  (forall c, Cascade._current dt = Some c -> open_cascade c) ->
  Forall sound_cascade (fst (Cascade.step max_gap dt e)) /\
  (forall c, Cascade._current (snd (Cascade.step max_gap dt e)) = Some c ->
             open_cascade c).
Proof.
  intros Hcur. unfold Cascade.step.
  destruct (Cascade.is_error (message e)).
  - destruct (Cascade._current dt) as [c|] eqn:Ec.
    + specialize (Hcur c eq_refl).
      assert (Hsplit :
        Forall sound_cascade [Cascade._finalize c] /\
        (forall c', Some (Cascade.open_after_gap e) = Some c' -> open_cascade c')).
      { split; [constructor; [apply finalize_sound; exact Hcur | constructor]|].
        intros c' H. injection H as <-. apply open_after_gap_open. }
      destruct (Cascade._last_error_time dt) as [l|]; [|exact Hsplit].
      destruct (Cascade.within_gap max_gap l (timestamp e)); [|exact Hsplit].
      simpl. split; [constructor|].
      intros c' H. injection H as <-. apply extended_open. exact Hcur.
    + simpl. split; [constructor|].
      intros c' H. injection H as <-. apply open_first_open.
  - destruct (Cascade._current dt) as [c|] eqn:Ec;
      [|simpl; split; [constructor | rewrite Ec; intros c' H; discriminate H]].
    destruct (Cascade._last_error_time dt) as [l|];
      [|simpl; split; [constructor | rewrite Ec; exact Hcur]].
    destruct (Cascade.within_gap max_gap l (timestamp e)); simpl.
    + split; [constructor | rewrite Ec; exact Hcur].
    + split; [|intros c' H; discriminate H].
      constructor; [|constructor].
      specialize (Hcur c eq_refl).
      apply recovered_sound; [apply finalize_sound; exact Hcur|].
      rewrite finalize_not_recovered.
      destruct Hcur as [_ [_ [_ [_ [Hr _]]]]]. exact Hr.
Qed.

Lemma cascade_run_sound (entries : list LogEntry) (dt : Cascade.detector) :
  (forall c, Cascade._current dt = Some c -> open_cascade c) ->
  Forall sound_cascade (fst (Cascade.run_from max_gap dt entries)) /\
  (forall c, Cascade._current (snd (Cascade.run_from max_gap dt entries)) = Some c ->
             open_cascade c).
Proof.
  revert dt. induction entries as [|e entries IH]; intros dt Hcur.
  - simpl. split; [constructor | exact Hcur].
  - cbn [Cascade.run_from].
    destruct (cascade_step_sound dt e Hcur) as [Hout Hnext].
    destruct (Cascade.step max_gap dt e) as [out dt'].
    destruct (IH dt' Hnext) as [Houts Hfin].
    destruct (Cascade.run_from max_gap dt' entries) as [outs final].
    cbn [fst snd] in *. split; [|exact Hfin].
    apply Forall_app. split; assumption.
Qed.

End CascadeProperties.

(** X15.  Every error line is counted once: for every stream and gap,
    the error counts of the cascades yielded add up to the number of
    error-like entries of the stream; a stream without an error-like
    entry yields no cascade. *)
Theorem cascades_count_every_error_once :
  forall (max_gap : Q) (entries : list LogEntry),
    total_errors (Cascade.process_entries max_gap entries)
    = Z.of_nat (List.length (filter error_like entries)) /\
    (Forall (fun e => error_like e = false) entries ->
     Cascade.process_entries max_gap entries = []).
Proof.
  intros max_gap entries.
  assert (Hsum : total_errors (Cascade.process_entries max_gap entries)
                 = Z.of_nat (List.length (filter error_like entries))).
  { unfold Cascade.process_entries.
    pose proof (cascade_run_count max_gap entries Cascade.init) as H.
    destruct (Cascade.run_from max_gap Cascade.init entries) as [outs final].
    cbn [fst snd] in H. rewrite total_errors_app. unfold Cascade.flush.
    destruct (Cascade._current final) as [c|]; simpl in *.
    - rewrite finalize_count. lia.
    - lia. }
  split; [exact Hsum|].
  intros Hnone. rewrite (filter_none _ _ Hnone) in Hsum. simpl in Hsum.
  unfold Cascade.process_entries in *.
  destruct (cascade_run_sound max_gap entries Cascade.init) as [Hs Hf];
    [intros c H; discriminate H|].
  destruct (Cascade.run_from max_gap Cascade.init entries) as [outs final].
  cbn [fst snd] in *. rewrite total_errors_app in Hsum.
  assert (Hpos : forall l, Forall sound_cascade l ->
                   (0 <= total_errors l)%Z /\ (total_errors l = 0%Z -> l = [])).
  { induction 1 as [|c l Hc _ [IH1 IH2]]; simpl; [split; [lia | reflexivity]|].
    destruct Hc as [_ [_ [Hc _]]]. split; [lia|]. intros H. lia. }
  assert (Hflush : Forall sound_cascade (Cascade.flush final)).
  { unfold Cascade.flush. destruct (Cascade._current final) as [c|] eqn:Ec;
      [|constructor].
    constructor; [apply finalize_sound; apply Hf; reflexivity | constructor]. }
  destruct (Hpos outs Hs) as [P1 P2]. destruct (Hpos _ Hflush) as [P3 P4].
  rewrite P2 by lia. rewrite P4 by lia. reflexivity.
Qed.

Lemma cascades_count_witness :
  Cascade.process_entries 5
    [ entry_at 1 0 "SERIAL" "Serial In"; entry_at 2 1000000 "DLL-EX" "Ready" ]
  = [].
Proof.
  apply (proj2 (cascades_count_every_error_once 5
                  [ entry_at 1 0 "SERIAL" "Serial In";
                    entry_at 2 1000000 "DLL-EX" "Ready" ])).
  repeat constructor.
Defined.

(** X16.  Every cascade yielded, closed by a gap, by a later error or
    by the end of the stream, has a start and an end time and counts at
    least one error; a cascade of one error ends where it starts; and a
    cascade is marked recovered exactly when it carries a recovery
    time. *)
Theorem cascades_are_sound :
  forall (max_gap : Q) (entries : list LogEntry),
    Forall sound_cascade (Cascade.process_entries max_gap entries).
Proof.
  intros max_gap entries. unfold Cascade.process_entries.
  destruct (cascade_run_sound max_gap entries Cascade.init) as [Hs Hf];
    [intros c H; discriminate H|].
  destruct (Cascade.run_from max_gap Cascade.init entries) as [outs final].
  cbn [fst snd] in *. apply Forall_app. split; [exact Hs|].
  unfold Cascade.flush. destruct (Cascade._current final) as [c|] eqn:Ec;
    [|constructor].
  constructor; [apply finalize_sound; apply Hf; reflexivity | constructor].
Qed.

Section CascadeBursts.

Variable max_gap : Q.

(** Error lines that follow one another within the gap extend the
    cascade in progress and yield nothing. *)
Lemma cascade_run_chained (rest : list LogEntry) (c : Cascade.ErrorCascadeData)
      (prev : datetime) :
  Forall (fun e => error_like e = true) rest ->
  chained max_gap prev rest ->
  Cascade.run_from max_gap (Cascade.mkDetector (Some c) (Some prev)) rest
  = ([], Cascade.mkDetector (Some (fold_left Cascade.extended rest c))
                            (Some (last (map timestamp rest) prev))).
Proof.
  intros Herr. revert c prev.
  induction Herr as [|e rest He _ IH]; intros c prev Hch; [reflexivity|].
  destruct Hch as [Hgap Hch].
  cbn [Cascade.run_from]. unfold Cascade.step at 1. unfold error_like in He.
  rewrite He. cbn [Cascade._current Cascade._last_error_time]. rewrite Hgap.
  rewrite (IH (Cascade.extended c e) (timestamp e) Hch).
  cbn [map fold_left]. rewrite last_cons_default. reflexivity.
Qed.

Lemma extended_run_spans (rest : list LogEntry) (c : Cascade.ErrorCascadeData) :
  let c' := fold_left Cascade.extended rest c in
  Cascade.error_count c' = (Cascade.error_count c + Z.of_nat (List.length rest))%Z /\
  Cascade.start_line c' = Cascade.start_line c /\
  Cascade.start_time c' = Cascade.start_time c /\
  Cascade.recovery_achieved c' = Cascade.recovery_achieved c /\
  (rest <> [] ->
   forall d, Cascade.end_line c' = line_number (last rest d) /\
             Cascade.end_time c' = Some (timestamp (last rest d))).
Proof.
  revert c. induction rest as [|e rest IH]; intros c.
  - simpl. split; [lia|]. split; [reflexivity|]. split; [reflexivity|].
    split; [reflexivity|]. intros H. contradiction H. reflexivity.
  - cbn [fold_left]. destruct (IH (Cascade.extended c e)) as [H1 [H2 [H3 [H4 H5]]]].
    cbv zeta in *. rewrite H1, H2, H3, H4. cbn [Cascade.extended
      Cascade.error_count Cascade.start_line Cascade.start_time
      Cascade.recovery_achieved List.length].
    split; [lia|]. split; [reflexivity|]. split; [reflexivity|].
    split; [reflexivity|]. intros _ d.
    destruct rest as [|e' rest'].
    + simpl. split; reflexivity.
    + rewrite last_cons_default.
      destruct (H5 ltac:(discriminate) e) as [H6 H7].
      rewrite H6, H7. split; reflexivity.
Qed.

(** The cascade a burst leaves once it is finished. *)
Lemma burst_spans (c0 : Cascade.ErrorCascadeData) (e : LogEntry)
      (rest : list LogEntry) :
  Cascade.error_count c0 = 1%Z -> Cascade.start_line c0 = line_number e ->
  Cascade.start_time c0 = Some (timestamp e) -> Cascade.end_time c0 = None ->
  Cascade.recovery_achieved c0 = false ->
  spans (Cascade._finalize (fold_left Cascade.extended rest c0))
        (S (List.length rest)) e (last_entry e rest).
Proof.
  intros Hc Hl Hs He Hr.
  destruct (extended_run_spans rest c0) as [H1 [H2 [H3 [H4 H5]]]].
  cbv zeta in *. unfold spans, last_entry.
  destruct rest as [|e' rest'].
  - simpl. unfold Cascade._finalize. rewrite He. simpl.
    rewrite Hc, Hl, Hs, Hr. repeat split.
  - destruct (H5 ltac:(discriminate) e) as [H6 H7].
    unfold Cascade._finalize. rewrite H7.
    rewrite H1, H2, H3, H4, H6, Hc, Hl, Hs, Hr.
    repeat split; [lia | exact H7].
Qed.

Lemma open_first_fields (e : LogEntry) :
  let c := Cascade.open_first e in
  Cascade.error_count c = 1%Z /\ Cascade.start_line c = line_number e /\
  Cascade.start_time c = Some (timestamp e) /\ Cascade.end_time c = None /\
  Cascade.recovery_achieved c = false.
Proof.
  unfold Cascade.open_first.
  destruct (Re.search Cascade.ERROR_PATTERN (message e));
    [|destruct (Re.search Cascade.PROCESS_FAILED (message e))];
    simpl; repeat split.
Qed.

Lemma open_after_gap_fields (e : LogEntry) :
  let c := Cascade.open_after_gap e in
  Cascade.error_count c = 1%Z /\ Cascade.start_line c = line_number e /\
  Cascade.start_time c = Some (timestamp e) /\ Cascade.end_time c = None /\
  Cascade.recovery_achieved c = false.
Proof.
  unfold Cascade.open_after_gap.
  destruct (Re.search Cascade.ERROR_PATTERN (message e)); simpl; repeat split.
Qed.

End CascadeBursts.

(** X17.  Bursts and gaps.  Error lines that follow one another within
    [max_gap] make one cascade, from the first line to the last, with
    one count per line.  And when a second such burst starts more than
    [max_gap] after the last line of the first, the stream yields two
    cascades, one per burst. *)
Theorem cascade_bursts_split_at_gap :
  forall (max_gap : Q) (e1 : LogEntry) (rest1 : list LogEntry),
    error_like e1 = true ->
    Forall (fun e => error_like e = true) rest1 ->
    chained max_gap (timestamp e1) rest1 ->
    (exists c,
       Cascade.process_entries max_gap (e1 :: rest1) = [c] /\
       spans c (S (List.length rest1)) e1 (last_entry e1 rest1)) /\
    (forall (e2 : LogEntry) (rest2 : list LogEntry),
       error_like e2 = true ->
       Forall (fun e => error_like e = true) rest2 ->
       chained max_gap (timestamp e2) rest2 ->
       Cascade.within_gap max_gap (timestamp (last_entry e1 rest1)) (timestamp e2)
       = false ->
       exists c1 c2,
         Cascade.process_entries max_gap ((e1 :: rest1) ++ e2 :: rest2) = [c1; c2] /\
         spans c1 (S (List.length rest1)) e1 (last_entry e1 rest1) /\
         spans c2 (S (List.length rest2)) e2 (last_entry e2 rest2)).
Proof.
  intros max_gap e1 rest1 He1 Hr1 Hc1.
  assert (Hrun1 : Cascade.run_from max_gap Cascade.init (e1 :: rest1)
                  = ([], Cascade.mkDetector
                           (Some (fold_left Cascade.extended rest1
                                            (Cascade.open_first e1)))
                           (Some (timestamp (last_entry e1 rest1))))).
  { cbn [Cascade.run_from]. unfold Cascade.step at 1. unfold error_like in He1.
    rewrite He1. cbn [Cascade._current Cascade.init].
    rewrite (cascade_run_chained max_gap rest1 _ _ Hr1 Hc1).
    unfold last_entry. cbn [app]. f_equal. f_equal. f_equal.
    clear. generalize e1 as d. induction rest1 as [|x l IH]; intros d;
      [reflexivity|].
    cbn [map]. rewrite !last_cons_default. apply IH. }
  destruct (open_first_fields e1) as [A1 [A2 [A3 [A4 A5]]]]. cbv zeta in *.
  pose proof (burst_spans _ e1 rest1 A1 A2 A3 A4 A5) as Hspan1.
  split.
  - eexists. split; [|exact Hspan1].
    unfold Cascade.process_entries. rewrite Hrun1. reflexivity.
  - intros e2 rest2 He2 Hr2 Hc2 Hgap.
    destruct (open_after_gap_fields e2) as [B1 [B2 [B3 [B4 B5]]]]. cbv zeta in *.
    pose proof (burst_spans _ e2 rest2 B1 B2 B3 B4 B5) as Hspan2.
    eexists. eexists. split; [|split; [exact Hspan1 | exact Hspan2]].
    unfold Cascade.process_entries.
    assert (Happ : forall l1 l2 dt,
              Cascade.run_from max_gap dt (l1 ++ l2)
              = let '(o1, d1) := Cascade.run_from max_gap dt l1 in
                let '(o2, d2) := Cascade.run_from max_gap d1 l2 in
                (o1 ++ o2, d2)).
    { induction l1 as [|x l1 IH]; intros l2 dt; cbn [app Cascade.run_from].
      - destruct (Cascade.run_from max_gap dt l2); reflexivity.
      - destruct (Cascade.step max_gap dt x) as [o d]. rewrite IH.
        destruct (Cascade.run_from max_gap d l1) as [o1 d1].
        destruct (Cascade.run_from max_gap d1 l2) as [o2 d2].
        rewrite app_assoc. reflexivity. }
    rewrite Happ, Hrun1. cbn [Cascade.run_from]. unfold Cascade.step at 1.
    unfold error_like in He2. rewrite He2.
    cbn [Cascade._current Cascade._last_error_time]. rewrite Hgap.
    rewrite (cascade_run_chained max_gap rest2 _ _ Hr2 Hc2).
    reflexivity.
Qed.

Lemma cascade_bursts_witness :
  exists c1 c2,
    Cascade.process_entries 5
      [ entry_at 1 0 "SERIAL" "****ERROR: Error A";
        entry_at 2 1000000 "SERIAL" "****ERROR: Error A";
        entry_at 3 20000000 "SERIAL" "****ERROR: Error B";
        entry_at 4 21000000 "SERIAL" "****ERROR: Error B" ]
    = [c1; c2] /\
    Cascade.error_count c1 = 2%Z /\ Cascade.error_count c2 = 2%Z.
Proof.
  destruct (cascade_bursts_split_at_gap 5
              (entry_at 1 0 "SERIAL" "****ERROR: Error A")
              [entry_at 2 1000000 "SERIAL" "****ERROR: Error A"])
    as [_ H].
  - vm_compute. reflexivity.
  - repeat constructor.
  - vm_compute. auto.
  - destruct (H (entry_at 3 20000000 "SERIAL" "****ERROR: Error B")
                [entry_at 4 21000000 "SERIAL" "****ERROR: Error B"])
      as [c1 [c2 [Hout [[Hc1 _] [Hc2 _]]]]].
    + vm_compute. reflexivity.
    + repeat constructor.
    + vm_compute. auto.
    + vm_compute. reflexivity.
    + exists c1, c2. split; [exact Hout|]. split; [exact Hc1 | exact Hc2].
Defined.

(** ** The transaction segmenter on whole streams *)

Section SegmenterProperties.

Import Segmenter.

(** X18.  Transactions come out at boundaries only: an entry makes
    [_process_entry] return a transaction only if it carries a
    begin-order marker, an end-order marker, or a reset/clear-end marker
    while the response code is set; and a stream in which no entry
    starts a transaction yields none, not even at the end. *)
Theorem segmenter_emits_only_at_boundaries :
  (forall seg e seg' t,
     _process_entry seg e = Returned (seg', Some t) ->
     is_some (Re.search begin_order (message e)) = true \/
     is_some (Re.search end_order (message e)) = true \/
     (is_some (Re.search reset_clear_end (message e)) = true /\
      Txn.response_code t <> "")) /\
  (forall entries,
     Forall (fun e => start_signal e = false) entries ->
     process_entries entries = ([], None)).
Proof.
  split.
  - intros seg e seg' t H. unfold _process_entry in H.
    destruct (is_some (Re.search begin_order (message e))); [left; reflexivity|].
    right.
    destruct (_current (if state_eqb (_state seg) IDLE
                           && is_some (Re.search tender_type_set (message e))
                           && String.eqb (category e) "DLL-EX"
                        then _start_new e else seg)) as [t0|];
      [|discriminate H].
    unfold in_progress in H.
    destruct (on_se_recv e _) as [st|x]; [|discriminate H].
    cbn [bind] in H.
    destruct (is_some (Re.search end_order (message e))); [left; reflexivity|].
    right.
    destruct (is_some (Re.search reset_clear_end (message e))); cbn [andb] in H;
      [|discriminate H].
    destruct (nonempty (Txn.response_code
                          (on_host_response e (on_response_code e (snd st)))))
      eqn:En; [|discriminate H].
    injection H as _ <-. split; [reflexivity|].
    cbn [_finalize_current]. intros Hempty.
    unfold nonempty in En.
    replace (Txn.response_code
               (Txn.set_end_time (Some (timestamp e))
                  (Txn.set_end_line (line_number e)
                     (on_host_response e (on_response_code e (snd st))))))
      with (Txn.response_code (on_host_response e (on_response_code e (snd st))))
      in Hempty by reflexivity.
    rewrite Hempty in En. discriminate En.
  - intros entries Hnone. unfold process_entries.
    induction Hnone as [|e entries He _ IH]; [reflexivity|].
    cbn [process_from].
    assert (Hstep : _process_entry init e = Returned (init, None)).
    { unfold start_signal in He. apply orb_false_elim in He.
      destruct He as [Hb Ht]. unfold _process_entry. rewrite Hb.
      cbn [_state init state_eqb andb]. rewrite Ht. reflexivity. }
    rewrite Hstep, IH. reflexivity.
Qed.

Lemma segmenter_boundaries_witness :
  process_entries
    [ entry_at 1 0 "SERIAL" "Serial In";
      entry_at 2 1000000 "TCP/IP" "ResponseCode = AA";
      entry_at 3 2000000 "DLL-EX" "MTX_POS_EndOrder" ]
  = ([], None).
Proof.
  apply (proj2 segmenter_emits_only_at_boundaries).
  repeat constructor.
Defined.

Lemma nonempty_true (s : string) : s <> "" -> nonempty s = true.
Proof.
  intros H. unfold nonempty. destruct (String.eqb_spec s ""); [contradiction|].
  reflexivity.
Qed.

Lemma send_assign_guards (f : send_field) (val : string) (t : Txn.TransactionData) :
  (Txn.entry_method t <> "" ->
   Txn.entry_method (send_assign f val t) = Txn.entry_method t) /\
  (Txn.aid t <> "" -> Txn.aid (send_assign f val t) = Txn.aid t) /\
  (Txn.app_label t <> "" ->
   Txn.app_label (send_assign f val t) = Txn.app_label t) /\
  (Txn.tvr t <> "" -> Txn.tvr (send_assign f val t) = Txn.tvr t) /\
  (Txn.tac_sequence t <> "" ->
   Txn.tac_sequence (send_assign f val t) = Txn.tac_sequence t) /\
  (Txn.card_type t <> "" ->
   Txn.card_type (send_assign f val t) = Txn.card_type t) /\
  (Txn.amount_cents t <> 0%Z ->
   Txn.amount_cents (send_assign f val t) = Txn.amount_cents t).
Proof.
  repeat match goal with |- _ /\ _ => split end; intros H;
    try (apply nonempty_true in H);
    destruct f; cbn [send_assign];
    try rewrite H; cbn [negb];
    repeat match goal with
           | |- context [if ?x then _ else _] => destruct x eqn:?
           end;
    try reflexivity.
  all: lia.
Qed.

(** X19.  The payload of the outbound marker fills gaps only: entry
    method, AID, app label, TVR, TAC sequence and card type that are
    already set, and an amount that is not 0, come out of
    [_extract_se_send_fields] as they went in, whatever the payload. *)
Theorem send_payload_fills_gaps_only :
  forall (msg : string) (t : Txn.TransactionData),
    (Txn.entry_method t <> "" ->
     Txn.entry_method (_extract_se_send_fields msg t) = Txn.entry_method t) /\
    (Txn.aid t <> "" -> Txn.aid (_extract_se_send_fields msg t) = Txn.aid t) /\
    (Txn.app_label t <> "" ->
     Txn.app_label (_extract_se_send_fields msg t) = Txn.app_label t) /\
    (Txn.tvr t <> "" -> Txn.tvr (_extract_se_send_fields msg t) = Txn.tvr t) /\
    (Txn.tac_sequence t <> "" ->
     Txn.tac_sequence (_extract_se_send_fields msg t) = Txn.tac_sequence t) /\
    (Txn.card_type t <> "" ->
     Txn.card_type (_extract_se_send_fields msg t) = Txn.card_type t) /\
    (Txn.amount_cents t <> 0%Z ->
     Txn.amount_cents (_extract_se_send_fields msg t) = Txn.amount_cents t).
Proof.
  intros msg. unfold _extract_se_send_fields.
  generalize SE_SEND_FIELD_PATTERNS. intros l.
  induction l as [|[f pattern] l IH]; intros t.
  - simpl. repeat split; reflexivity.
  - cbn [fold_left].
    set (t1 := match Re.search pattern msg with
               | Some m => send_assign f (g 1 m) t
               | None => t
               end).
    assert (Hstep :
      (Txn.entry_method t <> "" -> Txn.entry_method t1 = Txn.entry_method t) /\
      (Txn.aid t <> "" -> Txn.aid t1 = Txn.aid t) /\
      (Txn.app_label t <> "" -> Txn.app_label t1 = Txn.app_label t) /\
      (Txn.tvr t <> "" -> Txn.tvr t1 = Txn.tvr t) /\
      (Txn.tac_sequence t <> "" -> Txn.tac_sequence t1 = Txn.tac_sequence t) /\
      (Txn.card_type t <> "" -> Txn.card_type t1 = Txn.card_type t) /\
      (Txn.amount_cents t <> 0%Z -> Txn.amount_cents t1 = Txn.amount_cents t)).
    { unfold t1. destruct (Re.search pattern msg) as [m|].
      - apply send_assign_guards.
      - repeat split; reflexivity. }
    destruct Hstep as [S1 [S2 [S3 [S4 [S5 [S6 S7]]]]]].
    destruct (IH t1) as [I1 [I2 [I3 [I4 [I5 [I6 I7]]]]]].
    repeat match goal with |- _ /\ _ => split end; intros H.
    + rewrite <- (S1 H). apply I1. rewrite (S1 H). exact H.
    + rewrite <- (S2 H). apply I2. rewrite (S2 H). exact H.
    + rewrite <- (S3 H). apply I3. rewrite (S3 H). exact H.
    + rewrite <- (S4 H). apply I4. rewrite (S4 H). exact H.
    + rewrite <- (S5 H). apply I5. rewrite (S5 H). exact H.
    + rewrite <- (S6 H). apply I6. rewrite (S6 H). exact H.
    + rewrite <- (S7 H). apply I7. rewrite (S7 H). exact H.
Qed.

Lemma send_payload_witness :
  Txn.card_type
    (_extract_se_send_fields
       "SE_SEND(TimeOutSecs 30) [60 bytes] URL[https://trn2.servereps.com/sCAT2] Aa145714 Ab1 Ae9218 BnDB Da5000 Bp1234 BfE"
       (Txn.set_card_type "Credit" fresh_txn))
  = "Credit".
Proof.
  apply (proj1 (proj2 (proj2 (proj2 (proj2 (proj2
           (send_payload_fills_gaps_only
              "SE_SEND(TimeOutSecs 30) [60 bytes] URL[https://trn2.servereps.com/sCAT2] Aa145714 Ab1 Ae9218 BnDB Da5000 Bp1234 BfE"
              (Txn.set_card_type "Credit" fresh_txn)))))))).
  discriminate.
Defined.

End SegmenterProperties.

(** ** Where a transaction starts and ends *)

Section SegmenterBounds.

Import Segmenter.

Lemma same_start_refl (t : Txn.TransactionData) : same_start t t.
Proof. split; reflexivity. Qed.

Lemma same_start_trans (a b c : Txn.TransactionData) :
  same_start a b -> same_start b c -> same_start a c.
Proof.
  intros [H1 H2] [H3 H4]. split; [rewrite H3 | rewrite H4]; assumption.
Qed.

Ltac branches :=
  repeat match goal with
         | |- context [match ?c with _ => _ end] => destruct c
         end.

Lemma x_card_entry_start (e : LogEntry) (t : Txn.TransactionData) :
  same_start t (x_card_entry e t).
Proof. unfold x_card_entry. branches; split; reflexivity. Qed.

Lemma x_aid_start (e : LogEntry) (t : Txn.TransactionData) :
  same_start t (x_aid e t).
Proof. unfold x_aid. branches; split; reflexivity. Qed.

Lemma x_app_label_start (e : LogEntry) (t : Txn.TransactionData) :
  same_start t (x_app_label e t).
Proof. unfold x_app_label. branches; split; reflexivity. Qed.

Lemma x_cvm_result_start (e : LogEntry) (t : Txn.TransactionData) :
  same_start t (x_cvm_result e t).
Proof. unfold x_cvm_result. branches; split; reflexivity. Qed.

Lemma x_tvr_start (e : LogEntry) (t : Txn.TransactionData) :
  same_start t (x_tvr e t).
Proof. unfold x_tvr. branches; split; reflexivity. Qed.

Lemma x_cmd_sequence_start (e : LogEntry) (t : Txn.TransactionData) :
  same_start t (x_cmd_sequence e t).
Proof. unfold x_cmd_sequence. branches; split; reflexivity. Qed.

Lemma x_quickchip_start (e : LogEntry) (t : Txn.TransactionData) :
  same_start t (x_quickchip e t).
Proof. unfold x_quickchip. branches; split; reflexivity. Qed.

Lemma x_auth_number_start (e : LogEntry) (t : Txn.TransactionData) :
  same_start t (x_auth_number e t).
Proof. unfold x_auth_number. branches; split; reflexivity. Qed.

Lemma x_tender_type_start (e : LogEntry) (t : Txn.TransactionData) :
  same_start t (x_tender_type e t).
Proof. unfold x_tender_type. branches; split; reflexivity. Qed.

Lemma extract_fields_start (e : LogEntry) (t : Txn.TransactionData) :
  same_start t (_extract_fields e t).
Proof.
  unfold _extract_fields.
  eapply same_start_trans; [|apply x_tender_type_start].
  eapply same_start_trans; [|apply x_auth_number_start].
  eapply same_start_trans; [|apply x_quickchip_start].
  eapply same_start_trans; [|apply x_cmd_sequence_start].
  eapply same_start_trans; [|apply x_tvr_start].
  eapply same_start_trans; [|apply x_cvm_result_start].
  eapply same_start_trans; [|apply x_app_label_start].
  eapply same_start_trans; [|apply x_aid_start].
  apply x_card_entry_start.
Qed.

Lemma send_fields_start (msg : string) (t : Txn.TransactionData) :
  same_start t (_extract_se_send_fields msg t).
Proof.
  unfold _extract_se_send_fields. generalize SE_SEND_FIELD_PATTERNS.
  intros l. revert t.
  induction l as [|[f pattern] l IH]; intros t; [apply same_start_refl|].
  cbn [fold_left]. eapply same_start_trans; [|apply IH].
  destruct (Re.search pattern msg); [|apply same_start_refl].
  destruct f; cbn [send_assign]; branches; split; reflexivity.
Qed.

Lemma recv_fields_start (msg : string) (t : Txn.TransactionData) :
  same_start t (_extract_se_recv_fields msg t).
Proof.
  unfold _extract_se_recv_fields. generalize SE_RECV_FIELD_PATTERNS.
  intros l. revert t.
  induction l as [|[f pattern] l IH]; intros t; [apply same_start_refl|].
  cbn [fold_left]. eapply same_start_trans; [|apply IH].
  destruct (Re.search pattern msg); [|apply same_start_refl].
  destruct f; cbn [recv_assign]; branches; split; reflexivity.
Qed.

Lemma on_se_send_start (e : LogEntry) (st : TransactionState * Txn.TransactionData) :
  same_start (snd st) (snd (on_se_send e st)).
Proof.
  unfold on_se_send.
  destruct (Re.search se_send (message e)); [|apply same_start_refl].
  destruct (String.eqb (category e) "SVREPS"); [|apply same_start_refl].
  cbn [snd]. eapply same_start_trans; [|apply send_fields_start].
  split; reflexivity.
Qed.

Lemma on_se_recv_start (e : LogEntry) (st st' : TransactionState * Txn.TransactionData) :
  on_se_recv e st = Returned st' -> same_start (snd st) (snd st').
Proof.
  unfold on_se_recv.
  destruct (Re.search se_recv (message e));
    [|intros H; injection H as <-; apply same_start_refl].
  destruct (String.eqb (category e) "SVREPS");
    [|intros H; injection H as <-; apply same_start_refl].
  destruct (Str.py_float _); cbn [or_value_error bind]; [|discriminate].
  intros H; injection H as <-. cbn [snd].
  eapply same_start_trans; [|apply recv_fields_start].
  split; reflexivity.
Qed.

Lemma responses_start (e : LogEntry) (t : Txn.TransactionData) :
  same_start t (on_host_response e (on_response_code e t)).
Proof.
  unfold on_host_response, on_response_code. branches; split; reflexivity.
Qed.

Lemma counters_start (e : LogEntry) (t : Txn.TransactionData) :
  same_start t (on_scat_state e (on_send_ack_fail e t)).
Proof.
  unfold on_scat_state, on_send_ack_fail. branches; split; reflexivity.
Qed.

Lemma finalize_bounds (e : LogEntry) (t : Txn.TransactionData) :
  same_start t (_finalize_current (Some e) t) /\
  Txn.end_line (_finalize_current (Some e) t) = line_number e /\
  Txn.end_time (_finalize_current (Some e) t) = Some (timestamp e).
Proof. repeat split. Qed.

Lemma in_progress_bounds (state : TransactionState) (t : Txn.TransactionData)
      (buffer : list LogEntry) (e : LogEntry)
      (seg' : segmenter) (r : option Txn.TransactionData) :
  in_progress state t buffer e = Returned (seg', r) ->
  (forall t', r = Some t' ->
     same_start t t' /\ Txn.end_line t' = line_number e /\
     Txn.end_time t' = Some (timestamp e)) /\
  (forall t', _current seg' = Some t' ->
     same_start t t' /\ _entries_buffer seg' = buffer ++ [e]).
Proof.
  unfold in_progress. intros H.
  destruct (on_se_recv e _) as [st|x] eqn:Er; [|discriminate H].
  cbn [bind] in H.
  assert (Hs : same_start t (on_host_response e (on_response_code e (snd st)))).
  { eapply same_start_trans; [|apply responses_start].
    eapply same_start_trans; [|apply (on_se_recv_start _ _ _ Er)].
    eapply same_start_trans; [|apply on_se_send_start].
    cbn [snd]. eapply same_start_trans; [|apply extract_fields_start].
    split; reflexivity. }
  set (t1 := on_host_response e (on_response_code e (snd st))) in *.
  assert (Hf : forall t', Some (_finalize_current (Some e) t1) = Some t' ->
                 same_start t t' /\ Txn.end_line t' = line_number e /\
                 Txn.end_time t' = Some (timestamp e)).
  { intros t' Ht'. injection Ht' as <-.
    destruct (finalize_bounds e t1) as [F1 [F2 F3]].
    split; [eapply same_start_trans; eassumption|]. split; assumption. }
  destruct (is_some (Re.search end_order (message e))).
  { injection H as <- <-. split; [exact Hf|]. intros t' Ht'. discriminate Ht'. }
  destruct (is_some (Re.search reset_clear_end (message e)) && nonempty (Txn.response_code t1)).
  { injection H as <- <-. split; [exact Hf|]. intros t' Ht'. discriminate Ht'. }
  injection H as <- <-. split; [intros t' Ht'; discriminate Ht'|].
  intros t' Ht'. cbn [_current] in Ht'. injection Ht' as <-.
  split; [|reflexivity].
  eapply same_start_trans; [exact Hs|apply counters_start].
Qed.

Lemma nth_error_snoc {A : Type} (l : list A) (x : A) :
  nth_error (l ++ [x]) (List.length l) = Some x.
Proof.
  rewrite nth_error_app2 by lia. rewrite Nat.sub_diag. reflexivity.
Qed.

Lemma nth_error_app_left {A : Type} (l l' : list A) (i : nat) (x : A) :
  nth_error l i = Some x -> nth_error (l ++ l') i = Some x.
Proof.
  intros H. rewrite nth_error_app1; [exact H|].
  apply nth_error_Some. rewrite H. discriminate.
Qed.

Lemma started_in_start_new (seen : list LogEntry) (e : LogEntry) :
  started_in (seen ++ [e]) (_start_new e).
Proof.
  intros t Ht. cbn [_start_new _current] in Ht. injection Ht as <-.
  split.
  - exists (List.length seen), e. split; [apply nth_error_snoc|].
    split; reflexivity.
  - cbn [_start_new _entries_buffer]. rewrite last_opt_snoc. reflexivity.
Qed.

(** One entry: the segmenter stays as described, and a transaction that
    is returned started at an entry seen before or at this one and ends
    at this one. *)
Lemma process_entry_bounds (seen rest : list LogEntry) (seg seg' : segmenter)
      (e : LogEntry) (r : option Txn.TransactionData) :
  started_in seen seg ->
  _process_entry seg e = Returned (seg', r) ->
  started_in (seen ++ [e]) seg' /\
  (forall t, r = Some t -> bounded_by (seen ++ e :: rest) t).
Proof.
  intros Inv H.
  assert (Hemit : forall t0 t,
            (exists (i : nat) (first : LogEntry),
                nth_error (seen ++ [e]) i = Some first /\
                Txn.start_line t0 = line_number first /\
                Txn.start_time t0 = Some (timestamp first)) ->
            same_start t0 t -> Txn.end_line t = line_number e ->
            Txn.end_time t = Some (timestamp e) ->
            bounded_by (seen ++ e :: rest) t).
  { intros t0 t [i [first [Hi [Hl Ht]]]] [S1 S2] E1 E2.
    exists i, (List.length seen), first, e.
    assert (Hlt : (i < List.length (seen ++ [e]))%nat)
      by (apply nth_error_Some; rewrite Hi; discriminate).
    rewrite length_app in Hlt. cbn [List.length] in Hlt.
    replace (seen ++ e :: rest) with ((seen ++ [e]) ++ rest)
      by (rewrite <- app_assoc; reflexivity).
    split; [lia|].
    split; [apply nth_error_app_left; exact Hi|].
    split; [apply nth_error_app_left; apply nth_error_snoc|].
    split; [rewrite S1; exact Hl|].
    split; [rewrite S2; exact Ht|].
    split; assumption. }
  assert (Hweak : forall t0,
            (exists (i : nat) (first : LogEntry),
                nth_error seen i = Some first /\
                Txn.start_line t0 = line_number first /\
                Txn.start_time t0 = Some (timestamp first)) ->
            exists (i : nat) (first : LogEntry),
                nth_error (seen ++ [e]) i = Some first /\
                Txn.start_line t0 = line_number first /\
                Txn.start_time t0 = Some (timestamp first)).
  { intros t0 [i [first [Hi Hr]]]. exists i, first.
    split; [apply nth_error_app_left; exact Hi|exact Hr]. }
  unfold _process_entry in H.
  destruct (is_some (Re.search begin_order (message e))).
  - injection H as <- <-. split; [apply started_in_start_new|].
    intros t Ht. destruct (_current seg) as [t0|] eqn:Ec; [|discriminate Ht].
    destruct (is_some (Txn.start_time t0)); [|discriminate Ht].
    injection Ht as <-.
    destruct (Inv t0 Ec) as [Hstart _].
    destruct (finalize_bounds e t0) as [F1 [F2 F3]].
    eapply Hemit; eauto.
  - set (seg0 := if state_eqb (_state seg) IDLE
                    && is_some (Re.search tender_type_set (message e))
                    && String.eqb (category e) "DLL-EX"
                 then _start_new e else seg) in *.
    assert (Inv0 : forall t0, _current seg0 = Some t0 ->
              exists (i : nat) (first : LogEntry),
                nth_error (seen ++ [e]) i = Some first /\
                Txn.start_line t0 = line_number first /\
                Txn.start_time t0 = Some (timestamp first)).
    { intros t0 Ht0. unfold seg0 in Ht0.
      destruct (state_eqb (_state seg) IDLE
                && is_some (Re.search tender_type_set (message e))
                && String.eqb (category e) "DLL-EX").
      - apply (started_in_start_new seen e t0 Ht0).
      - apply Hweak. apply (Inv t0 Ht0). }
    destruct (_current seg0) as [t0|] eqn:Ec.
    + destruct (in_progress_bounds _ _ _ _ _ _ H) as [Hr Hc].
      split.
      * intros t Ht. destruct (Hc t Ht) as [[S1 S2] Hb]. split.
        -- destruct (Inv0 t0 eq_refl) as [i [first [Hi [Hl Hs]]]].
           exists i, first. split; [exact Hi|].
           split; [rewrite S1; exact Hl | rewrite S2; exact Hs].
        -- rewrite Hb. rewrite !last_opt_snoc. reflexivity.
      * intros t Ht. destruct (Hr t Ht) as [Hs [E1 E2]].
        eapply Hemit; eauto.
    + injection H as <- <-. split; [|intros t Ht; discriminate Ht].
      intros t Ht. rewrite Ec in Ht. discriminate Ht.
Qed.

Lemma flush_bounds (seen : list LogEntry) (seg : segmenter) (t : Txn.TransactionData) :
  started_in seen seg -> In t (flush seg) -> bounded_by seen t.
Proof.
  intros Inv Hin. unfold flush in Hin.
  destruct (_current seg) as [t0|] eqn:Ec; [|destruct Hin].
  destruct (is_some (Txn.start_time t0)); [|destruct Hin].
  destruct Hin as [<-|[]].
  destruct (Inv t0 Ec) as [[i [first [Hi [Hl Hs]]]] Hb].
  rewrite Hb.
  assert (Hlt : (i < List.length seen)%nat)
    by (apply nth_error_Some; rewrite Hi; discriminate).
  destruct (Py.last_opt seen) as [last|] eqn:El.
  - destruct (last_opt_inv _ _ El) as [h Hh].
    destruct (finalize_bounds last t0) as [[S1 S2] [E1 E2]].
    exists i, (List.length h), first, last.
    rewrite Hh in Hlt. rewrite length_app in Hlt. cbn [List.length] in Hlt.
    split; [lia|]. split; [exact Hi|].
    split; [rewrite Hh; apply nth_error_snoc|].
    split; [rewrite S1; exact Hl|].
    split; [rewrite S2; exact Hs|].
    split; assumption.
  - unfold Py.last_opt in El. destruct (rev seen) eqn:Er; [|discriminate El].
    apply (f_equal (@List.length _)) in Er. rewrite length_rev in Er.
    cbn [List.length] in Er. lia.
Qed.

Lemma process_from_bounds (rest seen : list LogEntry) (seg : segmenter)
      (t : Txn.TransactionData) :
  started_in seen seg ->
  In t (fst (process_from seg rest)) ->
  bounded_by (seen ++ rest) t.
Proof.
  revert seen seg. induction rest as [|e rest IH]; intros seen seg Inv Hin.
  - rewrite app_nil_r. cbn [process_from fst] in Hin.
    apply (flush_bounds _ _ _ Inv Hin).
  - cbn [process_from] in Hin.
    destruct (_process_entry seg e) as [[seg' r]|x] eqn:Ep; [|destruct Hin].
    destruct (process_entry_bounds seen rest _ _ _ _ Inv Ep) as [Inv' Hr].
    specialize (IH (seen ++ [e]) seg' Inv').
    rewrite <- app_assoc in IH. cbn [app] in IH.
    destruct (process_from seg' rest) as [out err]. cbn [fst] in *.
    destruct r as [t'|].
    + destruct Hin as [<-|Hin]; [apply Hr; reflexivity|apply IH; exact Hin].
    + apply IH; exact Hin.
Qed.

End SegmenterBounds.

(** X20.  Every transaction [process_entries] yields runs from one
    entry of the stream to the same or a later one: its start line and
    start time are those of an entry of the stream, and its end line and
    end time are set and are those of an entry at or after that one. *)
Theorem transactions_are_bounded_by_entries :
  forall (entries : list LogEntry) (t : Txn.TransactionData),
    In t (fst (Segmenter.process_entries entries)) ->
    bounded_by entries t.
Proof.
  intros entries t Hin.
  apply (process_from_bounds entries [] Segmenter.init t); [|exact Hin].
  intros t0 Ht0. discriminate Ht0.
Qed.

Lemma transactions_bounded_witness :
  bounded_by
    [ entry_at 1 0 "DLL-EX" "MTX_POS_BeginOrder";
      entry_at 2 1000000 "TCP/IP" "ResponseCode = AA";
      entry_at 3 2000000 "DLL-EX" "MTX_POS_EndOrder" ]
    (nth 0 (fst (Segmenter.process_entries
                   [ entry_at 1 0 "DLL-EX" "MTX_POS_BeginOrder";
                     entry_at 2 1000000 "TCP/IP" "ResponseCode = AA";
                     entry_at 3 2000000 "DLL-EX" "MTX_POS_EndOrder" ]))
         fresh_txn).
Proof.
  apply transactions_are_bounded_by_entries.
  vm_compute. left. reflexivity.
Defined.

(** ** The inbound host-exchange marker *)




(** X22.  An inbound marker on SVREPS whose seconds are no number ends
    the run: on an entry without a begin-order marker whose elapsed
    seconds [float] rejects, [_process_entry] raises [ValueError]
    exactly when a transaction is in progress, and [process_entries]
    then ends with that exception. *)
Theorem malformed_seconds_raise_in_progress :
  forall (seg : Segmenter.segmenter) (e : LogEntry),
    Segmenter.is_some (Re.search Segmenter.begin_order (message e)) = false ->
    bad_seconds e = true ->
    (Segmenter._process_entry seg e = Raised ValueError <->
     Segmenter._current seg <> None) /\
    (Segmenter._current seg <> None ->
     forall rest, Segmenter.process_from seg (e :: rest) = ([], Some ValueError)).
Proof.
  intros seg e Hb Hbad.
  assert (Hcat : String.eqb (category e) "DLL-EX" = false /\
                 Segmenter.on_se_recv e = fun _ => Raised ValueError).
  { unfold bad_seconds in Hbad. unfold Segmenter.on_se_recv.
    destruct (Re.search Segmenter.se_recv (message e)) as [m|]; [|discriminate Hbad].
    apply andb_prop in Hbad. destruct Hbad as [Hc Hf].
    rewrite Hc. apply String.eqb_eq in Hc. rewrite Hc. split; [reflexivity|].
    destruct (Str.py_float (Segmenter.g 1 m)); [discriminate Hf|reflexivity]. }
  destruct Hcat as [Hcat Hrecv].
  assert (Hstep : Segmenter._process_entry seg e =
                  match Segmenter._current seg with
                  | Some _ => Raised ValueError
                  | None => Returned (seg, None)
                  end).
  { unfold Segmenter._process_entry. rewrite Hb, Hcat, andb_false_r.
    destruct (Segmenter._current seg); [|reflexivity].
    unfold Segmenter.in_progress. rewrite Hrecv. reflexivity. }
  split.
  - rewrite Hstep. destruct (Segmenter._current seg).
    + split; [discriminate|reflexivity].
    + split; [discriminate|intros H; contradiction].
  - intros Hc rest. cbn [Segmenter.process_from]. rewrite Hstep.
    destruct (Segmenter._current seg); [reflexivity|contradiction].
Qed.

Lemma malformed_seconds_witness :
  Segmenter.process_from
    (Segmenter._start_new (entry_at 1 0 "DLL-EX" "MTX_POS_BeginOrder"))
    [ entry_at 2 1000000 "SVREPS" "SE_RECV(1.2.3 secs) [250 bytes] Ae9218 Af00" ]
  = ([], Some ValueError).
Proof.
  destruct (malformed_seconds_raise_in_progress
              (Segmenter._start_new (entry_at 1 0 "DLL-EX" "MTX_POS_BeginOrder"))
              (entry_at 2 1000000 "SVREPS" "SE_RECV(1.2.3 secs) [250 bytes] Ae9218 Af00"))
    as [_ H].
  - vm_compute. reflexivity.
  - vm_compute. reflexivity.
  - apply H. discriminate.
Defined.

(** ** The detectors of the rule engine *)

Section SerialClusters.

Import Rules RuleEngine.

Lemma ltb_lt (a b : Q) : ltb a b = true <-> a < b.
Proof.
  unfold ltb, gtb. destruct (Qlt_le_dec a b) as [H|H].
  - split; [intros _; exact H|reflexivity].
  - split; [discriminate|]. intros H'. exfalso. exact (Qlt_not_le _ _ H' H).
Qed.

Lemma ltb_ge (a b : Q) : ltb a b = false <-> b <= a.
Proof.
  unfold ltb, gtb. destruct (Qlt_le_dec a b) as [H|H].
  - split; [discriminate|]. intros H'. exfalso. exact (Qlt_not_le _ _ H H').
  - split; [intros _; exact H|reflexivity].
Qed.

Lemma close_chain_snoc (cur : list (datetime * string)) (a row : datetime * string) :
  close_chain cur -> Py.last_opt cur = Some a ->
  Datetime.total_seconds (fst row - fst a) < 10 ->
  close_chain (cur ++ [row]).
Proof.
  induction cur as [|x cur IH]; intros Hc Hl Hgap.
  - discriminate Hl.
  - destruct cur as [|y cur].
    + unfold Py.last_opt in Hl. simpl in Hl. injection Hl as ->.
      simpl. split; [exact Hgap|exact I].
    + change ((x :: y :: cur) ++ [row]) with (x :: y :: (cur ++ [row])).
      destruct Hc as [Hxy Hc]. split; [exact Hxy|].
      apply IH; [exact Hc| |exact Hgap].
      rewrite <- Hl. symmetry. apply (last_opt_app_cons [x] cur y).
Qed.

Lemma last_opt_nonempty {A : Type} (l : list A) :
  l <> [] -> exists a, Py.last_opt l = Some a.
Proof.
  intros H. destruct (Py.last_opt l) as [a|] eqn:E; [exists a; reflexivity|].
  unfold Py.last_opt in E. destruct (rev l) eqn:Er; [|discriminate E].
  apply (f_equal (@rev _)) in Er. rewrite rev_involutive in Er.
  contradiction.
Qed.

(** The loop from a cluster in progress that is not empty. *)
Lemma cluster_loop_spec (rows cur : list (datetime * string)) :
  cur <> [] -> close_chain cur ->
  List.concat (cluster_loop cur rows) = cur ++ rows /\
  Forall (fun c => c <> [] /\ close_chain c) (cluster_loop cur rows) /\
  apart (cluster_loop cur rows) /\
  (exists c rest, cluster_loop cur rows = (cur ++ c) :: rest).
Proof.
  revert cur. induction rows as [|row rows IH]; intros cur Hne Hc.
  - cbn [cluster_loop List.concat]. rewrite !app_nil_r.
    split; [reflexivity|]. split; [constructor; [split; assumption|constructor]|].
    split; [exact I|]. exists [], []. rewrite app_nil_r. reflexivity.
  - cbn [cluster_loop].
    destruct (last_opt_nonempty cur Hne) as [a Ha].
    destruct (joins cur row) eqn:Ej.
    + assert (Hgap : Datetime.total_seconds (fst row - fst a) < 10).
      { unfold joins in Ej. rewrite Ha in Ej. apply ltb_lt. exact Ej. }
      destruct (IH (cur ++ [row])) as [I1 [I2 [I3 [c [rest I4]]]]].
      * intros H. apply app_eq_nil in H. destruct H as [_ H]. discriminate H.
      * apply (close_chain_snoc cur a row Hc Ha Hgap).
      * split; [rewrite I1, <- app_assoc; reflexivity|].
        split; [exact I2|]. split; [exact I3|].
        exists (row :: c), rest. rewrite I4, <- app_assoc. reflexivity.
    + assert (Hgap : 10 <= Datetime.total_seconds (fst row - fst a)).
      { unfold joins in Ej. rewrite Ha in Ej. apply ltb_ge. exact Ej. }
      destruct (IH [row]) as [I1 [I2 [I3 [c [rest I4]]]]].
      * discriminate.
      * exact I.
      * split; [cbn [List.concat]; rewrite I1; reflexivity|].
        split; [constructor; [split; assumption|exact I2]|].
        split; [|exists [], (cluster_loop [row] rows); rewrite app_nil_r; reflexivity].
        rewrite I4 in *. split; [|exact I3].
        intros a' b Ha' Hb. rewrite Ha in Ha'. injection Ha' as <-.
        cbn [app hd_error] in Hb. injection Hb as <-. exact Hgap.
Qed.

Variable str_datetime : datetime -> string.
Variable format_f : nat -> Q -> string.

Lemma cluster_issue_needs_two (c : list (datetime * string)) :
  (2 * List.length (cluster_issue str_datetime format_f c) <= List.length c)%nat.
Proof.
  unfold cluster_issue. destruct c as [|x c]; [simpl; lia|].
  destruct (Py.last_opt (x :: c)); [|simpl; lia].
  destruct (len (x :: c) >=? 2)%Z eqn:E; [|simpl; lia].
  unfold len in E. apply Z.geb_le in E. cbn [List.length] in *. lia.
Qed.

Lemma cluster_issues_count (clusters : list (list (datetime * string))) :
  (2 * List.length (flat_map (cluster_issue str_datetime format_f) clusters)
   <= List.length (List.concat clusters))%nat.
Proof.
  induction clusters as [|c clusters IH]; [simpl; lia|].
  cbn [flat_map List.concat]. rewrite !length_app.
  pose proof (cluster_issue_needs_two c). lia.
Qed.

End SerialClusters.

(** X23.  The clusters of ACK failures split the rows of the query as
    they are: joined in order they give the rows back, none is empty,
    consecutive failures inside a cluster are less than ten seconds
    apart, and from the end of one cluster to the start of the next
    there are ten seconds or more.  Only a cluster of two or more makes
    an issue, so [n] failures make at most [n/2] issues. *)
Theorem serial_clusters_split_the_failures :
  forall (str_datetime : datetime -> string) (format_f : nat -> Q -> string)
         (rows : list (datetime * string)),
    List.concat (RuleEngine.clusters_of rows) = rows /\
    Forall (fun c => c <> [] /\ close_chain c) (RuleEngine.clusters_of rows) /\
    apart (RuleEngine.clusters_of rows) /\
    (2 * List.length (RuleEngine._check_serial_failures str_datetime format_f rows)
     <= List.length rows)%nat.
Proof.
  intros str_datetime format_f rows.
  assert (H : List.concat (RuleEngine.clusters_of rows) = rows /\
              Forall (fun c => c <> [] /\ close_chain c) (RuleEngine.clusters_of rows) /\
              apart (RuleEngine.clusters_of rows)).
  { destruct rows as [|row rows].
    - split; [reflexivity|]. split; [constructor|exact I].
    - cbn [RuleEngine.clusters_of].
      destruct (cluster_loop_spec rows [row]) as [H1 [H2 [H3 _]]];
        [discriminate|exact I|].
      split; [exact H1|]. split; assumption. }
  destruct H as [H1 [H2 H3]].
  split; [exact H1|]. split; [exact H2|]. split; [exact H3|].
  unfold RuleEngine._check_serial_failures.
  rewrite <- H1 at 2. apply cluster_issues_count.
Qed.

Section DeclineRuns.

Import Rules RuleEngine.

Lemma has_decline_run_cons (n : nat) (row : decline_row) (rows : list decline_row) :
  has_decline_run n rows -> has_decline_run n (row :: rows).
Proof.
  intros [pre [run [post [H1 [H2 H3]]]]].
  exists (row :: pre), run, post. rewrite H1. split; [reflexivity|]. split; assumption.
Qed.

Lemma forallb_firstn {A : Type} (p : A -> bool) (k n : nat) (l : list A) :
  (n <= k)%nat -> forallb p (firstn k l) = true -> forallb p (firstn n l) = true.
Proof.
  revert k n. induction l as [|x l IH]; intros k n Hle H.
  - rewrite firstn_nil. reflexivity.
  - destruct n as [|n]; [reflexivity|]. destruct k as [|k]; [lia|].
    cbn [firstn forallb] in *. apply andb_prop in H. destruct H as [Hx H].
    rewrite Hx. cbn [andb]. apply (IH k n); [lia|exact H].
Qed.

Lemma prefix_run (n k : nat) (rows : list decline_row) :
  (n <= k)%nat -> (k <= List.length rows)%nat ->
  forallb is_decline (firstn k rows) = true ->
  has_decline_run n rows.
Proof.
  intros Hnk Hk H. exists [], (firstn n rows), (skipn n rows).
  cbn [app]. rewrite firstn_skipn. split; [reflexivity|].
  split; [apply firstn_length_le; lia|].
  apply (forallb_firstn _ k n _ Hnk H).
Qed.

(** The longest run the loop has seen reaches [n] exactly when it did
    before, or the run in progress grows to [n] over the first rows, or
    [n] of the rows in a row are declines. *)
Lemma decline_loop_spec (n : nat) (rows : list decline_row) :
  (0 < n)%nat ->
  forall (c m : Z) (ds : option datetime),
    (0 <= c <= m)%Z ->
    (Z.of_nat n <= snd (fst (decline_loop c m ds rows)))%Z <->
    ((Z.of_nat n <= m)%Z \/
     (exists k, (Z.of_nat n <= c + Z.of_nat k)%Z /\ (k <= List.length rows)%nat /\
                forallb is_decline (firstn k rows) = true) \/
     has_decline_run n rows).
Proof.
  intros Hn. induction rows as [|row rows IH]; intros c m ds Hcm.
  - cbn [decline_loop fst snd]. split.
    + intros H. left. exact H.
    + intros [H|[[k [H1 [H2 _]]]|[pre [run [post [H1 [H2 _]]]]]]].
      * exact H.
      * cbn [List.length] in H2. lia.
      * symmetry in H1. apply app_eq_nil in H1. destruct H1 as [_ H1].
        apply app_eq_nil in H1. destruct H1 as [H1 _]. subst run.
        cbn [List.length] in H2. lia.
  - cbn [decline_loop]. destruct (is_decline row) eqn:Ed.
    + rewrite IH by lia. split.
      * intros [H|[[k [H1 [H2 H3]]]|H]].
        -- destruct (Z.max_spec m (c + 1)) as [[_ E]|[_ E]]; rewrite E in H.
           ++ right. left. exists 1%nat. split; [lia|]. split; [cbn; lia|].
              cbn [firstn forallb]. rewrite Ed. reflexivity.
           ++ left. exact H.
        -- right. left. exists (S k). split; [lia|]. split; [cbn; lia|].
           cbn [firstn forallb]. rewrite Ed. exact H3.
        -- right. right. apply has_decline_run_cons. exact H.
      * intros [H|[[k [H1 [H2 H3]]]|[pre [run [post [H1 [H2 H3]]]]]]].
        -- left. lia.
        -- destruct k as [|k]; [left; lia|].
           right. left. exists k. split; [lia|]. split; [cbn in H2; lia|].
           cbn [firstn forallb] in H3. apply andb_prop in H3. apply H3.
        -- destruct pre as [|x pre].
           ++ destruct run as [|x run]; [cbn in H2; lia|].
              cbn [app] in H1. injection H1 as _ H1.
              cbn [forallb] in H3. apply andb_prop in H3. destruct H3 as [_ H3].
              right. left. exists (List.length run).
              cbn [List.length] in H2. split; [lia|].
              split; [rewrite H1, length_app; lia|].
              rewrite H1, firstn_app, Nat.sub_diag, firstn_all. cbn [firstn].
              rewrite app_nil_r. exact H3.
           ++ cbn [app] in H1. injection H1 as _ H1.
              right. right. exists pre, run, post. split; [exact H1|]. split; assumption.
    + rewrite IH by lia. split.
      * intros [H|[[k [H1 [H2 H3]]]|H]].
        -- left. exact H.
        -- right. right. apply has_decline_run_cons.
           apply (prefix_run n k rows); [lia|exact H2|exact H3].
        -- right. right. apply has_decline_run_cons. exact H.
      * intros [H|[[k [H1 [H2 H3]]]|[pre [run [post [H1 [H2 H3]]]]]]].
        -- left. exact H.
        -- destruct k as [|k]; [left; lia|].
           cbn [firstn forallb] in H3. rewrite Ed in H3. discriminate H3.
        -- destruct pre as [|x pre].
           ++ destruct run as [|x run]; [cbn in H2; lia|].
              cbn [app] in H1. injection H1 as <- _.
              cbn [forallb] in H3. rewrite Ed in H3. discriminate H3.
           ++ cbn [app] in H1. injection H1 as _ H1.
              right. right. exists pre, run, post. split; [exact H1|]. split; assumption.
Qed.

End DeclineRuns.

(** X24.  The repeated-decline rule fires exactly on three declines in
    a row: [_check_transaction_health] reports an issue if and only if
    three consecutive rows of the query carry the response code DD or
    DN; it never reports more than one, and its confidence is 0.7. *)
Theorem repeated_decline_iff_three_in_a_row :
  forall (str_datetime : datetime -> string) (rows : list RuleEngine.decline_row),
    (RuleEngine._check_transaction_health str_datetime rows <> [] <->
     has_decline_run 3 rows) /\
    (List.length (RuleEngine._check_transaction_health str_datetime rows) <= 1)%nat /\
    Forall (fun i => Rules.confidence i = 0.7 /\
                     Rules.issue_type i = "repeated_decline")
           (RuleEngine._check_transaction_health str_datetime rows).
Proof.
  intros str_datetime rows.
  assert (Hspec := decline_loop_spec 3 rows ltac:(lia) 0%Z 0%Z None ltac:(lia)).
  unfold RuleEngine._check_transaction_health.
  destruct rows as [|row rows].
  - split; [|split; [simpl; lia|constructor]].
    split; [intros H; contradiction|].
    intros [pre [run [post [H1 [H2 _]]]]].
    symmetry in H1. apply app_eq_nil in H1. destruct H1 as [_ H1].
    apply app_eq_nil in H1. destruct H1 as [H1 _]. subst run. discriminate H2.
  - destruct (RuleEngine.decline_loop 0 0 None (row :: rows)) as [[c m] ds].
    cbn [fst snd] in Hspec.
    destruct (m >=? 3)%Z eqn:E.
    + split; [|split; [simpl; lia|constructor; [split; reflexivity|constructor]]].
      split; [|discriminate]. intros _.
      apply Z.geb_le in E.
      destruct (proj1 Hspec E) as [H|[[k [H1 [H2 H3]]]|H]].
      * lia.
      * apply (prefix_run 3 k (row :: rows)); [lia|exact H2|exact H3].
      * exact H.
    + split; [|split; [simpl; lia|constructor]].
      split; [intros H; contradiction|].
      intros H.
      assert (Hm : (3 <= m)%Z) by (apply (proj2 Hspec); right; right; exact H).
      apply Z.geb_le in Hm. rewrite Hm in E. discriminate E.
Qed.

(** ** The confidence of an issue *)

Section Confidence.

Import Rules RuleEngine.

Variable str_datetime : datetime -> string.
Variable format_f : nat -> Q -> string.
Variable repr_set : list string -> string.
Variables window_start window_end : option datetime.

Lemma pymin_bounds (lo hi a b : Q) :
  lo < a -> a <= hi -> lo < b -> lo < pymin a b /\ pymin a b <= hi.
Proof.
  intros Ha Hh Hb. unfold pymin. destruct (Qlt_le_dec b a) as [H|H].
  - split; [exact Hb|]. apply Qlt_le_weak. apply (Qlt_le_trans _ _ _ H Hh).
  - split; assumption.
Qed.

Lemma gtb_lt (a b : Q) : gtb a b = true -> b < a.
Proof. unfold gtb. destruct (Qlt_le_dec b a); [trivial|discriminate]. Qed.

Lemma geb_le (a b : Q) : geb a b = true -> b <= a.
Proof. unfold geb. apply Qle_bool_iff. Qed.

Lemma make_issue_scored (it : IssueType) (c : Q) (tr ev : string) :
  (1 <= it_severity_rank it <= 4)%Z -> 0.5 < c /\ c <= 0.99 ->
  well_scored (_make_issue it c tr ev).
Proof. intros H [H1 H2]. split; [exact H1|]. split; [exact H2|exact H]. Qed.

Ltac rank := vm_compute; split; discriminate.

Lemma pymin_scored (a b : Q) :
  0.5 < a -> a <= 0.99 -> 0.5 < b -> 0.5 < pymin a b /\ pymin a b <= 0.99.
Proof. apply pymin_bounds. Qed.

Lemma closed_issue_scored (ds ts : datetime) :
  Forall well_scored
    (closed_issue str_datetime format_f window_start window_end ds ts).
Proof.
  unfold closed_issue.
  destruct (gtb (Datetime.total_seconds (ts - ds)) 60) eqn:E; [|constructor].
  destruct (negb _); [|constructor].
  apply gtb_lt in E. constructor; [|constructor].
  apply make_issue_scored; [rank|].
  apply pymin_scored; [lra|lra|].
  unfold Qdiv. change (/ 3600) with (1 # 3600). lra.
Qed.

Lemma dead_loop_scored (rows : list (datetime * Z)) (ds : option datetime) :
  Forall well_scored
    (fst (dead_loop str_datetime format_f window_start window_end ds rows)).
Proof.
  revert ds. induction rows as [|[ts status] rows IH]; intros ds; [constructor|].
  cbn [dead_loop]. destruct ds as [d|].
  - destruct (negb (status =? 0)%Z); [|apply IH].
    specialize (IH None).
    destruct (dead_loop str_datetime format_f window_start window_end None rows)
      as [issues fin].
    cbn [fst] in *. apply Forall_app. split; [apply closed_issue_scored|exact IH].
  - destruct (status =? 0)%Z; apply IH.
Qed.

Lemma check_scat_dead_scored (rows : list (datetime * Z)) :
  Forall well_scored
    (_check_scat_dead str_datetime format_f window_start window_end rows).
Proof.
  unfold _check_scat_dead. destruct rows as [|row rows]; [constructor|].
  pose proof (dead_loop_scored (row :: rows) None) as H.
  destruct (dead_loop str_datetime format_f window_start window_end None (row :: rows))
    as [issues fin].
  cbn [fst] in H. apply Forall_app. split; [exact H|].
  unfold still_dead. destruct fin as [d|]; [|constructor].
  destruct (Py.last_opt (row :: rows)) as [[last_ts s]|]; [|constructor].
  destruct (gtb _ 60); [|constructor].
  destruct (negb _); [|constructor].
  constructor; [|constructor].
  apply make_issue_scored; [rank|]. split; lra.
Qed.

Lemma check_serial_failures_scored (rows : list (datetime * string)) :
  Forall well_scored (_check_serial_failures str_datetime format_f rows).
Proof.
  unfold _check_serial_failures. apply Forall_flat_map.
  apply Forall_forall. intros c _.
  unfold cluster_issue. destruct c as [|x c]; [constructor|].
  destruct (Py.last_opt (x :: c)); [|constructor].
  destruct (len (x :: c) >=? 2)%Z eqn:E; [|constructor].
  constructor; [|constructor].
  apply make_issue_scored; [rank|].
  apply Z.geb_le in E. rewrite Zle_Qle in E.
  apply pymin_scored; [lra|lra|].
  change (inject_Z 2) with 2 in E. lra.
Qed.

Lemma check_servereps_errors_scored (rows : list health_row) :
  Forall well_scored (_check_servereps_errors str_datetime repr_set rows).
Proof.
  unfold _check_servereps_errors. destruct rows as [|row rows]; [constructor|].
  apply Forall_app. split.
  - destruct (filter is_http_500 (row :: rows)); [constructor|].
    constructor; [|constructor]. apply make_issue_scored; [rank|]. split; lra.
  - destruct (filter is_socket_error (row :: rows)); [constructor|].
    constructor; [|constructor]. apply make_issue_scored; [rank|]. split; lra.
Qed.

Lemma check_p2p_mismatch_scored (rows : list (datetime * string)) :
  Forall well_scored (_check_p2p_mismatch str_datetime rows).
Proof.
  unfold _check_p2p_mismatch. destruct rows as [|row rows]; [constructor|].
  constructor; [|constructor]. apply make_issue_scored; [rank|]. split; lra.
Qed.

Lemma check_transaction_health_scored (rows : list decline_row) :
  Forall well_scored (_check_transaction_health str_datetime rows).
Proof.
  unfold _check_transaction_health. destruct rows as [|row rows]; [constructor|].
  destruct (decline_loop 0 0 None (row :: rows)) as [[c m] ds].
  destruct (m >=? 3)%Z; [|constructor].
  constructor; [|constructor]. apply make_issue_scored; [rank|]. split; lra.
Qed.

Lemma check_host_latency_scored (rows : list (datetime * Q * option string)) :
  Forall (fun r => 5000 < snd (fst r)) rows ->
  Forall well_scored (_check_host_latency str_datetime format_f rows).
Proof.
  intros H. unfold _check_host_latency.
  destruct rows as [|[[start lat] url] rows]; [constructor|].
  inversion H as [|r l Hr _]; subst. cbn [fst snd] in Hr.
  constructor; [|constructor]. apply make_issue_scored; [rank|].
  apply pymin_scored; [lra|lra|].
  unfold Qdiv. change (/ 20000) with (1 # 20000). lra.
Qed.

Lemma check_error_cascades_scored (rows : list cascade_row) :
  Forall (fun r => (3 <= cr_error_count r)%Z) rows ->
  Forall well_scored (_check_error_cascades str_datetime rows).
Proof.
  intros H. unfold _check_error_cascades. apply Forall_map.
  apply (Forall_impl _ (P := fun r => (3 <= cr_error_count r)%Z)); [|exact H].
  intros r Hr. unfold cascade_issue.
  apply make_issue_scored; [destruct (Str.contains _ _); rank|].
  rewrite Zle_Qle in Hr. change (inject_Z 3) with 3 in Hr.
  apply pymin_scored; lra.
Qed.

Lemma burst_loop_nonneg (rows : list txn_row) (m c : Z) :
  (0 <= m)%Z -> (0 <= c)%Z ->
  (0 <= fst (burst_loop m c rows))%Z /\ (0 <= snd (burst_loop m c rows))%Z.
Proof.
  revert m c. induction rows as [|r rows IH]; intros m c Hm Hc.
  - split; assumption.
  - cbn [burst_loop]. destruct (is_real_noread r).
    + apply IH; lia.
    + apply IH; [|lia]. destruct (c >? m)%Z; assumption.
Qed.

Lemma max_burst_of_nonneg (rows : list txn_row) : (0 <= max_burst_of rows)%Z.
Proof.
  unfold max_burst_of.
  destruct (burst_loop_nonneg rows 0 0) as [H1 H2]; [lia|lia|].
  destruct (burst_loop 0 0 rows) as [m c]. cbn [fst snd] in *.
  destruct (c >? m)%Z; assumption.
Qed.

Lemma figures_max_burst (rows : list txn_row) :
  max_burst (figures_of rows) = max_burst_of rows.
Proof. unfold figures_of. destruct (collect rows). reflexivity. Qed.

Lemma check_card_read_scored (rows : list txn_row) (hourly : list (Z * Z * Z)) :
  Forall well_scored
    (_check_card_read_intermittent str_datetime format_f rows hourly).
Proof.
  unfold _check_card_read_intermittent.
  destruct (len rows <? 5)%Z; [constructor|].
  destruct (no_read_count (figures_of rows) =? 0)%Z; [constructor|].
  destruct ((max_burst (figures_of rows) >=? 3)%Z
            || geb (no_read_pct (figures_of rows)) 30).
  - constructor; [|constructor]. apply make_issue_scored; [rank|].
    pose proof (max_burst_of_nonneg rows) as H.
    rewrite <- figures_max_burst in H. rewrite Zle_Qle in H.
    change (inject_Z 0) with 0 in H.
    apply pymin_scored; lra.
  - destruct (geb (no_read_pct (figures_of rows)) 15) eqn:E; [|constructor].
    destruct (total (figures_of rows) >=? 10)%Z; [|constructor].
    cbn [andb]. constructor; [|constructor]. apply make_issue_scored; [rank|].
    apply geb_le in E.
    apply pymin_scored; [lra|lra|].
    unfold Qdiv. change (/ 100) with (1 # 100). lra.
Qed.

End Confidence.

(** X25.  Every issue of [analyze_file] is well scored: whatever the
    rows are, as long as the slow transactions have a latency above
    5,000 ms and the cascades three errors or more, as their queries
    ask, the confidence of each issue lies above 0.5 and at most at
    0.99, and its severity rank is one of 1 to 4. *)
Theorem analyze_file_issues_are_well_scored :
  forall (str_datetime : datetime -> string) (format_f : nat -> Q -> string)
         (repr_set : list string -> string)
         (window_start window_end : option datetime)
         (fd : RuleEngine.file_data),
    as_queried fd ->
    Forall well_scored
      (RuleEngine.analyze_file str_datetime format_f repr_set
         window_start window_end fd).
Proof.
  intros str_datetime format_f repr_set window_start window_end fd [Hslow Hcasc].
  unfold RuleEngine.analyze_file.
  repeat (apply Forall_app; split).
  - apply check_scat_dead_scored.
  - apply check_serial_failures_scored.
  - apply check_servereps_errors_scored.
  - apply check_p2p_mismatch_scored.
  - apply check_transaction_health_scored.
  - apply check_host_latency_scored. exact Hslow.
  - apply check_error_cascades_scored. exact Hcasc.
  - apply check_card_read_scored.
Qed.

Lemma analyze_file_scored_witness :
  Forall well_scored
    (RuleEngine.analyze_file (fun ts => Str.of_Z ts) (fun _ _ => "0")
       (fun l => Str.join ", " l) None None
       (RuleEngine.mkFileData
          [ (0, 0); (90000000, 1) ]%Z
          [ (0%Z, "SendMsgWaitAck3Tries failed"); (2000000%Z, "SendMsgWaitAck3Tries failed") ]
          [] []
          [ (0%Z, Some "DD", None, None); (1000000%Z, Some "DN", None, None);
            (2000000%Z, Some "DD", None, None) ]
          [ (0%Z, 6250, None) ]
          [ RuleEngine.mkCascadeRow 0%Z (Some 5000000%Z) (Some 5000)
              (Some "SendMsgWaitAck3Tries failed") 4%Z (Some false) ]
          [] [])).
Proof.
  apply analyze_file_issues_are_well_scored.
  split.
  - constructor; [reflexivity|constructor].
  - constructor; [simpl; lia|constructor].
Defined.

(** ** How many transactions, and how long *)

Section SegmenterCounts.

Import Segmenter.

Lemma in_progress_count (state : TransactionState) (t : Txn.TransactionData)
      (buffer : list LogEntry) (e : LogEntry)
      (seg' : segmenter) (r : option Txn.TransactionData) :
  in_progress state t buffer e = Returned (seg', r) ->
  ((if is_some r then 1 else 0) + open_count seg' <= 1)%nat.
Proof.
  unfold in_progress. intros H.
  destruct (on_se_recv e _) as [st|x]; [|discriminate H].
  cbn [bind] in H.
  destruct (is_some (Re.search end_order (message e))).
  { injection H as <- <-. cbn. lia. }
  destruct (_ && _).
  { injection H as <- <-. cbn. lia. }
  injection H as <- <-. cbn. lia.
Qed.

Lemma process_entry_count (seg seg' : segmenter) (e : LogEntry)
      (r : option Txn.TransactionData) :
  _process_entry seg e = Returned (seg', r) ->
  ((if is_some r then 1 else 0) + open_count seg'
   <= open_count seg + (if start_signal e then 1 else 0))%nat.
Proof.
  unfold _process_entry, start_signal. intros H.
  destruct (is_some (Re.search begin_order (message e))).
  - cbn [orb]. injection H as <- <-. unfold open_count at 2.
    destruct (_current seg) as [t|]; cbn; [|lia].
    destruct (is_some (Txn.start_time t)); cbn; lia.
  - cbn [orb].
    destruct (is_some (Re.search tender_type_set (message e))
              && String.eqb (category e) "DLL-EX") eqn:Es.
    + rewrite <- andb_assoc, Es, andb_true_r in H.
      destruct (state_eqb (_state seg) IDLE).
      * cbn [_start_new _current _state _entries_buffer] in H.
        apply in_progress_count in H. lia.
      * unfold open_count at 2.
        destruct (_current seg) as [t|] eqn:Ec.
        -- apply in_progress_count in H. lia.
        -- injection H as <- <-. unfold open_count. rewrite Ec. cbn. lia.
    + rewrite <- andb_assoc, Es, andb_false_r in H.
      unfold open_count at 2.
      destruct (_current seg) as [t|] eqn:Ec.
      * apply in_progress_count in H. lia.
      * injection H as <- <-. unfold open_count. rewrite Ec. cbn. lia.
Qed.

Lemma process_from_count (entries : list LogEntry) (seg : segmenter) :
  (List.length (fst (process_from seg entries))
   <= open_count seg + List.length (filter start_signal entries))%nat.
Proof.
  revert seg. induction entries as [|e entries IH]; intros seg.
  - cbn [process_from fst filter List.length]. unfold flush, open_count.
    destruct (_current seg) as [t|]; [|cbn; lia].
    destruct (is_some (Txn.start_time t)); cbn; lia.
  - cbn [process_from filter].
    destruct (_process_entry seg e) as [[seg' r]|x] eqn:Ep; [|cbn; lia].
    apply process_entry_count in Ep. specialize (IH seg').
    destruct (process_from seg' entries) as [out err]. cbn [fst] in *.
    destruct (start_signal e); destruct r as [t|]; cbn [is_some List.length] in *; lia.
Qed.

Lemma sorted_nth (l : list Z) (i j : nat) (a b : Z) :
  StronglySorted Z.le l -> (i <= j)%nat ->
  nth_error l i = Some a -> nth_error l j = Some b -> (a <= b)%Z.
Proof.
  intros Hs. revert i j. induction Hs as [|x l Hs IH Hx]; intros i j Hij Ha Hb.
  - destruct i; discriminate Ha.
  - destruct i as [|i], j as [|j]; cbn [nth_error] in *.
    + injection Ha as <-. injection Hb as <-. lia.
    + injection Ha as <-. apply nth_error_In in Hb.
      rewrite Forall_forall in Hx. apply Hx. exact Hb.
    + lia.
    + apply (IH i j); [lia|assumption|assumption].
Qed.

End SegmenterCounts.

(** X26.  No transaction without a start: a stream never yields more
    transactions than it has entries that start one, a begin-order
    marker or, on DLL-EX, a tender-type-set marker. *)
Theorem transactions_bounded_by_start_signals :
  forall (entries : list LogEntry),
    (List.length (fst (Segmenter.process_entries entries))
     <= List.length (filter start_signal entries))%nat.
Proof.
  intros entries.
  apply (process_from_count entries Segmenter.init).
Qed.

(** X27.  In a log whose timestamps never go back, no transaction has a
    negative duration: [duration_ms] of every transaction yielded is
    the time from the entry it starts at to the entry it ends at, in
    milliseconds, and is not below 0. *)
Theorem transaction_durations_are_not_negative :
  forall (entries : list LogEntry) (t : Txn.TransactionData),
    StronglySorted Z.le (map timestamp entries) ->
    In t (fst (Segmenter.process_entries entries)) ->
    0 <= Txn.duration_ms t /\
    exists first last,
      In first entries /\ In last entries /\
      Txn.duration_ms t
      = Datetime.total_seconds (timestamp last - timestamp first) * 1000.
Proof.
  intros entries t Hs Hin.
  destruct (process_from_bounds entries [] Segmenter.init t) as
    [i [j [first [last [Hij [Hi [Hj [_ [Hst [_ Hen]]]]]]]]]];
    [intros t0 Ht0; discriminate Ht0|exact Hin|].
  cbn [app] in Hi, Hj.
  assert (Hle : (timestamp first <= timestamp last)%Z).
  { apply (sorted_nth (map timestamp entries) i j); [exact Hs|exact Hij| |].
    - rewrite nth_error_map, Hi. reflexivity.
    - rewrite nth_error_map, Hj. reflexivity. }
  unfold Txn.duration_ms. rewrite Hst, Hen. split.
  - unfold Datetime.total_seconds, Qle, Qmult. cbn [Qnum Qden]. nia.
  - exists first, last. split; [apply (nth_error_In _ _ Hi)|].
    split; [apply (nth_error_In _ _ Hj)|reflexivity].
Qed.

Lemma transaction_durations_witness :
  0 <= Txn.duration_ms
         (nth 0 (fst (Segmenter.process_entries
                        [ entry_at 1 0 "DLL-EX" "MTX_POS_BeginOrder";
                          entry_at 2 1000000 "TCP/IP" "ResponseCode = AA";
                          entry_at 3 2000000 "DLL-EX" "MTX_POS_EndOrder" ]))
              fresh_txn).
Proof.
  destruct (transaction_durations_are_not_negative
              [ entry_at 1 0 "DLL-EX" "MTX_POS_BeginOrder";
                entry_at 2 1000000 "TCP/IP" "ResponseCode = AA";
                entry_at 3 2000000 "DLL-EX" "MTX_POS_EndOrder" ]
              (nth 0 (fst (Segmenter.process_entries
                        [ entry_at 1 0 "DLL-EX" "MTX_POS_BeginOrder";
                          entry_at 2 1000000 "TCP/IP" "ResponseCode = AA";
                          entry_at 3 2000000 "DLL-EX" "MTX_POS_EndOrder" ]))
                   fresh_txn)) as [H _].
  - cbn [map timestamp entry_at].
    repeat (constructor; [|repeat (constructor; [lia|]); constructor]).
    constructor.
  - vm_compute. left. reflexivity.
  - exact H.
Defined.
